(** * The bluetooth integration: matching, match cache, callback registry,
      availability tracking and scanner start-up

    A shallow embedding of [homeassistant/components/bluetooth/__init__.py].
    Python values are modelled as follows.
    - [str] is [string]; [Optional[str]] is [option string]; [int] is [Z];
      [bytes] is [list byte].
    - [dict] is stdpp's [gmap], [set] is [gset]; a [list] is a [list].
    - A callable handed to the manager is a handle (a number, compared the
      way Python compares function objects: by identity).  What the callable
      does when it is invoked is given by an [Environment]: it returns, or
      it raises.  The body of a callback does not call back into the manager,
      except in [_device_detected_live], where a subscriber is any
      computation on the manager.
    - A method of the manager is a computation in the monad [M]: it reads and
      writes the manager, emits events (invocations of callbacks, exception
      logs, discovery flows) and either returns or raises.
    - [async_stop] and the functions of the module are computations in the
      monad [L], which adds the events of the life cycle; the functions of
      the module work on the entry of [hass.data] under [DOMAIN]. *)

From stdpp Require Import base strings list gmap sets.
From Stdlib Require Import ZArith.
From Stdlib.Strings Require Import Byte Ascii.

Local Open Scope Z_scope.

(** ** Python exceptions *)

(** The exception classes the module names, one representative of any other
    subclass of [Exception], and one of the classes that derive from
    [BaseException] only ([KeyboardInterrupt], [SystemExit],
    [asyncio.CancelledError]). *)
Inductive exc_class :=
  | FileNotFoundError
  | BleakError
  | RuntimeError
  | ConfigEntryNotReady
  | AssertionError
  | KeyError
  | ValueError
  | AttributeError
  | TypeError
  | OtherException
  | OtherBaseException.

Record pyexc := PyExc { exc_type : exc_class; exc_str : string }.

(** [isinstance(ex, Exception)]. *)
Definition isinstance_Exception (ex : pyexc) : bool :=
  match exc_type ex with
  | OtherBaseException => false
  | _ => true
  end.

(** [isinstance(ex, (FileNotFoundError, BleakError))], the clause of both
    handlers in [async_start]. *)
Definition isinstance_FileNotFoundError_BleakError (ex : pyexc) : bool :=
  match exc_type ex with
  | FileNotFoundError | BleakError => true
  | _ => false
  end.

(** The outcome of a statement or call: normal completion with a value, or
    an exception in flight. *)
Inductive completion (A : Type) :=
  | Returns (a : A)
  | Raises (ex : pyexc).
Arguments Returns {A} a.
Arguments Raises {A} ex.

(** ** Data model *)

Definition bytes := list byte.

Global Instance byte_eq_decision : EqDecision byte := byte_eq_dec.

(** [bleak.backends.device.BLEDevice], the fields the module reads. *)
Module BLEDevice.
Record t := mk {
  address : string;
  name : option string;
  rssi : Z
}.
End BLEDevice.
Abbreviation BLEDevice := BLEDevice.t.

(** [bleak.backends.scanner.AdvertisementData]. *)
Module AdvertisementData.
Record t := mk {
  local_name : option string;
  manufacturer_data : gmap Z bytes;
  service_data : gmap string bytes;
  service_uuids : list string
}.
End AdvertisementData.
Abbreviation AdvertisementData := AdvertisementData.t.

Definition SOURCE_LOCAL : string := "local".

(** [x or y] with [x : Optional[str]]: [x] when it is truthy (neither [None]
    nor the empty string), else [y]. *)
Definition str_or (x : option string) (y : string) : string :=
  match x with
  | Some (String c s) => String c s
  | Some EmptyString | None => y
  end.

(** [advertisement_data.local_name or device.name or device.address], the
    expression shared by [from_advertisement] and [_ble_device_matches]. *)
Definition name_or_address (device : BLEDevice)
    (advertisement_data : AdvertisementData) : string :=
  str_or (AdvertisementData.local_name advertisement_data)
    (str_or (BLEDevice.name device) (BLEDevice.address device)).

(** [BluetoothServiceInfoBleak]. *)
Module BluetoothServiceInfoBleak.
Record t := mk {
  name : string;
  address : string;
  rssi : Z;
  manufacturer_data : gmap Z bytes;
  service_data : gmap string bytes;
  service_uuids : list string;
  source : string;
  device : BLEDevice;
  advertisement : AdvertisementData
}.

Definition from_advertisement (device : BLEDevice)
    (advertisement_data : AdvertisementData) (source : string) : t :=
  {| name := name_or_address device advertisement_data;
     address := BLEDevice.address device;
     rssi := BLEDevice.rssi device;
     manufacturer_data :=
       AdvertisementData.manufacturer_data advertisement_data;
     service_data := AdvertisementData.service_data advertisement_data;
     service_uuids := AdvertisementData.service_uuids advertisement_data;
     source := source;
     device := device;
     advertisement := advertisement_data |}.
End BluetoothServiceInfoBleak.
Abbreviation BluetoothServiceInfoBleak := BluetoothServiceInfoBleak.t.

(** [BluetoothCallbackMatcher]: a [TypedDict] with [total=False]; a key that
    is missing is [None], which is what [matcher.get(KEY)] returns for it. *)
Module Matcher.
Record t := mk {
  address : option string;
  local_name : option string;
  service_uuid : option string;
  manufacturer_id : option Z;
  manufacturer_data_start : option bytes
}.

(** The empty dict [{}]. *)
Definition empty : t := mk None None None None None.

(** [bool(matcher)]: a dict is truthy when it has a key. *)
Definition truthy (m : t) : bool :=
  bool_decide (is_Some (address m))
  || bool_decide (is_Some (local_name m))
  || bool_decide (is_Some (service_uuid m))
  || bool_decide (is_Some (manufacturer_id m))
  || bool_decide (is_Some (manufacturer_data_start m)).

Global Instance eq_dec : EqDecision t.
Proof. solve_decision. Defined.
End Matcher.
Abbreviation BluetoothCallbackMatcher := Matcher.t.

(** An integration matcher ([homeassistant.loader.BluetoothMatcher]): the
    optional fields and the domain that owns the matcher. *)
Module BluetoothMatcher.
Record t := mk {
  domain : string;
  fields : BluetoothCallbackMatcher
}.
End BluetoothMatcher.
Abbreviation BluetoothMatcher := BluetoothMatcher.t.

(** ** [fnmatch]

    Modelled from the spec: [fnmatch.fnmatch] belongs to Python's standard
    library, not to this repository.  The spec asks for a glob match
    "supporting [*]/[?]/character-class wildcards"; the model follows
    [fnmatch.translate]: [*] is any run of characters, [?] any one character,
    [[seq]] one character of [seq], [[!seq]] one character not in [seq],
    [lo-hi] inside a class a range of code points, a [[] that no []] closes a
    literal.  A []] that comes first in a class (after the [!], if any) is a
    member of the class.  Case is not normalised ([os.path.normcase] on
    POSIX).  A [string] is a string of 8-bit characters, so [?] and a class
    stand for one such character: the model is that of [fnmatch] on
    names and patterns of ASCII characters. *)
Module fnmatch.

Inductive class_item :=
  | One (c : ascii)
  | Range (lo hi : ascii).

Inductive token :=
  | Star
  | AnyChar
  | CharClass (negated : bool) (items : list class_item)
  | Literal (c : ascii).

(** The text between the brackets, after the [!]: [x-y] is a range when a
    character follows the hyphen, every other character stands for itself. *)
Fixpoint class_items (stuff : list ascii) : list class_item :=
  match stuff with
  | [] => []
  | lo :: rest =>
      match rest with
      | "-"%char :: hi :: rest' =>
          Range lo hi ::
          (fix skip2 (l : list ascii) : list class_item :=
             match l with
             | _ :: _ :: l' => class_items l'
             | _ => []
             end) rest
      | _ => One lo :: class_items rest
      end
  end.

Definition char_class (stuff : list ascii) : token :=
  match stuff with
  | "!"%char :: stuff' => CharClass true (class_items stuff')
  | _ => CharClass false (class_items stuff)
  end.

(** The scan for the closing bracket, from the character after the [[]: an
    [!] and then a []] are stepped over, then a []] must follow somewhere. *)
Definition closes (p : list ascii) : bool :=
  let p1 := match p with "!"%char :: t => t | _ => p end in
  let p2 := match p1 with "]"%char :: t => t | _ => p1 end in
  bool_decide ("]"%char ∈ p2).

(** Where the translation stands: outside a class, or inside one with the
    characters read since the [[]. *)
Inductive where_ :=
  | Outside
  | Inside (stuff : list ascii).

Fixpoint translate_from (w : where_) (pat : list ascii) : list token :=
  match pat with
  | [] => []
  | c :: p =>
      match w with
      | Outside =>
          if bool_decide (c = "*"%char) then Star :: translate_from Outside p
          else if bool_decide (c = "?"%char) then
            AnyChar :: translate_from Outside p
          else if bool_decide (c = "["%char) then
            if closes p then translate_from (Inside []) p
            else Literal c :: translate_from Outside p
          else Literal c :: translate_from Outside p
      | Inside stuff =>
          if bool_decide (c = "]"%char)
             && negb (bool_decide (stuff = []))
             && negb (bool_decide (stuff = ["!"%char]))
          then char_class stuff :: translate_from Outside p
          else translate_from (Inside (stuff ++ [c])) p
      end
  end.

Definition translate (pat : string) : list token :=
  translate_from Outside (String.list_ascii_of_string pat).

Definition in_item (c : ascii) (i : class_item) : bool :=
  match i with
  | One x => bool_decide (c = x)
  | Range lo hi =>
      (nat_of_ascii lo <=? nat_of_ascii c)%nat
      && (nat_of_ascii c <=? nat_of_ascii hi)%nat
  end.

Definition token_matches (t : token) (c : ascii) : bool :=
  match t with
  | Star | AnyChar => true
  | CharClass negated items => xorb negated (existsb (in_item c) items)
  | Literal x => bool_decide (c = x)
  end.

(** The whole of [s] against the whole of the pattern. *)
Fixpoint matches (toks : list token) (s : list ascii) : bool :=
  match toks with
  | [] => match s with [] => true | _ => false end
  | Star :: toks' =>
      (fix star (s : list ascii) : bool :=
         matches toks' s
         || match s with [] => false | _ :: s' => star s' end) s
  | t :: toks' =>
      match s with
      | [] => false
      | c :: s' => token_matches t c && matches toks' s'
      end
  end.

Definition fnmatch (name pat : string) : bool :=
  matches (translate pat) (String.list_ascii_of_string name).

End fnmatch.

(** ** The match predicate *)

(** [bytes.startswith]. *)
Fixpoint startswith (data prefix : bytes) : bool :=
  match prefix, data with
  | [], _ => true
  | _ :: _, [] => false
  | p :: prefix', d :: data' => bool_decide (d = p) && startswith data' prefix'
  end.

(** [dict.values()], in some order. *)
Definition values {K V} `{Countable K} (d : gmap K V) : list V :=
  (map_to_list d).*2.

(** Check if a ble device and advertisement_data matches the matcher. *)
Definition _ble_device_matches (matcher : BluetoothCallbackMatcher)
    (device : BLEDevice) (advertisement_data : AdvertisementData) : bool :=
  if match Matcher.address matcher with
     | Some matcher_address =>
         negb (String.eqb (BLEDevice.address device) matcher_address)
     | None => false
     end
  then false
  else if match Matcher.local_name matcher with
          | Some matcher_local_name =>
              negb (fnmatch.fnmatch
                      (name_or_address device advertisement_data)
                      matcher_local_name)
          | None => false
          end
  then false
  else if match Matcher.service_uuid matcher with
          | Some matcher_service_uuid =>
              negb (bool_decide
                      (matcher_service_uuid
                         ∈ AdvertisementData.service_uuids advertisement_data))
          | None => false
          end
  then false
  else if match Matcher.manufacturer_id matcher with
          | Some matcher_manfacturer_id =>
              negb (bool_decide
                      (is_Some
                         (AdvertisementData.manufacturer_data
                            advertisement_data !! matcher_manfacturer_id)))
          | None => false
          end
  then false
  else match Matcher.manufacturer_data_start matcher with
       | Some matcher_manufacturer_data_start =>
           if negb (existsb
                      (fun manufacturer_data =>
                         startswith manufacturer_data
                           matcher_manufacturer_data_start)
                      (values (AdvertisementData.manufacturer_data
                                 advertisement_data)))
           then false
           else true
       | None => true
       end.

(** ** The match cache *)

Definition MAX_REMEMBER_ADDRESSES : nat := 2048.

Definition UNAVAILABLE_TRACK_SECONDS : Z := 60 * 5.

(** Modelled from the spec: [lru.LRU] comes from the [lru-dict] package, not
    from this repository.  The spec asks for a "capacity-bounded set" with
    [contains] and [insert], where "once population exceeds fixed capacity
    (2048), the least-recently-used key is evicted on next insert".  The keys
    are kept most recently used first; the capacity is the argument of the
    constructor, fixed for the life of the object. *)
Module LRU.
Record t (size : nat) (K : Type) := mk { keys : list K }.
Arguments mk {size K} keys.
Arguments keys {size K} _.

(** [LRU(size)]. *)
Definition new (size : nat) {K : Type} : t size K := mk [].

(** [key in lru]; the order of use is left as it is. *)
Definition contains {size K} `{EqDecision K} (key : K) (c : t size K) : bool :=
  bool_decide (key ∈ keys c).

(** [lru[key] = True]: [key] becomes the most recently used, and what no
    longer fits is dropped from the least recently used end. *)
Definition set {size K} `{EqDecision K} (key : K) (c : t size K) : t size K :=
  mk (take size (key :: filter (λ k, k ≠ key) (keys c))).
End LRU.

(** ** Callbacks, events and the scanner *)

(** [BluetoothChange = Enum("BluetoothChange", "ADVERTISEMENT")]. *)
Inductive BluetoothChange := ADVERTISEMENT.

(** A subscriber callable, [BluetoothCallback]. *)
Definition BluetoothCallback := nat.

(** A callable registered with [async_track_unavailable]. *)
Definition UnavailableCallback := nat.

(** An entry of [BluetoothManager._callbacks]. *)
Definition callback_entry : Type :=
  BluetoothCallback * option BluetoothCallbackMatcher.

(** What the module does to the world outside it. *)
Inductive event :=
  | Called (callback : BluetoothCallback)
      (service_info : BluetoothServiceInfoBleak) (change : BluetoothChange)
  | CalledUnavailable (callback : UnavailableCallback) (address : string)
  | LoggedException (message : string)
  | LoggedStarting
  | LoggedDeviceDetected (device : BLEDevice)
      (advertisement_data : AdvertisementData)
      (matched_domains : option (gset string))
  | CreatedFlow (domain : string) (source : string)
      (service_info : BluetoothServiceInfoBleak)
  | InstalledMultipleBleakCatcher
  | TrackedTimeInterval (seconds : Z)
  | ListenedOnceForStop.

Definition SOURCE_BLUETOOTH : string := "bluetooth".

(** A callable registered with the scanner: the manager's
    [_device_detected], or that of another user of the scanner. *)
Inductive scanner_callback :=
  | device_detected_of_manager
  | other_callback (n : nat).

Global Instance scanner_callback_eq_dec : EqDecision scanner_callback.
Proof. solve_decision. Defined.

(** Modelled from the spec: [HaBleakScanner] is defined in [models.py], which
    is not among the sources.  The spec lists what the driver exposes:
    "[start(mode)], [stop()], [register_detection_callback(fn)], a live
    [discovered_devices] enumerable, and a [history] mapping
    address→(Device, Advertisement)"; [async_register_callback] appends a
    listener and returns the handle that removes it, the contract the spec
    gives for the manager's own registry. *)
Module HaBleakScanner.
Record t := mk {
  history : gmap string (BLEDevice * AdvertisementData);
  discovered_devices : list BLEDevice;
  scanning_mode : option string;
  detection_callback : bool;
  _callbacks : list scanner_callback;
  started : bool
}.

(** [HaBleakScanner()]. *)
Definition new : t := mk ∅ [] None false [] false.

Definition with_history (h : gmap string (BLEDevice * AdvertisementData))
    (sc : t) : t :=
  mk h (discovered_devices sc) (scanning_mode sc) (detection_callback sc)
    (_callbacks sc) (started sc).

Definition with_scanning_mode (mode : string) (sc : t) : t :=
  mk (history sc) (discovered_devices sc) (Some mode) (detection_callback sc)
    (_callbacks sc) (started sc).

Definition with_detection_callback (sc : t) : t :=
  mk (history sc) (discovered_devices sc) (scanning_mode sc) true
    (_callbacks sc) (started sc).

Definition with_callbacks (l : list scanner_callback) (sc : t) : t :=
  mk (history sc) (discovered_devices sc) (scanning_mode sc)
    (detection_callback sc) l (started sc).

Definition with_started (sc : t) : t :=
  mk (history sc) (discovered_devices sc) (scanning_mode sc)
    (detection_callback sc) (_callbacks sc) true.
End HaBleakScanner.
Abbreviation HaBleakScanner := HaBleakScanner.t.

(** [BluetoothScanningMode] and [SCANNING_MODE_TO_BLEAK]. *)
Inductive BluetoothScanningMode := PASSIVE | ACTIVE.

Definition SCANNING_MODE_TO_BLEAK (mode : BluetoothScanningMode) : string :=
  match mode with
  | ACTIVE => "active"
  | PASSIVE => "passive"
  end.

(** ** The manager *)

Module BluetoothManager.
Record t := mk {
  _integration_matchers : list BluetoothMatcher;
  scanner : option HaBleakScanner;
  _cancel_device_detected : option scanner_callback;
  _cancel_unavailable_tracking : bool;
  _unavailable_callbacks : gmap string (list UnavailableCallback);
  _callbacks : list callback_entry;
  _matched : LRU.t MAX_REMEMBER_ADDRESSES (string * bool)
}.

(** [BluetoothManager.__init__]. *)
Definition __init__ (integration_matchers : list BluetoothMatcher) : t :=
  mk integration_matchers None None false ∅ [] (LRU.new MAX_REMEMBER_ADDRESSES).

Definition with_scanner (sc : option HaBleakScanner) (self : t) : t :=
  mk (_integration_matchers self) sc (_cancel_device_detected self)
    (_cancel_unavailable_tracking self) (_unavailable_callbacks self)
    (_callbacks self) (_matched self).

Definition with_cancel_device_detected (c : option scanner_callback)
    (self : t) : t :=
  mk (_integration_matchers self) (scanner self) c
    (_cancel_unavailable_tracking self) (_unavailable_callbacks self)
    (_callbacks self) (_matched self).

Definition with_cancel_unavailable_tracking (b : bool) (self : t) : t :=
  mk (_integration_matchers self) (scanner self)
    (_cancel_device_detected self) b (_unavailable_callbacks self)
    (_callbacks self) (_matched self).

Definition with_unavailable_callbacks
    (u : gmap string (list UnavailableCallback)) (self : t) : t :=
  mk (_integration_matchers self) (scanner self)
    (_cancel_device_detected self) (_cancel_unavailable_tracking self) u
    (_callbacks self) (_matched self).

Definition with_callbacks (l : list callback_entry) (self : t) : t :=
  mk (_integration_matchers self) (scanner self)
    (_cancel_device_detected self) (_cancel_unavailable_tracking self)
    (_unavailable_callbacks self) l (_matched self).

Definition with_matched (c : LRU.t MAX_REMEMBER_ADDRESSES (string * bool))
    (self : t) : t :=
  mk (_integration_matchers self) (scanner self)
    (_cancel_device_detected self) (_cancel_unavailable_tracking self)
    (_unavailable_callbacks self) (_callbacks self) c.
End BluetoothManager.
Abbreviation BluetoothManager := BluetoothManager.t.

(** ** What lies outside the module *)

(** The subscribers, the driver and the interpreter: what a callback does
    when it is invoked ([None]: it returns; [Some ex]: it raises [ex]), what
    the driver answers to [async_setup] and [start], and the order in which a
    [set] of strings is iterated, which Python leaves open.  What a callable
    answers depends on the callable and on its arguments. *)
Class Environment := {
  call : BluetoothCallback → BluetoothServiceInfoBleak → BluetoothChange →
         option pyexc;
  call_unavailable : UnavailableCallback → string → option pyexc;
  driver_async_setup : string → option pyexc;
  driver_start : option pyexc;
  iter_set : gset string → list string;
  iter_set_elements : ∀ X : gset string, iter_set X ≡ₚ elements X
}.

(** ** Computations on the manager *)

Record outcome (A : Type) := Outcome {
  after : BluetoothManager;
  trace : list event;
  result : completion A
}.
Arguments Outcome {A} after trace result.
Arguments after {A} _.
Arguments trace {A} _.
Arguments result {A} _.

Definition M (A : Type) : Type := BluetoothManager → outcome A.

Definition ret {A} (a : A) : M A :=
  λ self, Outcome self [] (Returns a).

Definition bind {A B} (c : M A) (k : A → M B) : M B :=
  λ self,
    let o := c self in
    match result o with
    | Returns a =>
        let o' := k a (after o) in
        Outcome (after o') (trace o ++ trace o') (result o')
    | Raises ex => Outcome (after o) (trace o) (Raises ex)
    end.

Global Instance M_ret : MRet M := @ret.
Global Instance M_bind : MBind M := λ A B k c, bind c k.

(** [self]. *)
Definition get : M BluetoothManager :=
  λ self, Outcome self [] (Returns self).

Definition modify (f : BluetoothManager → BluetoothManager) : M unit :=
  λ self, Outcome (f self) [] (Returns tt).

Definition emit (e : event) : M unit :=
  λ self, Outcome self [e] (Returns tt).

(** [raise ex]. *)
Definition raise {A} (ex : pyexc) : M A :=
  λ self, Outcome self [] (Raises ex).

(** [try: body / except classes as ex: handler]. *)
Definition try_except {A} (body : M A) (classes : pyexc → bool)
    (handler : pyexc → M A) : M A :=
  λ self,
    let o := body self in
    match result o with
    | Returns a => o
    | Raises ex =>
        if classes ex then
          let o' := handler ex (after o) in
          Outcome (after o') (trace o ++ trace o') (result o')
        else o
    end.

(** [for x in l: body]. *)
Fixpoint for_each {X} (l : list X) (body : X → M unit) : M unit :=
  match l with
  | [] => ret tt
  | x :: l' => body x;; for_each l' body
  end.

(** [for x in l: acc = body], for a loop that assigns to a local variable. *)
Fixpoint for_each_with {X S} (l : list X) (acc : S) (body : S → X → M S)
    : M S :=
  match l with
  | [] => ret acc
  | x :: l' => acc' ← body acc x; for_each_with l' acc' body
  end.

(** [list.remove(x)]: the first item equal to [x] goes; [None] stands for the
    [ValueError] raised when there is none. *)
Fixpoint list_remove {A} `{EqDecision A} (x : A) (l : list A)
    : option (list A) :=
  match l with
  | [] => None
  | y :: l' =>
      if decide (y = x) then Some l' else (y ::.) <$> list_remove x l'
  end.

Definition str_truthy (s : string) : bool :=
  match s with
  | EmptyString => false
  | String _ _ => true
  end.

Section Manager.
Context `{Environment}.

(** The invocation of a subscriber.  What the subscriber does is the
    environment's: it returns, or it raises.  A subscriber that calls back
    into the manager while it is invoked (that registers, or calls a handle)
    is not among these: the loops of the source iterate the lists
    themselves, and for the loop of [_device_detected] such subscribers are
    those of [callback_live] below. *)
Definition callback (cb : BluetoothCallback)
    (service_info : BluetoothServiceInfoBleak) (change : BluetoothChange)
    : M unit :=
  emit (Called cb service_info change);;
  match call cb service_info change with
  | None => ret tt
  | Some ex => raise ex
  end.

(** The invocation of an unavailability callback: it returns, or it raises,
    as the environment has it.  A callback that changes the registry while
    it is invoked is outside this model: what the loop of the tick, which
    iterates the list of the registry itself, does then is not described. *)
Definition callback_unavailable (cb : UnavailableCallback) (address : string)
    : M unit :=
  emit (CalledUnavailable cb address);;
  match call_unavailable cb address with
  | None => ret tt
  | Some ex => raise ex
  end.

(** [self.scanner], for a method call on it. *)
Definition the_scanner : M HaBleakScanner :=
  self ← get;
  match BluetoothManager.scanner self with
  | Some scanner => ret scanner
  | None => raise (PyExc AttributeError "'NoneType' object has no attribute")
  end.

Definition update_scanner (f : HaBleakScanner → HaBleakScanner) : M unit :=
  scanner ← the_scanner;
  modify (BluetoothManager.with_scanner (Some (f scanner))).

(** [assert cond]. *)
Definition assert_ (cond : bool) : M unit :=
  if cond then ret tt else raise (PyExc AssertionError "").

(** [BluetoothManager.async_setup]. *)
Definition async_setup : M unit :=
  modify (BluetoothManager.with_scanner (Some HaBleakScanner.new)).

(** Modelled from the spec: [HaBleakScanner.async_setup] is in [models.py],
    not among the sources.  It configures the driver, which the spec says may
    fail ("driver missing required OS resource / file not found / backend
    error during setup"); what the driver answers is the environment's. *)
Definition scanner_async_setup (scanning_mode : string) : M unit :=
  match driver_async_setup scanning_mode with
  | Some ex => raise ex
  | None => update_scanner (HaBleakScanner.with_scanning_mode scanning_mode)
  end.

(** Modelled from the spec: [register_detection_callback(fn)] of the driver,
    here called with the scanner's own dispatcher. *)
Definition scanner_register_detection_callback : M unit :=
  update_scanner HaBleakScanner.with_detection_callback.

(** Modelled from the spec: [HaBleakScanner.async_register_callback] is in
    [models.py].  As the spec has it for a registry, the listener is appended
    and the handle returned removes it; the handle is the closure over the
    entry. *)
Definition scanner_async_register_callback (cb : scanner_callback)
    : M scanner_callback :=
  update_scanner
    (λ sc, HaBleakScanner.with_callbacks (HaBleakScanner._callbacks sc ++ [cb])
             sc);;
  ret cb.

(** Modelled from the spec: a call of the handle that
    [scanner.async_register_callback] returned, which "removes the exact
    (callback, matcher) pair from the list". *)
Definition scanner_remove_callback (cb : scanner_callback) : M unit :=
  scanner ← the_scanner;
  match list_remove cb (HaBleakScanner._callbacks scanner) with
  | Some l => update_scanner (HaBleakScanner.with_callbacks l)
  | None => raise (PyExc ValueError "list.remove(x): x not in list")
  end.

(** Modelled from the spec: [start(mode)] of the driver, awaited; it may
    fail ("driver error during the start-listening call"), and what the
    driver answers is the environment's. *)
Definition scanner_start : M unit :=
  match driver_start with
  | Some ex => raise ex
  | None => update_scanner HaBleakScanner.with_started
  end.

(** The body of the inner loop of [_async_check_unavailable]. *)
Definition notify_unavailable (address : string) (cb : UnavailableCallback)
    : M unit :=
  try_except (callback_unavailable cb address) isinstance_Exception
    (λ _, emit (LoggedException "Error in unavailable callback")).

(** [del scanner.history[address]]. *)
Definition del_history (address : string) : M unit :=
  scanner ← the_scanner;
  match HaBleakScanner.history scanner !! address with
  | None => raise (PyExc KeyError address)
  | Some _ =>
      update_scanner
        (λ sc, HaBleakScanner.with_history
                 (delete address (HaBleakScanner.history sc)) sc)
  end.

(** The body of the loop over [disappeared] in [_async_check_unavailable]. *)
Definition forget (address : string) : M unit :=
  del_history address;;
  self ← get;
  match BluetoothManager._unavailable_callbacks self !! address with
  | None | Some [] => ret tt
  | Some callbacks => for_each callbacks (notify_unavailable address)
  end.

(** Watch for unavailable devices. *)
Definition _async_check_unavailable : M unit :=
  self ← get;
  let scanner := BluetoothManager.scanner self in
  assert_ (bool_decide (is_Some scanner));;
  scanner ← the_scanner;
  let history : gset string := dom (HaBleakScanner.history scanner) in
  let active : gset string :=
    list_to_set
      (BLEDevice.address <$> HaBleakScanner.discovered_devices scanner) in
  let disappeared := history ∖ active in
  for_each (iter_set disappeared) forget.

(** Set up the unavailable tracking. *)
Definition async_setup_unavailable_tracking : M unit :=
  emit (TrackedTimeInterval UNAVAILABLE_TRACK_SECONDS);;
  modify (BluetoothManager.with_cancel_unavailable_tracking true).

(** Set up BT Discovery. *)
Definition async_start (scanning_mode : BluetoothScanningMode) : M unit :=
  self ← get;
  assert_ (bool_decide (is_Some (BluetoothManager.scanner self)));;
  try_except (scanner_async_setup (SCANNING_MODE_TO_BLEAK scanning_mode))
    isinstance_FileNotFoundError_BleakError
    (λ ex, raise (PyExc RuntimeError
                    ("Failed to initialize Bluetooth: " +:+ exc_str ex)));;
  emit InstalledMultipleBleakCatcher;;
  emit LoggedStarting;;
  scanner_register_detection_callback;;
  cancel ← scanner_async_register_callback device_detected_of_manager;
  modify (BluetoothManager.with_cancel_device_detected (Some cancel));;
  try_except scanner_start isinstance_FileNotFoundError_BleakError
    (λ ex,
       self ← get;
       match BluetoothManager._cancel_device_detected self with
       | Some cancel => scanner_remove_callback cancel
       | None => raise (PyExc TypeError "'NoneType' object is not callable")
       end;;
       raise (PyExc ConfigEntryNotReady
                ("Failed to start Bluetooth: " +:+ exc_str ex)));;
  async_setup_unavailable_tracking;;
  emit ListenedOnceForStop.

(** The first half of [_device_detected]: the lookup in the match cache and,
    on a miss, the evaluation of every integration matcher.  The value is
    that of the local variable [matched_domains]: [None] when the matchers
    were not evaluated. *)
Definition match_domains (device : BLEDevice)
    (advertisement_data : AdvertisementData) : M (option (gset string)) :=
  self ← get;
  let match_key :=
    (BLEDevice.address device,
     bool_decide
       (AdvertisementData.manufacturer_data advertisement_data ≠ ∅)) in
  let match_key_has_mfr_data := (BLEDevice.address device, true) in
  if negb (LRU.contains match_key_has_mfr_data (BluetoothManager._matched self))
     && negb (LRU.contains match_key (BluetoothManager._matched self))
  then
    let matched_domains : gset string :=
      list_to_set
        (BluetoothMatcher.domain <$>
           filter
             (λ matcher,
                _ble_device_matches (BluetoothMatcher.fields matcher) device
                  advertisement_data = true)
             (BluetoothManager._integration_matchers self)) in
    (if bool_decide (matched_domains ≠ ∅)
     then modify (λ self,
            BluetoothManager.with_matched
              (LRU.set match_key (BluetoothManager._matched self)) self)
     else ret tt);;
    ret (Some matched_domains)
  else ret None.

(** [not matched_domains], for [matched_domains: set[str] | None]. *)
Definition not_domains (matched_domains : option (gset string)) : bool :=
  match matched_domains with
  | None => true
  | Some domains => bool_decide (domains = ∅)
  end.

(** The body of the loop over [self._callbacks] in [_device_detected]; the
    local variable [service_info] goes in and comes out. *)
Definition dispatch_one (device : BLEDevice)
    (advertisement_data : AdvertisementData)
    (service_info : option BluetoothServiceInfoBleak) (entry : callback_entry)
    : M (option BluetoothServiceInfoBleak) :=
  let '(cb, matcher) := entry in
  if match matcher with
     | None => true
     | Some matcher => _ble_device_matches matcher device advertisement_data
     end
  then
    let service_info :=
      match service_info with
      | None =>
          BluetoothServiceInfoBleak.from_advertisement device
            advertisement_data SOURCE_LOCAL
      | Some service_info => service_info
      end in
    try_except (callback cb service_info ADVERTISEMENT) isinstance_Exception
      (λ _, emit (LoggedException "Error in bluetooth callback"));;
    ret (Some service_info)
  else ret service_info.

(** The loop over [self._callbacks] in [_device_detected], entered with
    [service_info = None].  The items are those that the list has when the
    loop is entered, which are all there is to iterate as long as no
    subscriber changes the list; [dispatch_live] below is the loop over the
    list itself. *)
Definition dispatch (callbacks : list callback_entry) (device : BLEDevice)
    (advertisement_data : AdvertisementData)
    : M (option BluetoothServiceInfoBleak) :=
  for_each_with callbacks None (dispatch_one device advertisement_data).

(** Handle a detected device. *)
Definition _device_detected (device : BLEDevice)
    (advertisement_data : AdvertisementData) : M unit :=
  matched_domains ← match_domains device advertisement_data;
  emit (LoggedDeviceDetected device advertisement_data matched_domains);;
  self ← get;
  if not_domains matched_domains
     && bool_decide (BluetoothManager._callbacks self = [])
  then ret tt
  else
    service_info ←
      dispatch (BluetoothManager._callbacks self) device advertisement_data;
    match matched_domains with
    | None => ret tt
    | Some domains =>
        if bool_decide (domains = ∅) then ret tt
        else
          let service_info :=
            match service_info with
            | None =>
                BluetoothServiceInfoBleak.from_advertisement device
                  advertisement_data SOURCE_LOCAL
            | Some service_info => service_info
            end in
          for_each (iter_set domains) (λ domain,
            emit (CreatedFlow domain SOURCE_BLUETOOTH service_info))
    end.

(** The closure [_async_remove_callback] of [async_track_unavailable]: the
    handle is the pair of the variables it captures. *)
Definition unavailable_handle : Type := UnavailableCallback * string.

(** [async_track_unavailable]: register a callback. *)
Definition async_track_unavailable (cb : UnavailableCallback)
    (address : string) : M unavailable_handle :=
  modify (λ self,
    let callbacks :=
      default [] (BluetoothManager._unavailable_callbacks self !! address) in
    BluetoothManager.with_unavailable_callbacks
      (<[address := callbacks ++ [cb]]>
         (BluetoothManager._unavailable_callbacks self)) self);;
  ret (cb, address).

(** A call of the handle returned by [async_track_unavailable]. *)
Definition async_track_unavailable__async_remove_callback
    (handle : unavailable_handle) : M unit :=
  let '(cb, address) := handle in
  self ← get;
  match BluetoothManager._unavailable_callbacks self !! address with
  | None => raise (PyExc KeyError address)
  | Some callbacks =>
      match list_remove cb callbacks with
      | None => raise (PyExc ValueError "list.remove(x): x not in list")
      | Some callbacks' =>
          modify (BluetoothManager.with_unavailable_callbacks
                    (<[address := callbacks']>
                       (BluetoothManager._unavailable_callbacks self)));;
          if bool_decide (callbacks' = []) then
            modify (λ self,
              BluetoothManager.with_unavailable_callbacks
                (delete address (BluetoothManager._unavailable_callbacks self))
                self)
          else ret tt
      end
  end.

(** The history entry that [async_register_callback] replays: the condition
    [matcher and (address := matcher.get(ADDRESS)) and self.scanner and
    (device_adv_data := self.scanner.history.get(address))], each operand
    taken for its truth value. *)
Definition replayed (self : BluetoothManager)
    (matcher : option BluetoothCallbackMatcher)
    : option (BLEDevice * AdvertisementData) :=
  match matcher with
  | None => None
  | Some matcher =>
      if Matcher.truthy matcher then
        match Matcher.address matcher with
        | None => None
        | Some address =>
            if str_truthy address then
              match BluetoothManager.scanner self with
              | None => None
              | Some scanner => HaBleakScanner.history scanner !! address
              end
            else None
        end
      else None
  end.

(** [async_register_callback]: register a callback.  The handle it returns
    is the closure over [callback_entry]. *)
Definition async_register_callback (cb : BluetoothCallback)
    (matcher : option BluetoothCallbackMatcher) : M callback_entry :=
  let callback_entry := (cb, matcher) in
  modify (λ self,
    BluetoothManager.with_callbacks
      (BluetoothManager._callbacks self ++ [callback_entry]) self);;
  self ← get;
  match replayed self matcher with
  | Some (device, advertisement_data) =>
      try_except
        (callback cb
           (BluetoothServiceInfoBleak.from_advertisement device
              advertisement_data SOURCE_LOCAL)
           ADVERTISEMENT)
        isinstance_Exception
        (λ _, emit (LoggedException "Error in bluetooth callback"))
  | None => ret tt
  end;;
  ret callback_entry.

(** A call of the handle returned by [async_register_callback]. *)
Definition async_register_callback__async_remove_callback
    (callback_entry : callback_entry) : M unit :=
  self ← get;
  match list_remove callback_entry (BluetoothManager._callbacks self) with
  | Some callbacks => modify (BluetoothManager.with_callbacks callbacks)
  | None => raise (PyExc ValueError "list.remove(x): x not in list")
  end.

End Manager.


(** ** Subscribers that call back into the manager

    [for callback, matcher in self._callbacks] iterates the list itself, not
    a copy: the iterator of a Python list is an index into the list as it is
    when the next item is asked for, and the loop ends when the index is no
    longer within the list.  [self._callbacks] is one list from [__init__]
    on; [append] and [remove] change it in place.

    Here what a subscriber does when it is invoked is any computation on
    the manager, so that a subscriber can register, or call a handle, while
    the loop runs.  Such a loop need not end (a subscriber may register
    another one each time it is invoked), hence the fuel: [None] is a loop
    that was cut short. *)

Section Live.
Context `{Environment}.
Variable invoke :
  BluetoothCallback → BluetoothServiceInfoBleak → BluetoothChange → M unit.

Definition callback_live (cb : BluetoothCallback)
    (service_info : BluetoothServiceInfoBleak) (change : BluetoothChange)
    : M unit :=
  emit (Called cb service_info change);;
  invoke cb service_info change.

(** The body of the loop, as in [dispatch_one]. *)
Definition dispatch_one_live (device : BLEDevice)
    (advertisement_data : AdvertisementData)
    (service_info : option BluetoothServiceInfoBleak) (entry : callback_entry)
    : M (option BluetoothServiceInfoBleak) :=
  let '(cb, matcher) := entry in
  if match matcher with
     | None => true
     | Some matcher => _ble_device_matches matcher device advertisement_data
     end
  then
    let service_info :=
      match service_info with
      | None =>
          BluetoothServiceInfoBleak.from_advertisement device
            advertisement_data SOURCE_LOCAL
      | Some service_info => service_info
      end in
    try_except (callback_live cb service_info ADVERTISEMENT)
      isinstance_Exception
      (λ _, emit (LoggedException "Error in bluetooth callback"));;
    ret (Some service_info)
  else ret service_info.

(** The loop over [self._callbacks], from the item at [index] on: each
    round reads the list of the manager as it is then. *)
Fixpoint dispatch_live (fuel index : nat) (device : BLEDevice)
    (advertisement_data : AdvertisementData)
    (service_info : option BluetoothServiceInfoBleak)
    : M (option (option BluetoothServiceInfoBleak)) :=
  match fuel with
  | O => ret None
  | S fuel =>
      self ← get;
      match BluetoothManager._callbacks self !! index with
      | None => ret (Some service_info)
      | Some entry =>
          service_info ←
            dispatch_one_live device advertisement_data service_info entry;
          dispatch_live fuel (S index) device advertisement_data service_info
      end
  end.

(** [_device_detected], with the loop over the list itself. *)
Definition _device_detected_live (fuel : nat) (device : BLEDevice)
    (advertisement_data : AdvertisementData) : M (option unit) :=
  matched_domains ← match_domains device advertisement_data;
  emit (LoggedDeviceDetected device advertisement_data matched_domains);;
  self ← get;
  if not_domains matched_domains
     && bool_decide (BluetoothManager._callbacks self = [])
  then ret (Some tt)
  else
    looped ← dispatch_live fuel 0%nat device advertisement_data None;
    match looped with
    | None => ret None
    | Some service_info =>
        match matched_domains with
        | None => ret tt
        | Some domains =>
            if bool_decide (domains = ∅) then ret tt
            else
              let service_info :=
                match service_info with
                | None =>
                    BluetoothServiceInfoBleak.from_advertisement device
                      advertisement_data SOURCE_LOCAL
                | Some service_info => service_info
                end in
              for_each (iter_set domains) (λ domain,
                emit (CreatedFlow domain SOURCE_BLUETOOTH service_info))
        end;;
        ret (Some tt)
    end.

End Live.

(** A subscriber that leaves the manager alone: it returns or raises, as
    the environment has it.  With it, [callback_live] is [callback]. *)
Definition inert `{Environment} (cb : BluetoothCallback)
    (service_info : BluetoothServiceInfoBleak) (change : BluetoothChange)
    : M unit :=
  match call cb service_info change with
  | None => ret tt
  | Some ex => raise ex
  end.


(** ** Lookups in what the scanner has seen *)

(** Modelled from the spec: [HaBleakScannerWrapper] is defined in
    [models.py], which is not among the sources.  The spec has it as the
    "capability-limited handle" through which the consumers share the one
    scanner; a wrapper that has just been made holds nothing of its own. *)
Inductive HaBleakScannerWrapper := HaBleakScannerWrapper_new.

(** [BluetoothManager.async_get_scanner]: get the scanner. *)
Definition async_get_scanner : M HaBleakScannerWrapper :=
  ret HaBleakScannerWrapper_new.

(** [BluetoothManager.async_ble_device_from_address]: return the BLEDevice
    if present. *)
Definition async_ble_device_from_address (address : string)
    : M (option BLEDevice) :=
  self ← get;
  match BluetoothManager.scanner self with
  | Some scanner =>
      match HaBleakScanner.history scanner !! address with
      | Some ble_adv => ret (Some ble_adv.1)
      | None => ret None
      end
  | None => ret None
  end.

(** [BluetoothManager.async_address_present]: return if the address is
    present. *)
Definition async_address_present (address : string) : M bool :=
  self ← get;
  ret match BluetoothManager.scanner self with
      | Some scanner =>
          bool_decide (address ∈ dom (HaBleakScanner.history scanner))
      | None => false
      end.

(** [BluetoothManager.async_discovered_service_info]: a service info for
    every entry of the history.  A Python dict is read in the order of
    insertion, which a [gmap] does not keep: the list comes in the order of
    [values], and what is stated of it does not depend on the order. *)
Definition async_discovered_service_info
    : M (list BluetoothServiceInfoBleak) :=
  self ← get;
  assert_ (bool_decide (is_Some (BluetoothManager.scanner self)));;
  scanner ← the_scanner;
  ret ((λ device_adv,
          BluetoothServiceInfoBleak.from_advertisement device_adv.1
            device_adv.2 SOURCE_LOCAL)
       <$> values (HaBleakScanner.history scanner)).

(** ** Stopping, and the functions of the module *)

(** Modelled from the spec: [DOMAIN] is defined in [const.py], which is not
    among the sources; it is the name of the component. *)
Definition DOMAIN : string := "bluetooth".

(** The two sources of a flow that the set-up of the component starts:
    [config_entries.SOURCE_IMPORT] and
    [config_entries.SOURCE_INTEGRATION_DISCOVERY]. *)
Inductive flow_source := SOURCE_IMPORT | SOURCE_INTEGRATION_DISCOVERY.

(** What stopping and setting up do to the world outside, besides what the
    manager does: the flow of the component itself, the timer of the tracker
    cancelled, the compatibility shim taken out. *)
Inductive lifecycle_event :=
  | OfManager (e : event)
  | InitFlow (domain : string) (source : flow_source)
  | CancelledTimeInterval
  | UninstalledMultipleBleakCatcher.

(** What these functions meet outside the module, besides the
    [Environment]: the platform, the adapters found on it, the matchers of
    the integrations, the config entries of the component, and what the
    driver answers to [stop]. *)
Class Host := {
  platform_system : string;
  get_bluetooth_adapters : list string;
  async_get_bluetooth : list BluetoothMatcher;
  async_entries : list string;
  driver_stop : option pyexc
}.

(** Computations on a state [S] that emit lifecycle events. *)
Record run (S A : Type) := Run {
  state : S;
  events : list lifecycle_event;
  value : completion A
}.
Arguments Run {S A} state events value.
Arguments state {S A} _.
Arguments events {S A} _.
Arguments value {S A} _.

Definition L (S A : Type) : Type := S → run S A.

Global Instance L_ret S : MRet (L S) :=
  λ A a s, Run s [] (Returns a).

Global Instance L_bind S : MBind (L S) :=
  λ A B k c s,
    let r := c s in
    match value r with
    | Returns a =>
        let r' := k a (state r) in
        Run (state r') (events r ++ events r') (value r')
    | Raises ex => Run (state r) (events r) (Raises ex)
    end.

(** A computation of the manager, its events among the lifecycle events. *)
Definition lift {A} (c : M A) : L BluetoothManager A :=
  λ self,
    let o := c self in
    Run (after o) (OfManager <$> trace o) (result o).

Definition emit_lifecycle {S} (e : lifecycle_event) : L S unit :=
  λ s, Run s [e] (Returns tt).

(** Modelled from the spec: [stop()] of the driver, awaited; what the driver
    answers is the host's. *)
Definition scanner_stop `{Host} : L BluetoothManager unit :=
  match driver_stop with
  | Some ex => lift (raise ex)
  | None =>
      lift (update_scanner
              (λ sc,
                 HaBleakScanner.mk (HaBleakScanner.history sc)
                   (HaBleakScanner.discovered_devices sc)
                   (HaBleakScanner.scanning_mode sc)
                   (HaBleakScanner.detection_callback sc)
                   (HaBleakScanner._callbacks sc) false))
  end.

(** [BluetoothManager.async_stop]: stop bluetooth discovery. *)
Definition async_stop `{Host} : L BluetoothManager unit :=
  self ← lift get;
  match BluetoothManager._cancel_device_detected self with
  | Some cancel =>
      lift (scanner_remove_callback cancel);;
      lift (modify (BluetoothManager.with_cancel_device_detected None))
  | None => mret tt
  end;;
  self ← lift get;
  (if BluetoothManager._cancel_unavailable_tracking self then
     emit_lifecycle CancelledTimeInterval;;
     lift (modify (BluetoothManager.with_cancel_unavailable_tracking false))
   else mret tt);;
  self ← lift get;
  match BluetoothManager.scanner self with
  | Some _ => scanner_stop
  | None => mret tt
  end;;
  emit_lifecycle UninstalledMultipleBleakCatcher.

(** The functions of the module.  They work on the entry of [hass.data]
    under [DOMAIN]: the manager, or [None] while [DOMAIN not in hass.data]. *)
Module bluetooth.
Section Functions.
Context `{Environment} `{Host}.

(** [manager: BluetoothManager = hass.data[DOMAIN]] and a method of the
    manager. *)
Definition on_manager {A} (method : L BluetoothManager A)
    : L (option BluetoothManager) A :=
  λ data,
    match data with
    | Some manager =>
        let r := method manager in
        Run (Some (state r)) (events r) (value r)
    | None => Run None [] (Raises (PyExc KeyError DOMAIN))
    end.

(** Return a HaBleakScannerWrapper. *)
Definition async_get_scanner : L (option BluetoothManager) HaBleakScannerWrapper :=
  λ data,
    match data with
    | None =>
        Run data [] (Raises (PyExc RuntimeError "Bluetooth integration not loaded"))
    | Some _ => on_manager (lift async_get_scanner) data
    end.

(** Return the discovered devices list. *)
Definition async_discovered_service_info
    : L (option BluetoothManager) (list BluetoothServiceInfoBleak) :=
  λ data,
    match data with
    | None => Run data [] (Returns [])
    | Some _ => on_manager (lift async_discovered_service_info) data
    end.

(** Return BLEDevice for an address if its present. *)
Definition async_ble_device_from_address (address : string)
    : L (option BluetoothManager) (option BLEDevice) :=
  λ data,
    match data with
    | None => Run data [] (Returns None)
    | Some _ => on_manager (lift (async_ble_device_from_address address)) data
    end.

(** Check if an address is present in the bluetooth device list. *)
Definition async_address_present (address : string)
    : L (option BluetoothManager) bool :=
  λ data,
    match data with
    | None => Run data [] (Returns false)
    | Some _ => on_manager (lift (async_address_present address)) data
    end.

(** Register to receive a callback on bluetooth change. *)
Definition async_register_callback (callback : BluetoothCallback)
    (match_dict : option BluetoothCallbackMatcher)
    : L (option BluetoothManager) callback_entry :=
  on_manager (lift (async_register_callback callback match_dict)).

(** Register to receive a callback when an address is unavailable. *)
Definition async_track_unavailable (callback : UnavailableCallback)
    (address : string) : L (option BluetoothManager) unavailable_handle :=
  on_manager (lift (async_track_unavailable callback address)).

(** Return if the device has a bluetooth adapter. *)
Definition _async_has_bluetooth_adapter : bool :=
  if String.eqb platform_system "Darwin" then true
  else if String.eqb platform_system "Windows" then false
  else bool_decide (get_bluetooth_adapters ≠ []).

(** Set up the bluetooth integration; [config] is the set of the keys of
    the configuration. *)
Definition async_setup (config : gset string)
    : L (option BluetoothManager) bool :=
  λ data,
    let integration_matchers := async_get_bluetooth in
    let manager := BluetoothManager.__init__ integration_matchers in
    let r := lift async_setup manager in
    match value r with
    | Raises ex => Run data (events r) (Raises ex)
    | Returns _ =>
        Run (Some (state r))
          (events r ++
           if bool_decide (async_entries ≠ []) then []
           else if bool_decide (DOMAIN ∈ config) then
             [InitFlow DOMAIN SOURCE_IMPORT]
           else if _async_has_bluetooth_adapter then
             [InitFlow DOMAIN SOURCE_INTEGRATION_DISCOVERY]
           else [])
          (Returns true)
    end.

(** Set up the bluetooth integration from a config entry. *)
Definition async_setup_entry : L (option BluetoothManager) bool :=
  on_manager (lift (async_start ACTIVE);; mret true).

(** Unload a config entry. *)
Definition async_unload_entry : L (option BluetoothManager) bool :=
  on_manager (async_stop;; mret true).

End Functions.
End bluetooth.

(** ** Vocabulary of the statements *)

(** The effective name in the words of the specification: "the
    advertisement's local name if present, else the device's name if present,
    else the device's address", a name being present when it is not [None]. *)
Definition effective_name_as_specified (device : BLEDevice)
    (advertisement_data : AdvertisementData) : string :=
  match AdvertisementData.local_name advertisement_data with
  | Some local_name => local_name
  | None =>
      match BLEDevice.name device with
      | Some name => name
      | None => BLEDevice.address device
      end
  end.

(** [bool(advertisement_data.manufacturer_data)]. *)
Definition has_manufacturer_data (advertisement_data : AdvertisementData)
    : bool :=
  bool_decide (AdvertisementData.manufacturer_data advertisement_data ≠ ∅).

(** The key [(address, shape)] is in the match cache of the manager. *)
Definition cached (self : BluetoothManager) (key : string * bool) : Prop :=
  key ∈ LRU.keys (BluetoothManager._matched self).

Global Instance cached_dec self key : Decision (cached self key).
Proof. unfold cached. apply _. Defined.

(** The domains of the integration matchers that match. *)
Definition domains_matching (matchers : list BluetoothMatcher)
    (device : BLEDevice) (advertisement_data : AdvertisementData)
    : gset string :=
  list_to_set
    (BluetoothMatcher.domain <$>
       filter
         (λ matcher,
            _ble_device_matches (BluetoothMatcher.fields matcher) device
              advertisement_data = true)
         matchers).

(** What the debug line of [_device_detected] shows for [matched_domains]:
    the first [LoggedDeviceDetected] of a trace.  [Some None] is a run in
    which the integration matchers were not evaluated. *)
Definition logged_domains (t : list event) : option (option (gset string)) :=
  match t with
  | LoggedDeviceDetected _ _ matched_domains :: _ => Some matched_domains
  | _ => None
  end.

(** A run of [_device_detected] evaluated the integration matchers. *)
Definition evaluated (t : list event) : Prop :=
  ∃ domains, logged_domains t = Some (Some domains).

(** The subscribers invoked in a trace, in order, with their argument. *)
Definition called (t : list event)
    : list (BluetoothCallback * BluetoothServiceInfoBleak) :=
  omap (λ e, match e with
             | Called cb service_info _ => Some (cb, service_info)
             | _ => None
             end) t.

(** The unavailability callbacks invoked for [address] in a trace, in
    order. *)
Definition called_unavailable (address : string) (t : list event)
    : list UnavailableCallback :=
  omap (λ e, match e with
             | CalledUnavailable cb a =>
                 if decide (a = address) then Some cb else None
             | _ => None
             end) t.

(** The discovery flows requested in a trace, in order. *)
Definition flows (t : list event)
    : list (string * string * BluetoothServiceInfoBleak) :=
  omap (λ e, match e with
             | CreatedFlow domain source service_info =>
                 Some (domain, source, service_info)
             | _ => None
             end) t.

(** The service info that a run of [_device_detected] hands out. *)
Definition info_of (device : BLEDevice) (advertisement_data : AdvertisementData)
    : BluetoothServiceInfoBleak :=
  BluetoothServiceInfoBleak.from_advertisement device advertisement_data
    SOURCE_LOCAL.

(** The subscription is one that [_device_detected] invokes: the matcher is
    absent or matches. *)
Definition subscribed (device : BLEDevice)
    (advertisement_data : AdvertisementData) (entry : callback_entry) : bool :=
  match entry.2 with
  | None => true
  | Some matcher => _ble_device_matches matcher device advertisement_data
  end.

(** What a call answers is [None] (a return) or an instance of
    [Exception]. *)
Definition returns_or_raises_Exception (answer : option pyexc) : Prop :=
  match answer with
  | None => True
  | Some ex => isinstance_Exception ex = true
  end.

(** The history of the scanner; empty while there is no scanner. *)
Definition history_of (self : BluetoothManager)
    : gmap string (BLEDevice * AdvertisementData) :=
  match BluetoothManager.scanner self with
  | Some scanner => HaBleakScanner.history scanner
  | None => ∅
  end.

(** The addresses that a tick of the tracker finds gone: in the history, not
    among the devices the driver reports. *)
Definition disappeared_of (scanner : HaBleakScanner) : gset string :=
  dom (HaBleakScanner.history scanner)
  ∖ list_to_set (BLEDevice.address <$> HaBleakScanner.discovered_devices scanner).

(** Advertisements handled one after the other, each from the state the
    one before left, whatever its outcome. *)
Fixpoint detect_all `{Environment}
    (advertisements : list (BLEDevice * AdvertisementData))
    (self : BluetoothManager) : list (outcome unit) :=
  match advertisements with
  | [] => []
  | (device, advertisement_data) :: rest =>
      let o := _device_detected device advertisement_data self in
      o :: detect_all rest (after o)
  end.

(** [async_register_callback] and then the handle it returned. *)
Definition register_then_unregister `{Environment} (cb : BluetoothCallback)
    (matcher : option BluetoothCallbackMatcher) : M unit :=
  handle ← async_register_callback cb matcher;
  async_register_callback__async_remove_callback handle.

(** A use of the unavailability registry from outside: a registration, or a
    call of the handle that the [n]-th registration returned. *)
Inductive unavailable_op :=
  | Track (cb : UnavailableCallback) (address : string)
  | Unregister (n : nat).

(** The operations in order; the handles are kept in the order of their
    registrations.  A handle that raises leaves the caller with the state it
    had reached. *)
Fixpoint run_unavailable_ops `{Environment} (ops : list unavailable_op)
    (handles : list unavailable_handle) (self : BluetoothManager)
    : BluetoothManager :=
  match ops with
  | [] => self
  | Track cb address :: ops' =>
      let o := async_track_unavailable cb address self in
      match result o with
      | Returns handle =>
          run_unavailable_ops ops' (handles ++ [handle]) (after o)
      | Raises _ => run_unavailable_ops ops' handles (after o)
      end
  | Unregister n :: ops' =>
      match handles !! n with
      | Some handle =>
          run_unavailable_ops ops' handles
            (after (async_track_unavailable__async_remove_callback handle self))
      | None => run_unavailable_ops ops' handles self
      end
  end.

(** No address of the unavailability map has an empty list. *)
Definition no_empty_list (self : BluetoothManager) : Prop :=
  ∀ address callbacks,
    BluetoothManager._unavailable_callbacks self !! address = Some callbacks →
    callbacks ≠ [].

(** What one subscription adds to the trace of a dispatch in which every
    exception is caught: the call and, when it raises, the log line. *)
Definition entry_events `{Environment} (device : BLEDevice)
    (advertisement_data : AdvertisementData) (entry : callback_entry)
    : list event :=
  if subscribed device advertisement_data entry then
    Called entry.1 (info_of device advertisement_data) ADVERTISEMENT ::
    match call entry.1 (info_of device advertisement_data) ADVERTISEMENT with
    | None => []
    | Some _ => [LoggedException "Error in bluetooth callback"]
    end
  else [].

(** The requests for discovery flows, one per domain. *)
Definition flow_events `{Environment} (device : BLEDevice)
    (advertisement_data : AdvertisementData)
    (matched_domains : option (gset string)) : list event :=
  (λ domain,
     CreatedFlow domain SOURCE_BLUETOOTH (info_of device advertisement_data))
  <$> iter_set (default ∅ matched_domains).

(** A subscription whose callback, if [_device_detected] invokes it,
    returns or raises an instance of [Exception]. *)
Definition caught `{Environment} (device : BLEDevice)
    (advertisement_data : AdvertisementData) (entry : callback_entry) : Prop :=
  subscribed device advertisement_data entry = true →
  returns_or_raises_Exception
    (call entry.1 (info_of device advertisement_data) ADVERTISEMENT).

(** The key under which [_device_detected] records a match. *)
Definition match_key (device : BLEDevice)
    (advertisement_data : AdvertisementData) : string * bool :=
  (BLEDevice.address device, has_manufacturer_data advertisement_data).

(** The value of [matched_domains] after the first half of
    [_device_detected]. *)
Definition matched_domains_of (self : BluetoothManager) (device : BLEDevice)
    (advertisement_data : AdvertisementData) : option (gset string) :=
  if decide (cached self (BLEDevice.address device, true)
             ∨ cached self (match_key device advertisement_data))
  then None
  else Some (domains_matching (BluetoothManager._integration_matchers self)
               device advertisement_data).

(** The manager after the first half of [_device_detected]. *)
Definition remembered (self : BluetoothManager) (device : BLEDevice)
    (advertisement_data : AdvertisementData) : BluetoothManager :=
  match matched_domains_of self device advertisement_data with
  | Some domains =>
      if decide (domains = ∅) then self
      else BluetoothManager.with_matched
             (LRU.set (match_key device advertisement_data)
                (BluetoothManager._matched self)) self
  | None => self
  end.

(** The rule of the specification for the match cache: the matchers are
    evaluated exactly when neither [(address, true)] nor [(address, false)]
    is cached. *)
Definition evaluates_iff_neither_shape_cached `{Environment}
    (self : BluetoothManager) (device : BLEDevice)
    (advertisement_data : AdvertisementData) : Prop :=
  evaluated (trace (_device_detected device advertisement_data self))
  ↔ ¬ cached self (BLEDevice.address device, true)
    ∧ ¬ cached self (BLEDevice.address device, false).

(** The rule of the specification for the replay: a registration whose
    matcher carries an address that the history knows invokes the callback
    once, at once. *)
Definition replays_history_as_specified `{Environment}
    (self : BluetoothManager) (cb : BluetoothCallback)
    (matcher : BluetoothCallbackMatcher) : Prop :=
  ∀ address device advertisement_data,
    Matcher.address matcher = Some address →
    history_of self !! address = Some (device, advertisement_data) →
    called (trace (async_register_callback cb (Some matcher) self))
    = [(cb, info_of device advertisement_data)].

(** The callback, if the registration replays to it, returns or raises an
    instance of [Exception]. *)
Definition replay_caught `{Environment} (cb : BluetoothCallback) : Prop :=
  ∀ service_info,
    returns_or_raises_Exception (call cb service_info ADVERTISEMENT).

(** The rule of the specification for the round trip: after a registration
    and the call of its handle, every advertisement is handled as it would
    have been before. *)
Definition round_trip_keeps_dispatch `{Environment} (self : BluetoothManager)
    (cb : BluetoothCallback) (matcher : option BluetoothCallbackMatcher)
    : Prop :=
  ∀ device advertisement_data,
    _device_detected device advertisement_data
      (after (register_then_unregister cb matcher self))
    = _device_detected device advertisement_data self.

(** What one unavailability callback adds to the trace when its exception,
    if any, is caught: the call and, when it raises, the log line. *)
Definition notify_events `{Environment} (address : string)
    (cb : UnavailableCallback) : list event :=
  CalledUnavailable cb address ::
  match call_unavailable cb address with
  | None => []
  | Some _ => [LoggedException "Error in unavailable callback"]
  end.

(** What a disappeared address adds to the trace. *)
Definition forget_events `{Environment}
    (callbacks : gmap string (list UnavailableCallback)) (address : string)
    : list event :=
  default [] (callbacks !! address) ≫= notify_events address.

Global Instance returns_or_raises_Exception_dec answer :
  Decision (returns_or_raises_Exception answer).
Proof. destruct answer; simpl; apply _. Defined.

(** Every registered unavailability callback returns or raises an instance
    of [Exception] when it is invoked for its address. *)
Definition unavailable_caught `{Environment} (self : BluetoothManager)
    : Prop :=
  map_Forall
    (λ address callbacks,
       Forall
         (λ cb, returns_or_raises_Exception (call_unavailable cb address))
         callbacks)
    (BluetoothManager._unavailable_callbacks self).

(** The manager with the history of its scanner replaced. *)
Definition with_history (history : gmap string (BLEDevice * AdvertisementData))
    (self : BluetoothManager) : BluetoothManager :=
  match BluetoothManager.scanner self with
  | Some scanner =>
      BluetoothManager.with_scanner
        (Some (HaBleakScanner.with_history history scanner)) self
  | None => self
  end.

(** Every field that [wider] has, [matcher] has with the same value:
    [wider] asks for no more than [matcher] does. *)
Definition asks_no_more (wider matcher : BluetoothCallbackMatcher) : Prop :=
  (∀ a, Matcher.address wider = Some a → Matcher.address matcher = Some a)
  ∧ (∀ p, Matcher.local_name wider = Some p →
          Matcher.local_name matcher = Some p)
  ∧ (∀ u, Matcher.service_uuid wider = Some u →
          Matcher.service_uuid matcher = Some u)
  ∧ (∀ i, Matcher.manufacturer_id wider = Some i →
          Matcher.manufacturer_id matcher = Some i)
  ∧ (∀ s, Matcher.manufacturer_data_start wider = Some s →
          Matcher.manufacturer_data_start matcher = Some s).

(** The runs, among those of a list, that requested a discovery flow. *)
Definition requesting_flows (runs : list (outcome unit))
    : list (outcome unit) :=
  filter (λ o, flows (trace o) ≠ []) runs.

(** A registration, the call of its handle, and the call of the handle once
    more. *)
Definition unregister_twice `{Environment} (cb : BluetoothCallback)
    (matcher : option BluetoothCallbackMatcher) : M unit :=
  handle ← async_register_callback cb matcher;
  async_register_callback__async_remove_callback handle;;
  async_register_callback__async_remove_callback handle.

(** [async_track_unavailable] and then the handle it returned. *)
Definition track_then_cancel `{Environment} (cb : UnavailableCallback)
    (address : string) : M unit :=
  handle ← async_track_unavailable cb address;
  async_track_unavailable__async_remove_callback handle.

(** The same, and the handle once more. *)
Definition cancel_twice `{Environment} (cb : UnavailableCallback)
    (address : string) : M unit :=
  handle ← async_track_unavailable cb address;
  async_track_unavailable__async_remove_callback handle;;
  async_track_unavailable__async_remove_callback handle.

(** The addresses of the devices that the driver reports. *)
Definition active_addresses (scanner : HaBleakScanner) : list string :=
  BLEDevice.address <$> HaBleakScanner.discovered_devices scanner.

(** The manager when [async_start] has registered its listener with the
    scanner and kept the handle: the state in which the driver is asked to
    start. *)
Definition listening (scanning_mode : BluetoothScanningMode)
    (scanner : HaBleakScanner) (self : BluetoothManager) : BluetoothManager :=
  BluetoothManager.with_cancel_device_detected
    (Some device_detected_of_manager)
    (BluetoothManager.with_scanner
       (Some (HaBleakScanner.with_callbacks
                (HaBleakScanner._callbacks scanner
                 ++ [device_detected_of_manager])
                (HaBleakScanner.with_detection_callback
                   (HaBleakScanner.with_scanning_mode
                      (SCANNING_MODE_TO_BLEAK scanning_mode) scanner))))
       self).

(** The scanner when the driver has stopped. *)
Definition stopped (scanner : HaBleakScanner) : HaBleakScanner :=
  HaBleakScanner.mk (HaBleakScanner.history scanner)
    (HaBleakScanner.discovered_devices scanner)
    (HaBleakScanner.scanning_mode scanner)
    (HaBleakScanner.detection_callback scanner)
    (HaBleakScanner._callbacks scanner) false.

(** [async_stop] from its second statement on: the timer of the tracker,
    the driver, the compatibility shim. *)
Definition stop_tracker_and_driver `{Host} (self : BluetoothManager)
    : run BluetoothManager unit :=
  let cancelled :=
    if BluetoothManager._cancel_unavailable_tracking self
    then [CancelledTimeInterval] else [] in
  let self' :=
    if BluetoothManager._cancel_unavailable_tracking self
    then BluetoothManager.with_cancel_unavailable_tracking false self
    else self in
  match BluetoothManager.scanner self' with
  | None => Run self' (cancelled ++ [UninstalledMultipleBleakCatcher])
              (Returns tt)
  | Some scanner =>
      match driver_stop with
      | Some ex => Run self' cancelled (Raises ex)
      | None =>
          Run (BluetoothManager.with_scanner (Some (stopped scanner)) self')
            (cancelled ++ [UninstalledMultipleBleakCatcher]) (Returns tt)
      end
  end.

(** The manager that [async_setup] of the module stores in [hass.data]. *)
Definition loaded `{Host} : BluetoothManager :=
  BluetoothManager.with_scanner (Some HaBleakScanner.new)
    (BluetoothManager.__init__ async_get_bluetooth).

(** A config entry set up, unloaded and set up again. *)
Definition reload `{Environment} `{Host} : L (option BluetoothManager) bool :=
  bluetooth.async_setup_entry;;
  bluetooth.async_unload_entry;;
  bluetooth.async_setup_entry.

(** The manager after a start that succeeded. *)
Definition started (scanning_mode : BluetoothScanningMode)
    (scanner : HaBleakScanner) (self : BluetoothManager) : BluetoothManager :=
  BluetoothManager.with_cancel_unavailable_tracking true
    (BluetoothManager.with_scanner
       (Some (HaBleakScanner.with_started
                (HaBleakScanner.with_callbacks
                   (HaBleakScanner._callbacks scanner
                    ++ [device_detected_of_manager])
                   (HaBleakScanner.with_detection_callback
                      (HaBleakScanner.with_scanning_mode
                         (SCANNING_MODE_TO_BLEAK scanning_mode) scanner)))))
       (listening scanning_mode scanner self)).

(** What a start that succeeds emits. *)
Definition start_events : list event :=
  [InstalledMultipleBleakCatcher; LoggedStarting;
   TrackedTimeInterval UNAVAILABLE_TRACK_SECONDS; ListenedOnceForStop].


(** The rule of the specification for a subscriber that fails: whatever it
    raises, the exception does not leave [_device_detected], every
    subscription whose matcher is absent or matches is invoked, and a
    discovery flow is requested for every matched domain. *)
Definition isolates_any_callback_failure `{Environment}
    (self : BluetoothManager) (device : BLEDevice)
    (advertisement_data : AdvertisementData) : Prop :=
  let o := _device_detected device advertisement_data self in
  result o = Returns tt
  ∧ called (trace o)
    = (λ entry, (entry.1, info_of device advertisement_data))
      <$> filter (λ entry, subscribed device advertisement_data entry = true)
            (BluetoothManager._callbacks self)
  ∧ flows (trace o)
    ≡ₚ (λ domain, (domain, SOURCE_BLUETOOTH, info_of device advertisement_data))
       <$> elements
             (default ∅ (matched_domains_of self device advertisement_data)).

(** The rule of the specification for an unavailability callback that
    fails: whatever it raises, the tick returns, and for every address that
    disappeared the callbacks registered for it have all been invoked, in
    the order of their registration. *)
Definition tick_isolates_any_callback_failure `{Environment}
    (self : BluetoothManager) : Prop :=
  let o := _async_check_unavailable self in
  result o = Returns tt
  ∧ ∀ scanner address,
      BluetoothManager.scanner self = Some scanner →
      address ∈ disappeared_of scanner →
      called_unavailable address (trace o)
      = default [] (BluetoothManager._unavailable_callbacks self !! address).

(** The rule of the specification for a start that fails: whatever the
    driver raises, from the set-up of the scanner it comes out as the hard
    failure, and from [start] as the failure to be tried again, the scanner
    left with the listeners it had. *)
Definition start_translates_any_driver_failure `{Environment}
    (self : BluetoothManager) (scanning_mode : BluetoothScanningMode)
    : Prop :=
  let o := async_start scanning_mode self in
  ∀ ex,
    (driver_async_setup (SCANNING_MODE_TO_BLEAK scanning_mode) = Some ex →
     result o
     = Raises (PyExc RuntimeError
                 ("Failed to initialize Bluetooth: " +:+ exc_str ex)))
    ∧ (driver_async_setup (SCANNING_MODE_TO_BLEAK scanning_mode) = None →
       driver_start = Some ex →
       result o
       = Raises (PyExc ConfigEntryNotReady
                   ("Failed to start Bluetooth: " +:+ exc_str ex))
       ∧ ∀ scanner scanner',
           BluetoothManager.scanner self = Some scanner →
           BluetoothManager.scanner (after o) = Some scanner' →
           HaBleakScanner._callbacks scanner'
           ≡ₚ HaBleakScanner._callbacks scanner).

(** ** Sample data *)

Definition sample_address : string := "AA:BB:CC:DD:EE:FF".

Definition sample_device : BLEDevice :=
  BLEDevice.mk sample_address (Some "WoHand") (-60).

(** An advertisement without a name and without manufacturer data. *)
Definition bare_advertisement : AdvertisementData :=
  AdvertisementData.mk None ∅ ∅ ["cba20d00-224d-11e6-9fb8-0002a5d5c51b"].

(** An advertisement that carries manufacturer data. *)
Definition full_advertisement : AdvertisementData :=
  AdvertisementData.mk (Some "SwitchBot") {[ 89 := [Byte.x01; Byte.x02] ]} ∅
    ["cba20d00-224d-11e6-9fb8-0002a5d5c51b"].

(** An advertisement whose local name is the empty string. *)
Definition unnamed_advertisement : AdvertisementData :=
  AdvertisementData.mk (Some "") ∅ ∅ [].

Definition switchbot_matcher : BluetoothMatcher :=
  BluetoothMatcher.mk "switchbot"
    (Matcher.mk None None (Some "cba20d00-224d-11e6-9fb8-0002a5d5c51b") None
       None).

Definition address_matcher (address : string) : BluetoothCallbackMatcher :=
  Matcher.mk (Some address) None None None None.

Definition local_name_matcher (pattern : string) : BluetoothCallbackMatcher :=
  Matcher.mk None (Some pattern) None None None.

(** An environment in which nothing raises. *)
Definition quiet : Environment := {|
  call := λ _ _ _, None;
  call_unavailable := λ _ _, None;
  driver_async_setup := λ _, None;
  driver_start := None;
  iter_set := elements;
  iter_set_elements := λ X, reflexivity (elements X)
|}.

(** A manager that has matched [sample_address] on an advertisement
    without manufacturer data. *)
Definition matched_without_data : BluetoothManager :=
  BluetoothManager.with_matched (LRU.mk [(sample_address, false)])
    (BluetoothManager.__init__ [switchbot_matcher]).

(** An environment in which the subscriber [1] and the unavailability
    callback [1] raise an [Exception] whenever they are invoked. *)
Definition faulty : Environment := {|
  call := λ cb _ _,
    if decide (cb = 1%nat) then Some (PyExc OtherException "boom") else None;
  call_unavailable := λ cb _,
    if decide (cb = 1%nat) then Some (PyExc OtherException "boom") else None;
  driver_async_setup := λ _, None;
  driver_start := None;
  iter_set := elements;
  iter_set_elements := λ X, reflexivity (elements X)
|}.

(** A manager with the SwitchBot matcher and two subscribers: [1], who takes
    every advertisement, and [2], who asks for [sample_address]. *)
Definition two_subscribers : BluetoothManager :=
  BluetoothManager.with_callbacks
    [(1%nat, None); (2%nat, Some (address_matcher sample_address))]
    (BluetoothManager.__init__ [switchbot_matcher]).

(** A device whose address is the empty string, and a manager whose scanner
    has seen it. *)
Definition nameless_device : BLEDevice := BLEDevice.mk "" None (-70).

Definition seen_nameless : BluetoothManager :=
  BluetoothManager.with_scanner
    (Some (HaBleakScanner.with_history
             {[ "" := (nameless_device, bare_advertisement) ]}
             HaBleakScanner.new))
    (BluetoothManager.__init__ []).

(** A manager whose scanner has seen [sample_device]. *)
Definition seen_sample : BluetoothManager :=
  BluetoothManager.with_scanner
    (Some (HaBleakScanner.with_history
             {[ sample_address := (sample_device, full_advertisement) ]}
             HaBleakScanner.new))
    (BluetoothManager.__init__ []).

(** A manager with two subscribers, [1] then [2], who take every
    advertisement. *)
Definition two_plain_subscribers : BluetoothManager :=
  BluetoothManager.with_callbacks [(1%nat, None); (2%nat, None)]
    (BluetoothManager.__init__ []).

(** A second device, and a manager whose scanner has seen both devices and
    still reports the second; [sample_address] has the callbacks [1] and
    [2], the address of the second device has [3]. *)
Definition other_device : BLEDevice :=
  BLEDevice.mk "11:22:33:44:55:66" None (-80).

Definition tracking : BluetoothManager :=
  BluetoothManager.with_unavailable_callbacks
    {[ sample_address := [1%nat; 2%nat];
       BLEDevice.address other_device := [3%nat] ]}
    (BluetoothManager.with_scanner
       (Some (HaBleakScanner.mk
                {[ sample_address := (sample_device, full_advertisement);
                   BLEDevice.address other_device
                     := (other_device, bare_advertisement) ]}
                [other_device] (Some "active") true
                [device_detected_of_manager] true))
       (BluetoothManager.__init__ [])).

(** An environment whose driver cannot be set up, and one whose driver is
    set up and cannot be started. *)
Definition setup_fails : Environment := {|
  call := λ _ _ _, None;
  call_unavailable := λ _ _, None;
  driver_async_setup := λ _, Some (PyExc FileNotFoundError "no such file");
  driver_start := None;
  iter_set := elements;
  iter_set_elements := λ X, reflexivity (elements X)
|}.

Definition start_fails : Environment := {|
  call := λ _ _ _, None;
  call_unavailable := λ _ _, None;
  driver_async_setup := λ _, None;
  driver_start := Some (PyExc BleakError "adapter busy");
  iter_set := elements;
  iter_set_elements := λ X, reflexivity (elements X)
|}.

(** A manager after [async_setup]. *)
Definition set_up : BluetoothManager :=
  BluetoothManager.with_scanner (Some HaBleakScanner.new)
    (BluetoothManager.__init__ [switchbot_matcher]).

(** An advertisement with two manufacturer payloads, and a matcher that asks
    for the identifier of the one and for the first byte of the other. *)
Definition two_payloads : AdvertisementData :=
  AdvertisementData.mk None {[ 76 := [Byte.x10; Byte.x05]; 89 := [Byte.x02] ]}
    ∅ [].

Definition id_and_prefix_matcher : BluetoothCallbackMatcher :=
  Matcher.mk None None None (Some 89) (Some [Byte.x10]).

(** A matcher that asks for every payload: the empty prefix. *)
Definition any_payload_matcher : BluetoothCallbackMatcher :=
  Matcher.mk None None None None (Some []).

(** The SwitchBot matcher narrowed to one address. *)
Definition narrow_matcher : BluetoothCallbackMatcher :=
  Matcher.mk (Some sample_address) None
    (Some "cba20d00-224d-11e6-9fb8-0002a5d5c51b") None None.

(** An environment in which the subscriber [1] is interrupted whenever it is
    invoked: it raises what is not an [Exception]. *)
Definition interrupted : Environment := {|
  call := λ cb _ _,
    if decide (cb = 1%nat)
    then Some (PyExc OtherBaseException "KeyboardInterrupt")
    else None;
  call_unavailable := λ _ _, None;
  driver_async_setup := λ _, None;
  driver_start := None;
  iter_set := elements;
  iter_set_elements := λ X, reflexivity (elements X)
|}.

(** A manager with the SwitchBot matcher and three subscribers, [2], [1]
    and [3], who take every advertisement. *)
Definition three_subscribers : BluetoothManager :=
  BluetoothManager.with_callbacks [(2%nat, None); (1%nat, None); (3%nat, None)]
    (BluetoothManager.__init__ [switchbot_matcher]).

(** A Linux host with one adapter, no config entry yet, and a driver that
    stops when it is asked to. *)
Definition linux_host : Host := {|
  platform_system := "Linux";
  get_bluetooth_adapters := ["hci0"];
  async_get_bluetooth := [switchbot_matcher];
  async_entries := [];
  driver_stop := None
|}.

(** The same host with a driver that cannot be stopped. *)
Definition stop_fails : Host := {|
  platform_system := "Linux";
  get_bluetooth_adapters := ["hci0"];
  async_get_bluetooth := [switchbot_matcher];
  async_entries := [];
  driver_stop := Some (PyExc BleakError "adapter gone")
|}.


(** An environment in which the unavailability callback [1] is interrupted
    whenever it is invoked: it raises what is not an [Exception]. *)
Definition tick_interrupted : Environment := {|
  call := λ _ _ _, None;
  call_unavailable := λ cb _,
    if decide (cb = 1%nat)
    then Some (PyExc OtherBaseException "KeyboardInterrupt")
    else None;
  driver_async_setup := λ _, None;
  driver_start := None;
  iter_set := elements;
  iter_set_elements := λ X, reflexivity (elements X)
|}.

(** An environment whose driver is set up and, asked to start, raises an
    exception that is neither a [FileNotFoundError] nor a [BleakError]. *)
Definition start_crashes : Environment := {|
  call := λ _ _ _, None;
  call_unavailable := λ _ _, None;
  driver_async_setup := λ _, None;
  driver_start := Some (PyExc OtherException "permission denied");
  iter_set := elements;
  iter_set_elements := λ X, reflexivity (elements X)
|}.

(** What the subscribers do when [2], registered without a matcher, is a
    subscriber for one advertisement: it calls its handle when it is
    invoked.  The others return. *)
Definition one_shot (cb : BluetoothCallback)
    (service_info : BluetoothServiceInfoBleak) (change : BluetoothChange)
    : M unit :=
  if decide (cb = 2%nat)
  then async_register_callback__async_remove_callback (2%nat, None)
  else ret tt.

(** ** Tactics *)

(** A decidable statement about given data, decided by evaluation. *)
Ltac by_compute :=
  refine (bool_decide_unpack _ _); vm_compute; exact I.

(** The combinators of [M] unfolded, for a computation of a few steps. *)
Ltac run :=
  unfold mbind, M_bind, bind, mret, M_ret, ret, get, modify, emit, raise,
    try_except, assert_ in *;
  simpl in *.

(** * Properties *)

(** ** The match predicate *)

(** C7.  A matcher whose only field is [address] matches a device and an
    advertisement exactly when the address of the device is that of the
    matcher, whatever the advertisement holds. *)
Theorem address_only_matcher (matcher_address : string) (device : BLEDevice)
    (advertisement_data : AdvertisementData) :
  _ble_device_matches (Matcher.mk (Some matcher_address) None None None None)
    device advertisement_data = true
  ↔ BLEDevice.address device = matcher_address.
Proof.
  unfold _ble_device_matches; simpl.
  destruct (String.eqb_spec (BLEDevice.address device) matcher_address);
    simpl; split; congruence.
Qed.

Lemma str_or_truthy (x : string) (y : string) :
  x ≠ "" → str_or (Some x) y = x.
Proof. by destruct x. Qed.

Lemma str_or_falsy (x : option string) (y : string) :
  x = None ∨ x = Some "" → str_or x y = y.
Proof. by intros [-> | ->]. Qed.

Lemma matches_star_any (s : list ascii) :
  fnmatch.matches [fnmatch.Star] s = true.
Proof. induction s as [|c s IH]; simpl in *; [done|]. by rewrite IH. Qed.

(** A mismatch of the local-name pattern decides the predicate. *)
Lemma local_name_mismatch (matcher : BluetoothCallbackMatcher)
    (pattern : string) (device : BLEDevice)
    (advertisement_data : AdvertisementData) :
  Matcher.local_name matcher = Some pattern →
  fnmatch.fnmatch (name_or_address device advertisement_data) pattern = false →
  _ble_device_matches matcher device advertisement_data = false.
Proof.
  intros Hpat Hglob. unfold _ble_device_matches.
  rewrite Hpat, Hglob. simpl. by case_match.
Qed.

(** C8, as the code has it.  With a local-name pattern in the matcher, the
    predicate is false whenever the glob does not match the effective name;
    the effective name is the local name of the advertisement when that is
    present and not empty, else the name of the device when that is present
    and not empty, else the address of the device; the glob knows [*], [?]
    and character classes. *)
Theorem local_name_glob (matcher : BluetoothCallbackMatcher)
    (pattern : string) (device : BLEDevice)
    (advertisement_data : AdvertisementData) :
  Matcher.local_name matcher = Some pattern →
  let local_name := AdvertisementData.local_name advertisement_data in
  let effective := name_or_address device advertisement_data in
  (fnmatch.fnmatch effective pattern = false →
   _ble_device_matches matcher device advertisement_data = false)
  ∧ (∀ n, local_name = Some n → n ≠ "" → effective = n)
  ∧ (local_name = None ∨ local_name = Some "" →
     ∀ n, BLEDevice.name device = Some n → n ≠ "" → effective = n)
  ∧ (local_name = None ∨ local_name = Some "" →
     BLEDevice.name device = None ∨ BLEDevice.name device = Some "" →
     effective = BLEDevice.address device)
  ∧ (∀ s, fnmatch.fnmatch s "*" = true)
  ∧ (∀ c, fnmatch.fnmatch (String c "") "?" = true)
  ∧ (∀ c, fnmatch.fnmatch (String c "") "[a-c]" = true
          ↔ (97 ≤ nat_of_ascii c ≤ 99)%nat)
  ∧ (∀ c, fnmatch.fnmatch (String c "") "[!a-c]" = true
          ↔ ¬ (97 ≤ nat_of_ascii c ≤ 99)%nat)
  ∧ fnmatch.fnmatch "SwitchBot" "Switch*" = true
  ∧ fnmatch.fnmatch "OtherDevice" "Switch*" = false.
Proof.
  intros Hpat local_name effective. subst local_name effective.
  split_and!.
  - by apply local_name_mismatch.
  - intros n Hn Hne. unfold name_or_address. rewrite Hn.
    by apply str_or_truthy.
  - intros Hl n Hn Hne. unfold name_or_address.
    rewrite (str_or_falsy _ _ Hl), Hn. by apply str_or_truthy.
  - intros Hl Hd. unfold name_or_address.
    by rewrite (str_or_falsy _ _ Hl), (str_or_falsy _ _ Hd).
  - intros s. apply matches_star_any.
  - done.
  - intros c. unfold fnmatch.fnmatch.
    replace (fnmatch.translate "[a-c]")
      with [fnmatch.CharClass false [fnmatch.Range "a" "c"]]
      by (vm_compute; reflexivity).
    cbn -[Nat.leb nat_of_ascii].
    rewrite orb_false_r, andb_true_r, andb_true_iff, !Nat.leb_le.
    change (nat_of_ascii "a") with 97%nat.
    change (nat_of_ascii "c") with 99%nat. done.
  - intros c. unfold fnmatch.fnmatch.
    replace (fnmatch.translate "[!a-c]")
      with [fnmatch.CharClass true [fnmatch.Range "a" "c"]]
      by (vm_compute; reflexivity).
    cbn -[Nat.leb nat_of_ascii].
    change (nat_of_ascii "a") with 97%nat.
    change (nat_of_ascii "c") with 99%nat.
    destruct (Nat.leb_spec 97 (nat_of_ascii c)),
      (Nat.leb_spec (nat_of_ascii c) 99); simpl;
      (split;
       [ intros Ht; first [discriminate Ht | intros ?; lia]
       | intros Hn; first [reflexivity | exfalso; apply Hn; lia] ]).
  - reflexivity.
  - reflexivity.
Qed.

(** The theorem at a device named [WoHand] whose advertisement has an empty
    local name, against the pattern [Sw*]. *)
Lemma local_name_glob_witness :
  Matcher.local_name (local_name_matcher "Sw*") = Some "Sw*"
  ∧ name_or_address sample_device unnamed_advertisement = "WoHand"
  ∧ _ble_device_matches (local_name_matcher "Sw*") sample_device
      unnamed_advertisement = false.
Proof.
  destruct (local_name_glob (local_name_matcher "Sw*") "Sw*" sample_device
              unnamed_advertisement eq_refl) as (Hmismatch & _ & Hname & _).
  split_and!.
  - reflexivity.
  - apply Hname; [by right | reflexivity | discriminate].
  - apply Hmismatch. reflexivity.
Defined.

(** C8, as the specification words it, fails: an advertisement whose local
    name is the empty string has a local name, yet the predicate goes on to
    the name of the device, and a pattern that the empty name does not match
    is matched. *)
Lemma local_name_present_but_empty :
  AdvertisementData.local_name unnamed_advertisement = Some ""
  ∧ fnmatch.fnmatch
      (effective_name_as_specified sample_device unnamed_advertisement)
      "Wo*" = false
  ∧ _ble_device_matches (local_name_matcher "Wo*") sample_device
      unnamed_advertisement = true.
Proof. split_and!; reflexivity. Qed.

(** ** Runs of the computations *)

Section Runs.
Context `{Environment}.

#[local] Arguments match_domains : simpl never.
#[local] Arguments dispatch : simpl never.
#[local] Arguments dispatch_one : simpl never.
#[local] Arguments _device_detected : simpl never.

Lemma for_each_emit {X} (l : list X) (f : X → event)
    (self : BluetoothManager) :
  for_each l (λ x self, Outcome self [f x] (Returns tt)) self
  = Outcome self (f <$> l) (Returns tt).
Proof.
  induction l as [|x l IH]; [done|].
  simpl. run. by rewrite IH.
Qed.

(** *** The dispatch loop *)

Lemma dispatch_one_after device advertisement_data service_info entry self :
  after (dispatch_one device advertisement_data service_info entry self)
  = self.
Proof.
  destruct entry as [cb matcher]. unfold dispatch_one, callback.
  case_match; run; [|done].
  destruct (call cb _ _) as [ex|]; simpl; [|done].
  by destruct (isinstance_Exception ex).
Qed.

Lemma for_each_with_after {X S} (l : list X) (acc : S) (body : S → X → M S)
    (self : BluetoothManager) :
  (∀ acc x self, after (body acc x self) = self) →
  after (for_each_with l acc body self) = self.
Proof.
  intros Hbody. revert acc self.
  induction l as [|x l IH]; intros acc self; [done|].
  simpl. run. specialize (Hbody acc x self).
  destruct (result (body acc x self)); simpl; [|done].
  by rewrite IH.
Qed.

Lemma dispatch_after callbacks device advertisement_data self :
  after (dispatch callbacks device advertisement_data self) = self.
Proof. apply for_each_with_after, dispatch_one_after. Qed.

(** The trace and the result of the loop are those of the subscribers: the
    manager it runs in plays no part. *)
Lemma dispatch_one_any_manager device advertisement_data service_info entry
    self self' :
  trace (dispatch_one device advertisement_data service_info entry self)
  = trace (dispatch_one device advertisement_data service_info entry self')
  ∧ result (dispatch_one device advertisement_data service_info entry self)
    = result (dispatch_one device advertisement_data service_info entry self').
Proof.
  destruct entry as [cb matcher]. unfold dispatch_one, callback.
  case_match; run; [|done].
  destruct (call cb _ _) as [ex|]; simpl; [|done].
  by destruct (isinstance_Exception ex).
Qed.

Lemma dispatch_any_manager callbacks device advertisement_data self self' :
  trace (dispatch callbacks device advertisement_data self)
  = trace (dispatch callbacks device advertisement_data self')
  ∧ result (dispatch callbacks device advertisement_data self)
    = result (dispatch callbacks device advertisement_data self').
Proof.
  unfold dispatch. generalize (@None BluetoothServiceInfoBleak) as acc.
  revert self self'.
  induction callbacks as [|entry l IH]; intros self self' acc; [done|].
  simpl. run.
  destruct (dispatch_one_any_manager device advertisement_data acc entry
              self self') as [Ht Hr].
  rewrite <- Ht, <- Hr.
  destruct (result (dispatch_one _ _ acc entry self)) as [acc'|ex];
    simpl; [|done].
  rewrite !dispatch_one_after.
  destruct (IH self self' acc') as [Ht' Hr']. by rewrite Ht', Hr'.
Qed.

Lemma dispatch_one_caught device advertisement_data service_info entry self :
  caught device advertisement_data entry →
  service_info = None ∨ service_info = Some (info_of device advertisement_data) →
  ∃ service_info',
    dispatch_one device advertisement_data service_info entry self
    = Outcome self (entry_events device advertisement_data entry)
        (Returns service_info')
    ∧ (service_info' = None
       ∨ service_info' = Some (info_of device advertisement_data)).
Proof.
  intros Hcaught Hinfo. destruct entry as [cb matcher].
  unfold caught, subscribed, entry_events, subscribed in *.
  unfold dispatch_one, callback. simpl in *.
  destruct (match matcher with
            | Some m => _ble_device_matches m device advertisement_data
            | None => true
            end); [|by exists service_info].
  exists (Some (info_of device advertisement_data)).
  assert (match service_info with
          | Some service_info => service_info
          | None =>
              BluetoothServiceInfoBleak.from_advertisement device
                advertisement_data SOURCE_LOCAL
          end = info_of device advertisement_data) as ->
    by (by destruct Hinfo as [-> | ->]).
  specialize (Hcaught eq_refl). run.
  destruct (call cb _ _) as [ex|]; simpl in *; [|by auto].
  rewrite Hcaught. simpl. by auto.
Qed.

Lemma dispatch_from_caught callbacks device advertisement_data acc self :
  Forall (caught device advertisement_data) callbacks →
  acc = None ∨ acc = Some (info_of device advertisement_data) →
  ∃ service_info,
    for_each_with callbacks acc (dispatch_one device advertisement_data) self
    = Outcome self (callbacks ≫= entry_events device advertisement_data)
        (Returns service_info)
    ∧ (service_info = None
       ∨ service_info = Some (info_of device advertisement_data)).
Proof.
  intros Hall. revert acc.
  induction Hall as [|entry l Hentry Hl IH]; intros acc Hacc.
  { by exists acc. }
  destruct (dispatch_one_caught device advertisement_data acc entry self
              Hentry Hacc) as (acc' & Hone & Hacc').
  destruct (IH acc' Hacc') as (final & Hrest & Hfinal).
  exists final. split; [|done].
  simpl. run. rewrite Hone. simpl. by rewrite Hrest.
Qed.

Lemma dispatch_caught callbacks device advertisement_data self :
  Forall (caught device advertisement_data) callbacks →
  ∃ service_info,
    dispatch callbacks device advertisement_data self
    = Outcome self (callbacks ≫= entry_events device advertisement_data)
        (Returns service_info)
    ∧ (service_info = None
       ∨ service_info = Some (info_of device advertisement_data)).
Proof. intros Hall. apply dispatch_from_caught; auto. Qed.

(** *** The intake path *)

Lemma iter_set_empty : iter_set ∅ = [].
Proof.
  apply Permutation_nil_r. rewrite iter_set_elements.
  by rewrite elements_empty.
Qed.

Lemma match_domains_run device advertisement_data self :
  match_domains device advertisement_data self
  = Outcome (remembered self device advertisement_data) []
      (Returns (matched_domains_of self device advertisement_data)).
Proof.
  unfold match_domains, remembered, matched_domains_of, cached, match_key,
    has_manufacturer_data, LRU.contains, domains_matching.
  run.
  destruct (decide ((BLEDevice.address device, true)
                      ∈ LRU.keys (BluetoothManager._matched self))) as [Hhit|Hno].
  { rewrite (bool_decide_eq_true_2 _ Hhit). simpl.
    rewrite decide_True by auto. done. }
  rewrite (bool_decide_eq_false_2 _ Hno). simpl.
  match goal with
  | |- context [bool_decide (?k ∈ LRU.keys ?c)] =>
      destruct (decide (k ∈ LRU.keys c)) as [Hhit'|Hno']
  end.
  { rewrite (bool_decide_eq_true_2 _ Hhit'). simpl.
    rewrite decide_True by auto. done. }
  rewrite (bool_decide_eq_false_2 _ Hno'). simpl.
  rewrite decide_False by tauto.
  match goal with
  | |- context [bool_decide (?D ≠ ∅)] => destruct (decide (D = ∅)) as [He|Hne]
  end.
  - rewrite bool_decide_eq_false_2 by tauto. done.
  - rewrite bool_decide_eq_true_2 by done. done.
Qed.

Lemma dispatch_one_service_info device advertisement_data acc entry self acc' :
  acc = None ∨ acc = Some (info_of device advertisement_data) →
  result (dispatch_one device advertisement_data acc entry self)
  = Returns acc' →
  acc' = None ∨ acc' = Some (info_of device advertisement_data).
Proof.
  intros Hacc. destruct entry as [cb matcher]. unfold dispatch_one, callback.
  case_match; run; [|by intros [= <-]].
  assert (match acc with
          | Some service_info => service_info
          | None =>
              BluetoothServiceInfoBleak.from_advertisement device
                advertisement_data SOURCE_LOCAL
          end = info_of device advertisement_data) as ->
    by (by destruct Hacc as [-> | ->]).
  destruct (call cb _ _) as [ex|]; simpl; [|intros [= <-]; by right].
  destruct (isinstance_Exception ex); simpl; [|done].
  intros [= <-]; by right.
Qed.

Lemma dispatch_service_info callbacks device advertisement_data acc self acc' :
  acc = None ∨ acc = Some (info_of device advertisement_data) →
  result (for_each_with callbacks acc (dispatch_one device advertisement_data)
            self) = Returns acc' →
  acc' = None ∨ acc' = Some (info_of device advertisement_data).
Proof.
  revert acc self.
  induction callbacks as [|entry l IH]; intros acc self Hacc.
  { simpl. by intros [= <-]. }
  simpl. run.
  destruct (result (dispatch_one _ _ acc entry self)) as [acc1|ex] eqn:Hone;
    simpl; [|done].
  apply IH. by eapply dispatch_one_service_info.
Qed.

(** [_device_detected], unrolled: the cache lookup and the evaluation of the
    matchers, the debug line, the dispatch loop and, when that returns, the
    discovery flows. *)
Lemma device_detected_run device advertisement_data self :
  let matched_domains := matched_domains_of self device advertisement_data in
  let self' := remembered self device advertisement_data in
  let loop :=
    dispatch (BluetoothManager._callbacks self) device advertisement_data
      self' in
  _device_detected device advertisement_data self
  = Outcome self'
      (LoggedDeviceDetected device advertisement_data matched_domains ::
       trace loop ++
       match result loop with
       | Returns _ => flow_events device advertisement_data matched_domains
       | Raises _ => []
       end)
      (match result loop with
       | Returns _ => Returns tt
       | Raises ex => Raises ex
       end).
Proof.
  intros matched_domains self' loop.
  assert (BluetoothManager._callbacks self'
          = BluetoothManager._callbacks self) as Hcallbacks.
  { subst self'. unfold remembered.
    destruct (matched_domains_of _ _ _); [|done]. by case_decide. }
  unfold _device_detected, mbind, M_bind, bind.
  rewrite match_domains_run. run.
  fold self' matched_domains. rewrite Hcallbacks.
  destruct (not_domains matched_domains
            && bool_decide (BluetoothManager._callbacks self = []))
    eqn:Hearly; simpl.
  { apply andb_true_iff in Hearly as [Hnot Hnil].
    apply bool_decide_eq_true in Hnil.
    subst loop. rewrite Hnil. simpl.
    unfold flow_events.
    assert (default ∅ matched_domains = ∅) as ->.
    { destruct matched_domains as [domains|]; simpl in *; [|done].
      by apply bool_decide_eq_true in Hnot. }
    by rewrite iter_set_empty. }
  fold loop.
  pose proof (dispatch_after (BluetoothManager._callbacks self) device
                advertisement_data self') as Hafter.
  fold loop in Hafter. rewrite Hafter.
  destruct (result loop) as [service_info|ex] eqn:Hloop; simpl;
    [|by rewrite app_nil_r].
  unfold flow_events.
  destruct matched_domains as [domains|]; simpl.
  2:{ by rewrite iter_set_empty. }
  destruct (decide (domains = ∅)) as [->|Hne].
  { rewrite bool_decide_eq_true_2 by done. simpl.
    by rewrite iter_set_empty. }
  rewrite bool_decide_eq_false_2 by done.
  assert (match service_info with
          | Some service_info => service_info
          | None =>
              BluetoothServiceInfoBleak.from_advertisement device
                advertisement_data SOURCE_LOCAL
          end = info_of device advertisement_data) as ->.
  { destruct (dispatch_service_info _ _ _ None self' service_info
                (or_introl eq_refl) Hloop) as [-> | ->]; done. }
  rewrite (for_each_emit (iter_set domains)
             (λ domain,
                CreatedFlow domain SOURCE_BLUETOOTH
                  (info_of device advertisement_data))).
  done.
Qed.

Lemma domains_matching_nonempty matchers device advertisement_data :
  domains_matching matchers device advertisement_data ≠ ∅
  ↔ ∃ matcher,
      matcher ∈ matchers
      ∧ _ble_device_matches (BluetoothMatcher.fields matcher) device
          advertisement_data = true.
Proof.
  unfold domains_matching. split.
  - intros Hne. apply set_choose_L in Hne as [domain Hin].
    apply elem_of_list_to_set, list_elem_of_fmap in Hin
      as (matcher & _ & Hin).
    apply list_elem_of_filter in Hin as [Hmatch Hin]. by exists matcher.
  - intros (matcher & Hin & Hmatch) Hempty.
    assert (BluetoothMatcher.domain matcher ∈ (∅ : gset string)) as Habs;
      [|set_solver].
    rewrite <- Hempty. apply elem_of_list_to_set, list_elem_of_fmap.
    exists matcher. split; [done|]. by apply list_elem_of_filter.
Qed.

Lemma evaluated_iff device advertisement_data self :
  evaluated (trace (_device_detected device advertisement_data self))
  ↔ ¬ cached self (BLEDevice.address device, true)
    ∧ ¬ cached self (match_key device advertisement_data).
Proof.
  rewrite device_detected_run. unfold evaluated, matched_domains_of. simpl.
  case_decide as Hhit.
  - split; [by intros [? ?]|tauto].
  - split; [tauto|]. intros _. by eexists.
Qed.

Lemma device_detected_records device advertisement_data self :
  evaluated (trace (_device_detected device advertisement_data self)) →
  (∃ matcher,
     matcher ∈ BluetoothManager._integration_matchers self
     ∧ _ble_device_matches (BluetoothMatcher.fields matcher) device
         advertisement_data = true) →
  BluetoothManager._matched
    (after (_device_detected device advertisement_data self))
  = LRU.set (match_key device advertisement_data)
      (BluetoothManager._matched self).
Proof.
  intros Heval Hmatch%domains_matching_nonempty.
  apply evaluated_iff in Heval as [Hno1 Hno2].
  rewrite device_detected_run. simpl.
  unfold remembered, matched_domains_of.
  rewrite decide_False by tauto. by rewrite decide_False by done.
Qed.

Lemma LRU_set_keys {K} `{EqDecision K} (key : K)
    (c : LRU.t MAX_REMEMBER_ADDRESSES K) :
  key ∈ LRU.keys (LRU.set key c)
  ∧ ∀ k, k ∈ LRU.keys (LRU.set key c) → k = key ∨ k ∈ LRU.keys c.
Proof.
  unfold LRU.set. cbn [LRU.keys]. split.
  - apply elem_of_take. exists 0%nat. split; [done|].
    unfold MAX_REMEMBER_ADDRESSES. lia.
  - intros k Hk. apply subseteq_take in Hk.
    apply elem_of_cons in Hk as [->|Hk]; [by left|].
    apply list_elem_of_filter in Hk as [_ Hk]. by right.
Qed.

End Runs.

(** ** The match cache *)

Section MatchCache.
Context `{Environment}.

(** C1, as the code has it.  [_device_detected] looks up [(address, True)]
    and the key of the advertisement at hand, [(address, has manufacturer
    data)]; the matchers are evaluated exactly when neither is cached, so
    [(address, False)] counts only for an advertisement without manufacturer
    data.  When the matchers are evaluated and one of them matches, the key
    of the advertisement is recorded and no other key is; in every other
    case the manager is left as it was. *)
Theorem match_cache_policy (self : BluetoothManager) (device : BLEDevice)
    (advertisement_data : AdvertisementData) :
  let o := _device_detected device advertisement_data self in
  let key :=
    (BLEDevice.address device, has_manufacturer_data advertisement_data) in
  let domains :=
    domains_matching (BluetoothManager._integration_matchers self) device
      advertisement_data in
  (evaluated (trace o)
   ↔ ¬ cached self (BLEDevice.address device, true) ∧ ¬ cached self key)
  ∧ (evaluated (trace o) → logged_domains (trace o) = Some (Some domains))
  ∧ (evaluated (trace o) →
     (∃ matcher,
        matcher ∈ BluetoothManager._integration_matchers self
        ∧ _ble_device_matches (BluetoothMatcher.fields matcher) device
            advertisement_data = true) →
     cached (after o) key
     ∧ ∀ k, cached (after o) k → k = key ∨ cached self k)
  ∧ (¬ evaluated (trace o) ∨ domains = ∅ → after o = self).
Proof.
  intros o key domains. split_and!.
  - apply evaluated_iff.
  - intros Heval. apply evaluated_iff in Heval as [Hno1 Hno2].
    subst o. rewrite device_detected_run. simpl.
    unfold matched_domains_of. by rewrite decide_False by tauto.
  - intros Heval Hmatch. subst o. unfold cached.
    rewrite (device_detected_records _ _ _ Heval Hmatch).
    apply LRU_set_keys.
  - intros Hcase. subst o. rewrite device_detected_run. simpl.
    unfold remembered.
    destruct (matched_domains_of self device advertisement_data)
      as [domains'|] eqn:Hmd; [|done].
    unfold matched_domains_of in Hmd. case_decide as Hhit; [done|].
    injection Hmd as <-. destruct Hcase as [Hne | Hempty].
    + exfalso. apply Hne, evaluated_iff. tauto.
    + fold domains. by rewrite decide_True.
Qed.

End MatchCache.

(** The policy at a first advertisement with manufacturer data that the
    SwitchBot matcher matches: the matchers are evaluated and
    [(address, True)] is recorded. *)
Lemma match_cache_policy_witness :
  let self := BluetoothManager.__init__ [switchbot_matcher] in
  let o := @_device_detected quiet sample_device full_advertisement self in
  evaluated (trace o)
  ∧ cached (after o) (sample_address, true)
  ∧ ∀ k, cached (after o) k → k = (sample_address, true) ∨ cached self k.
Proof.
  intros self o.
  destruct (@match_cache_policy quiet self sample_device full_advertisement)
    as (Hiff & _ & Hrecorded & _).
  assert (evaluated (trace o)) as Heval.
  { apply Hiff. split; vm_compute; by intros ?%elem_of_nil. }
  split; [done|]. apply (Hrecorded Heval).
  exists switchbot_matcher. split; [left | by vm_compute].
Defined.

(** C1, as the specification words it, fails.  With only
    [(address, False)] in the cache, an advertisement that carries
    manufacturer data has the matchers evaluated again. *)
Lemma evaluates_although_a_shape_is_cached :
  ¬ @evaluates_iff_neither_shape_cached quiet matched_without_data
      sample_device full_advertisement.
Proof.
  intros Hclaim.
  assert (evaluated
            (trace (@_device_detected quiet sample_device full_advertisement
                      matched_without_data))) as Heval.
  { apply evaluated_iff.
    split; vm_compute; intros Hin;
      inversion Hin as [|? ? ? Hin']; inversion Hin'. }
  apply Hclaim in Heval as [_ Hno]. apply Hno. left.
Qed.

Section Intake.
Context `{Environment}.

Lemma flow_events_none device advertisement_data :
  flow_events device advertisement_data None = [].
Proof. unfold flow_events. simpl. by rewrite iter_set_empty. Qed.

(** Once [(address, True)] is cached, an advertisement from that address
    leaves the manager as it is, logs [matched_domains = None] and goes
    through the dispatch loop. *)
Lemma device_detected_cached device advertisement_data self :
  cached self (BLEDevice.address device, true) →
  let o := _device_detected device advertisement_data self in
  let loop :=
    dispatch (BluetoothManager._callbacks self) device advertisement_data
      self in
  after o = self
  ∧ trace o
    = LoggedDeviceDetected device advertisement_data None :: trace loop
  ∧ result o
    = match result loop with
      | Returns _ => Returns tt
      | Raises ex => Raises ex
      end.
Proof.
  intros Hhit o loop. subst o loop. rewrite device_detected_run. simpl.
  unfold remembered, matched_domains_of.
  rewrite decide_True by auto. split_and!; [done| |done].
  rewrite flow_events_none. f_equal.
  by destruct (result _); rewrite app_nil_r.
Qed.

Lemma flows_dispatch_one device advertisement_data acc entry self :
  flows (trace (dispatch_one device advertisement_data acc entry self)) = [].
Proof.
  destruct entry as [cb matcher]. unfold dispatch_one, callback.
  case_match; run; [|done].
  destruct (call cb _ _) as [ex|]; simpl; [|done].
  by destruct (isinstance_Exception ex).
Qed.

(** The dispatch loop requests no discovery flow, however it ends. *)
Lemma flows_dispatch callbacks device advertisement_data self :
  flows (trace (dispatch callbacks device advertisement_data self)) = [].
Proof.
  unfold dispatch. generalize (@None BluetoothServiceInfoBleak) as acc.
  revert self.
  induction callbacks as [|entry l IH]; intros self acc; [done|].
  simpl. run.
  pose proof (flows_dispatch_one device advertisement_data acc entry self)
    as Hone.
  destruct (result (dispatch_one _ _ acc entry self)) as [acc'|ex];
    simpl; [|done].
  unfold flows in *. by rewrite omap_app, Hone, IH.
Qed.

Lemma detect_all_cached address later self :
  cached self (address, true) →
  Forall (λ da, BLEDevice.address da.1 = address) later →
  Forall2
    (λ da o,
       let loop :=
         dispatch (BluetoothManager._callbacks self) da.1 da.2 self in
       trace o = LoggedDeviceDetected da.1 da.2 None :: trace loop
       ∧ result o
         = match result loop with
           | Returns _ => Returns tt
           | Raises ex => Raises ex
           end
       ∧ after o = self)
    later (detect_all later self).
Proof.
  intros Hhit Hsame.
  induction Hsame as [|[device advertisement_data] later Haddr _ IH].
  { constructor. }
  simpl in Haddr. subst address.
  destruct (device_detected_cached device advertisement_data self Hhit)
    as (Hafter & Htrace & Hresult).
  simpl. rewrite Hafter. constructor; [|done].
  simpl. by rewrite Htrace, Hresult.
Qed.

Lemma called_entry_events callbacks device advertisement_data :
  called (callbacks ≫= entry_events device advertisement_data)
  = (λ entry, (entry.1, info_of device advertisement_data))
    <$> filter (λ entry, subscribed device advertisement_data entry = true)
          callbacks.
Proof.
  induction callbacks as [|entry l IH]; [done|].
  change ((entry :: l) ≫= entry_events device advertisement_data)
    with (entry_events device advertisement_data entry
          ++ (l ≫= entry_events device advertisement_data)).
  unfold called in *. rewrite omap_app, IH. rewrite filter_cons.
  unfold entry_events.
  destruct (subscribed device advertisement_data entry); simpl; [|done].
  by destruct (call _ _ _).
Qed.

Lemma flows_entry_events callbacks device advertisement_data :
  flows (callbacks ≫= entry_events device advertisement_data) = [].
Proof.
  induction callbacks as [|entry l IH]; [done|].
  change ((entry :: l) ≫= entry_events device advertisement_data)
    with (entry_events device advertisement_data entry
          ++ (l ≫= entry_events device advertisement_data)).
  unfold flows in *. rewrite omap_app, IH. unfold entry_events.
  destruct (subscribed device advertisement_data entry); simpl; [|done].
  by destruct (call _ _ _).
Qed.

Lemma called_flow_events device advertisement_data matched_domains :
  called (flow_events device advertisement_data matched_domains) = [].
Proof.
  unfold flow_events. by induction (iter_set _) as [|d l IH].
Qed.

Lemma flows_flow_events device advertisement_data matched_domains :
  flows (flow_events device advertisement_data matched_domains)
  = (λ domain, (domain, SOURCE_BLUETOOTH, info_of device advertisement_data))
    <$> iter_set (default ∅ matched_domains).
Proof.
  unfold flow_events. induction (iter_set _) as [|d l IH]; [done|].
  simpl. f_equal. apply IH.
Qed.

(** A subscription that takes the advertisement is invoked, whatever its
    callback then does. *)
Lemma dispatch_one_calls device advertisement_data acc entry self :
  acc = None ∨ acc = Some (info_of device advertisement_data) →
  subscribed device advertisement_data entry = true →
  Called entry.1 (info_of device advertisement_data) ADVERTISEMENT
    ∈ trace (dispatch_one device advertisement_data acc entry self).
Proof.
  intros Hacc Hsub. destruct entry as [cb matcher].
  unfold subscribed in Hsub. unfold dispatch_one, callback. simpl in *.
  rewrite Hsub.
  assert (match acc with
          | Some service_info => service_info
          | None =>
              BluetoothServiceInfoBleak.from_advertisement device
                advertisement_data SOURCE_LOCAL
          end = info_of device advertisement_data) as ->
    by (by destruct Hacc as [-> | ->]).
  run. destruct (call cb _ _) as [ex|]; simpl; [|left].
  destruct (isinstance_Exception ex); simpl; left.
Qed.

(** The loop reaches every subscription before which no subscriber raised
    what [except Exception] does not catch. *)
Lemma dispatch_serves before entry rest device advertisement_data acc self :
  Forall (caught device advertisement_data) before →
  acc = None ∨ acc = Some (info_of device advertisement_data) →
  subscribed device advertisement_data entry = true →
  Called entry.1 (info_of device advertisement_data) ADVERTISEMENT
    ∈ trace (for_each_with (before ++ entry :: rest) acc
               (dispatch_one device advertisement_data) self).
Proof.
  intros Hbefore Hacc Hsub. revert acc Hacc.
  induction Hbefore as [|e before He _ IH]; intros acc Hacc.
  - pose proof (dispatch_one_calls device advertisement_data acc entry self
                  Hacc Hsub) as Hcalled.
    simpl. unfold mbind, M_bind, bind.
    destruct (result (dispatch_one _ _ acc entry self)); simpl; [|done].
    apply elem_of_app. by left.
  - destruct (dispatch_one_caught device advertisement_data acc e self He Hacc)
      as (acc' & Hrun & Hacc').
    simpl. unfold mbind, M_bind, bind. rewrite Hrun. simpl.
    apply elem_of_app. right. by apply IH.
Qed.

(** C2.  After an advertisement with manufacturer data for which the
    matchers were evaluated and one of them matched, every later
    advertisement from that address, with or without manufacturer data, is
    handled without evaluating the matchers ([matched_domains] stays [None])
    and requests no discovery flow, and the pass over the registry runs for
    it all the same: its trace is the debug line followed by the trace of
    the loop over the registered subscriptions, and it ends as that loop
    ends; every subscription whose matcher is absent or matches is invoked
    with the service info of that advertisement, unless a subscriber before
    it raised what [except Exception] does not catch; where no subscriber
    does that, the run returns and the subscribers invoked are exactly
    those, in the order of the registry. *)
Theorem cache_short_circuits (self : BluetoothManager) (device : BLEDevice)
    (advertisement_data : AdvertisementData)
    (later : list (BLEDevice * AdvertisementData)) :
  has_manufacturer_data advertisement_data = true →
  evaluated (trace (_device_detected device advertisement_data self)) →
  (∃ matcher,
     matcher ∈ BluetoothManager._integration_matchers self
     ∧ _ble_device_matches (BluetoothMatcher.fields matcher) device
         advertisement_data = true) →
  Forall (λ da, BLEDevice.address da.1 = BLEDevice.address device) later →
  Forall2
    (λ da o,
       let loop :=
         dispatch (BluetoothManager._callbacks self) da.1 da.2 self in
       ¬ evaluated (trace o)
       ∧ logged_domains (trace o) = Some None
       ∧ trace o = LoggedDeviceDetected da.1 da.2 None :: trace loop
       ∧ result o
         = match result loop with
           | Returns _ => Returns tt
           | Raises ex => Raises ex
           end
       ∧ flows (trace o) = []
       ∧ (∀ before entry rest,
            BluetoothManager._callbacks self = before ++ entry :: rest →
            Forall (caught da.1 da.2) before →
            subscribed da.1 da.2 entry = true →
            Called entry.1 (info_of da.1 da.2) ADVERTISEMENT ∈ trace o)
       ∧ (Forall (caught da.1 da.2) (BluetoothManager._callbacks self) →
          result o = Returns tt
          ∧ called (trace o)
            = (λ entry, (entry.1, info_of da.1 da.2))
              <$> filter (λ entry, subscribed da.1 da.2 entry = true)
                    (BluetoothManager._callbacks self)))
    later
    (detect_all later
       (after (_device_detected device advertisement_data self))).
Proof.
  intros Hdata Heval Hmatch Hsame.
  set (self' := after (_device_detected device advertisement_data self)).
  assert (cached self' (BLEDevice.address device, true)) as Hhit.
  { subst self'. unfold cached.
    rewrite (device_detected_records _ _ _ Heval Hmatch).
    unfold match_key. rewrite Hdata. apply LRU_set_keys. }
  assert (BluetoothManager._callbacks self'
          = BluetoothManager._callbacks self) as Hcallbacks.
  { subst self'. rewrite device_detected_run. simpl. unfold remembered.
    destruct (matched_domains_of _ _ _); [|done]. by case_decide. }
  eapply Forall2_impl;
    [by apply (detect_all_cached (BLEDevice.address device))|].
  intros [device' advertisement_data'] o (Htrace & Hresult & _).
  simpl in *. rewrite Hcallbacks in Htrace, Hresult.
  destruct (dispatch_any_manager (BluetoothManager._callbacks self) device'
              advertisement_data' self' self) as [Ht Hr].
  rewrite Ht in Htrace. rewrite Hr in Hresult.
  split_and!.
  - unfold evaluated. rewrite Htrace. simpl. by intros [? ?].
  - by rewrite Htrace.
  - done.
  - done.
  - rewrite Htrace. unfold flows. simpl.
    apply flows_dispatch.
  - intros before entry rest Hsplit Hbefore Hsub. rewrite Htrace.
    right. rewrite Hsplit. unfold dispatch.
    by apply dispatch_serves; [|left|].
  - intros Hcaught.
    destruct (dispatch_caught (BluetoothManager._callbacks self) device'
                advertisement_data' self Hcaught)
      as (service_info & Hloop & _).
    rewrite Hresult, Htrace, Hloop. simpl. split; [done|].
    apply called_entry_events.
Qed.

(** C5.  When the subscribers return or raise instances of [Exception],
    [_device_detected] returns: no exception leaves it.  The subscribers
    invoked are those whose matcher is absent or matches, all of them, in
    the order of the registry, whichever of them raised; each one that raised
    left a line in the log; and one discovery flow is requested for every
    matched domain. *)
Theorem callback_failures_are_isolated (self : BluetoothManager)
    (device : BLEDevice) (advertisement_data : AdvertisementData) :
  Forall (caught device advertisement_data) (BluetoothManager._callbacks self) →
  let o := _device_detected device advertisement_data self in
  let info := info_of device advertisement_data in
  result o = Returns tt
  ∧ called (trace o)
    = (λ entry, (entry.1, info))
      <$> filter (λ entry, subscribed device advertisement_data entry = true)
            (BluetoothManager._callbacks self)
  ∧ (∀ entry ex,
       entry ∈ BluetoothManager._callbacks self →
       subscribed device advertisement_data entry = true →
       call entry.1 info ADVERTISEMENT = Some ex →
       LoggedException "Error in bluetooth callback" ∈ trace o)
  ∧ ∃ matched_domains,
      result (match_domains device advertisement_data self)
      = Returns matched_domains
      ∧ logged_domains (trace o) = Some matched_domains
      ∧ flows (trace o)
        ≡ₚ (λ domain, (domain, SOURCE_BLUETOOTH, info))
           <$> elements (default ∅ matched_domains).
Proof.
  intros Hcaught o info. subst o.
  rewrite device_detected_run.
  destruct (dispatch_caught (BluetoothManager._callbacks self) device
              advertisement_data
              (remembered self device advertisement_data) Hcaught)
    as (service_info & Hloop & _).
  rewrite Hloop. simpl. split_and!.
  - done.
  - unfold called. simpl. rewrite omap_app.
    change (omap _ ?t ++ omap _ ?u) with (called t ++ called u).
    by rewrite called_entry_events, called_flow_events, app_nil_r.
  - intros entry ex Hin Hsub Hcall. right. apply elem_of_app. left.
    apply list_elem_of_bind. exists entry. split; [|done].
    unfold entry_events. rewrite Hsub. fold info. rewrite Hcall.
    right. left.
  - exists (matched_domains_of self device advertisement_data).
    split_and!;
      [exact (f_equal result
                (match_domains_run device advertisement_data self))|done|].
    unfold flows. simpl. rewrite omap_app.
    change (omap _ ?t ++ omap _ ?u) with (flows t ++ flows u).
    rewrite flows_entry_events, flows_flow_events. simpl.
    by rewrite iter_set_elements.
Qed.

End Intake.

(** The theorem at [sample_address]: a first advertisement with
    manufacturer data that the SwitchBot matcher matches, then one without
    and one with manufacturer data; both subscribers are invoked for each of
    the two. *)
Lemma cache_short_circuits_witness :
  Forall2
    (λ da o,
       ¬ evaluated (trace o)
       ∧ flows (trace o) = []
       ∧ result o = Returns tt
       ∧ called (trace o)
         = [(1%nat, info_of da.1 da.2); (2%nat, info_of da.1 da.2)])
    [(sample_device, bare_advertisement); (sample_device, full_advertisement)]
    (@detect_all quiet
       [(sample_device, bare_advertisement);
        (sample_device, full_advertisement)]
       (after (@_device_detected quiet sample_device full_advertisement
                 two_subscribers))).
Proof.
  pose proof (@cache_short_circuits quiet two_subscribers sample_device
                full_advertisement
                [(sample_device, bare_advertisement);
                 (sample_device, full_advertisement)]) as Hall.
  assert (∀ (P Q : BLEDevice * AdvertisementData → outcome unit → Prop) l k,
            (∀ da o, da ∈ l → P da o → Q da o) →
            Forall2 P l k → Forall2 Q l k) as Hweaken.
  { intros P Q l k Himpl Hl. induction Hl as [|da o l k Hp _ IH].
    - constructor.
    - constructor; [apply Himpl; [left|done]|].
      apply IH. intros da' o' Hin. apply Himpl. by right. }
  eapply Hweaken; [|apply Hall].
  - intros da o Hin (Hnot & _ & _ & _ & Hflows & _ & Hserved).
    assert (da = (sample_device, bare_advertisement)
            ∨ da = (sample_device, full_advertisement)) as Hda.
    { apply elem_of_cons in Hin as [->|Hin]; [by left|].
      apply elem_of_cons in Hin as [->|Hin]; [by right|].
      by apply elem_of_nil in Hin. }
    destruct Hserved as [Hresult Hcalled].
    { destruct Hda as [-> | ->]; by repeat constructor. }
    split_and!; [done|done|done|].
    rewrite Hcalled. by destruct Hda as [-> | ->].
  - vm_compute. reflexivity.
  - unfold evaluated. eexists. vm_compute. reflexivity.
  - exists switchbot_matcher. split; [left | vm_compute; reflexivity].
  - repeat constructor.
Defined.

(** The theorem at a registry whose first subscriber raises: the second
    subscriber is invoked all the same and the flow for [switchbot] is
    requested. *)
Lemma callback_failures_are_isolated_witness :
  let o :=
    @_device_detected faulty sample_device full_advertisement
      two_subscribers in
  let info := info_of sample_device full_advertisement in
  call (Environment := faulty) 1%nat info ADVERTISEMENT
  = Some (PyExc OtherException "boom")
  ∧ result o = Returns tt
  ∧ called (trace o) = [(1%nat, info); (2%nat, info)]
  ∧ LoggedException "Error in bluetooth callback" ∈ trace o
  ∧ flows (trace o) ≡ₚ [("switchbot", SOURCE_BLUETOOTH, info)].
Proof.
  intros o info.
  destruct (@callback_failures_are_isolated faulty two_subscribers
              sample_device full_advertisement)
    as (Hresult & Hcalled & Hlogged & matched_domains & Hmatched & _ & Hflows).
  { repeat constructor. }
  subst o info. split_and!.
  - reflexivity.
  - exact Hresult.
  - rewrite Hcalled. vm_compute. reflexivity.
  - apply (Hlogged (1%nat, None) (PyExc OtherException "boom"));
      [left | reflexivity | reflexivity].
  - rewrite Hflows. vm_compute in Hmatched. injection Hmatched as <-.
    vm_compute. reflexivity.
Defined.

(** The subscriber [1], the second of three, is interrupted: what it raises
    leaves [_device_detected], and neither the third subscriber nor the
    SwitchBot flow has its turn. *)
Lemma an_interrupted_subscriber_is_not_isolated :
  ¬ @isolates_any_callback_failure interrupted three_subscribers
      sample_device full_advertisement.
Proof.
  intros (Hresult & _). vm_compute in Hresult. discriminate Hresult.
Qed.

(** ** The callback registry *)

Section ListRemove.
Context {A : Type} `{EqDecision A}.

Lemma list_remove_fresh (x : A) (l : list A) :
  x ∉ l → list_remove x (l ++ [x]) = Some l.
Proof.
  induction l as [|y l IH]; intros Hnot; simpl.
  - by rewrite decide_True.
  - apply not_elem_of_cons in Hnot as [Hne Hnot].
    rewrite decide_False by done. by rewrite IH.
Qed.

Lemma list_remove_app (x : A) (l l' k : list A) :
  list_remove x l = Some l' → list_remove x (l ++ k) = Some (l' ++ k).
Proof.
  revert l'. induction l as [|y l IH]; intros l' Hrm; simpl in *; [done|].
  case_decide; [by injection Hrm as <-|].
  destruct (list_remove x l) as [l0|]; [|done].
  injection Hrm as <-. by rewrite (IH l0).
Qed.

Lemma list_remove_is_Some (x : A) (l : list A) :
  x ∈ l → is_Some (list_remove x l).
Proof.
  induction l as [|y l IH]; intros Hin; simpl; [by apply elem_of_nil in Hin|].
  case_decide; [done|].
  apply elem_of_cons in Hin as [->|Hin]; [done|].
  destruct (IH Hin) as [l' ->]. done.
Qed.

Lemma list_remove_None (x : A) (l : list A) :
  x ∉ l → list_remove x l = None.
Proof.
  induction l as [|y l IH]; intros Hnot; simpl; [done|].
  apply not_elem_of_cons in Hnot as [Hne Hnot].
  rewrite decide_False by done. by rewrite IH.
Qed.

Lemma list_remove_Permutation (x : A) (l l' : list A) :
  list_remove x l = Some l' → l ≡ₚ x :: l'.
Proof.
  revert l'. induction l as [|y l IH]; intros l' Hrm; simpl in *; [done|].
  case_decide as Heq; [injection Hrm as <-; by subst|].
  destruct (list_remove x l) as [l0|]; [|done].
  injection Hrm as <-. rewrite (IH l0 eq_refl). apply Permutation_swap.
Qed.

End ListRemove.

Section Registry.
Context `{Environment}.

Lemma with_callbacks_same self :
  BluetoothManager.with_callbacks (BluetoothManager._callbacks self) self
  = self.
Proof. by destruct self. Qed.

Lemma replayed_history self matcher address :
  Matcher.address matcher = Some address →
  address ≠ "" →
  replayed self (Some matcher) = history_of self !! address.
Proof.
  intros Haddr Hne. unfold replayed, history_of, Matcher.truthy.
  rewrite Haddr. rewrite bool_decide_eq_true_2 by done. simpl.
  destruct address; [done|]. simpl.
  by destruct (BluetoothManager.scanner self).
Qed.

(** [async_register_callback], unrolled. *)
Lemma register_run cb matcher self :
  let self' :=
    BluetoothManager.with_callbacks
      (BluetoothManager._callbacks self ++ [(cb, matcher)]) self in
  async_register_callback cb matcher self
  = match replayed self matcher with
    | Some (device, advertisement_data) =>
        let info := info_of device advertisement_data in
        match call cb info ADVERTISEMENT with
        | None => Outcome self' [Called cb info ADVERTISEMENT]
                    (Returns (cb, matcher))
        | Some ex =>
            if isinstance_Exception ex then
              Outcome self'
                [Called cb info ADVERTISEMENT;
                 LoggedException "Error in bluetooth callback"]
                (Returns (cb, matcher))
            else Outcome self' [Called cb info ADVERTISEMENT] (Raises ex)
        end
    | None => Outcome self' [] (Returns (cb, matcher))
    end.
Proof.
  intros self'. unfold async_register_callback, callback. run.
  fold self'.
  assert (replayed self' matcher = replayed self matcher) as -> by done.
  destruct (replayed self matcher) as [[device advertisement_data]|];
    simpl; [|done].
  fold (info_of device advertisement_data).
  destruct (call cb _ _) as [ex|]; simpl; [|done].
  by destruct (isinstance_Exception ex).
Qed.

(** C3, as the code has it.  A registration whose matcher carries an address
    that is not the empty string, for which the history has an entry, invokes
    the callback once before it returns, with the service info built from
    that entry.  Without a matcher, without an address, with the empty
    address or without an entry in the history, nothing is invoked.  A
    callback that raises an instance of [Exception] leaves a line in the log
    and the registration returns its handle; the subscription is in the
    registry in every case. *)
Theorem replay_on_register (self : BluetoothManager) (cb : BluetoothCallback)
    (matcher : option BluetoothCallbackMatcher) :
  let o := async_register_callback cb matcher self in
  (∀ m address device advertisement_data,
     matcher = Some m →
     Matcher.address m = Some address →
     address ≠ "" →
     history_of self !! address = Some (device, advertisement_data) →
     called (trace o)
     = [(cb, BluetoothServiceInfoBleak.from_advertisement device
               advertisement_data SOURCE_LOCAL)])
  ∧ (matcher = None
     ∨ (∃ m, matcher = Some m
             ∧ (Matcher.address m = None
                ∨ Matcher.address m = Some ""
                ∨ ∃ address, Matcher.address m = Some address
                             ∧ history_of self !! address = None)) →
     trace o = [])
  ∧ (replay_caught cb → result o = Returns (cb, matcher))
  ∧ (∀ ex service_info,
       Called cb service_info ADVERTISEMENT ∈ trace o →
       call cb service_info ADVERTISEMENT = Some ex →
       isinstance_Exception ex = true →
       LoggedException "Error in bluetooth callback" ∈ trace o)
  ∧ BluetoothManager._callbacks (after o)
    = BluetoothManager._callbacks self ++ [(cb, matcher)].
Proof.
  intros o. subst o. rewrite register_run. split_and!.
  - intros m address device advertisement_data -> Haddr Hne Hhist.
    rewrite (replayed_history _ _ _ Haddr Hne), Hhist. simpl.
    fold (info_of device advertisement_data).
    destruct (call cb _ _) as [ex|]; [|done].
    by destruct (isinstance_Exception ex).
  - intros [-> | (m & -> & Hcase)]; [done|].
    assert (replayed self (Some m) = None) as ->; [|done].
    unfold replayed. destruct (Matcher.truthy m); [|done].
    destruct Hcase as [-> | [-> | (address & -> & Hnone)]]; [done..|].
    destruct (str_truthy address); [|done].
    unfold history_of in Hnone.
    by destruct (BluetoothManager.scanner self).
  - intros Hcaught.
    destruct (replayed self matcher) as [[device advertisement_data]|];
      [|done].
    simpl. specialize (Hcaught (info_of device advertisement_data)).
    destruct (call cb _ _) as [ex|]; [|done].
    simpl in Hcaught. by rewrite Hcaught.
  - intros ex service_info Hcalled Hcall Hexc.
    destruct (replayed self matcher) as [[device advertisement_data]|];
      [|by apply elem_of_nil in Hcalled].
    simpl in *.
    destruct (call cb (info_of device advertisement_data) ADVERTISEMENT)
      as [ex'|] eqn:Hcall'.
    + destruct (isinstance_Exception ex') eqn:Hexc'; simpl.
      * right. left.
      * apply list_elem_of_singleton in Hcalled. injection Hcalled as ->.
        congruence.
    + apply list_elem_of_singleton in Hcalled. injection Hcalled as ->.
      congruence.
  - destruct (replayed self matcher) as [[device advertisement_data]|];
      [|done].
    simpl. destruct (call cb _ _) as [ex|]; [|done].
    by destruct (isinstance_Exception ex).
Qed.

(** The handle of [async_register_callback], unrolled. *)
Lemma remove_callback_run entry self :
  async_register_callback__async_remove_callback entry self
  = match list_remove entry (BluetoothManager._callbacks self) with
    | Some callbacks =>
        Outcome (BluetoothManager.with_callbacks callbacks self) []
          (Returns tt)
    | None =>
        Outcome self [] (Raises (PyExc ValueError "list.remove(x): x not in list"))
    end.
Proof.
  unfold async_register_callback__async_remove_callback. run.
  by destruct (list_remove entry (BluetoothManager._callbacks self)).
Qed.

Lemma register_returns cb matcher self :
  replay_caught cb →
  ∃ t,
    async_register_callback cb matcher self
    = Outcome
        (BluetoothManager.with_callbacks
           (BluetoothManager._callbacks self ++ [(cb, matcher)]) self)
        t (Returns (cb, matcher)).
Proof.
  intros Hcaught. rewrite register_run.
  destruct (replayed self matcher) as [[device advertisement_data]|];
    [|by eexists].
  simpl. specialize (Hcaught (info_of device advertisement_data)).
  destruct (call cb _ _) as [ex|]; [|by eexists].
  simpl in Hcaught. rewrite Hcaught. by eexists.
Qed.

Lemma register_then_unregister_run cb matcher self callbacks :
  replay_caught cb →
  list_remove (cb, matcher) (BluetoothManager._callbacks self ++ [(cb, matcher)])
  = Some callbacks →
  result (register_then_unregister cb matcher self) = Returns tt
  ∧ after (register_then_unregister cb matcher self)
    = BluetoothManager.with_callbacks callbacks self.
Proof.
  intros Hcaught Hrm. unfold register_then_unregister.
  unfold mbind, M_bind, bind.
  destruct (register_returns cb matcher self Hcaught) as [t ->].
  cbn [result after trace]. rewrite remove_callback_run.
  cbn [BluetoothManager._callbacks BluetoothManager.with_callbacks].
  unfold callback_entry in *. rewrite Hrm. simpl. done.
Qed.

(** C6, as the code has it.  With a callback whose replay does not raise
    past the handler, a registration followed by the call of its handle
    returns.  When no equal (callback, matcher) pair was registered before,
    the manager is again what it was, so every later advertisement is
    handled as it would have been.  When an equal pair was registered, the
    handle removes the first one: the registry holds the subscriptions it
    held, with that pair moved to the end. *)
Theorem register_then_unregister_restores (self : BluetoothManager)
    (cb : BluetoothCallback) (matcher : option BluetoothCallbackMatcher) :
  replay_caught cb →
  let o := register_then_unregister cb matcher self in
  result o = Returns tt
  ∧ ((cb, matcher) ∉ BluetoothManager._callbacks self →
     after o = self
     ∧ ∀ device advertisement_data,
         _device_detected device advertisement_data (after o)
         = _device_detected device advertisement_data self)
  ∧ (∀ callbacks,
       list_remove (cb, matcher) (BluetoothManager._callbacks self)
       = Some callbacks →
       BluetoothManager._callbacks (after o) = callbacks ++ [(cb, matcher)])
  ∧ BluetoothManager._callbacks (after o)
    ≡ₚ BluetoothManager._callbacks self.
Proof.
  intros Hcaught o.
  destruct (decide ((cb, matcher) ∈ BluetoothManager._callbacks self))
    as [Hin|Hnot].
  - destruct (list_remove_is_Some _ _ Hin) as [callbacks Hrm].
    pose proof (list_remove_app _ _ _ [(cb, matcher)] Hrm) as Hrm'.
    destruct (register_then_unregister_run cb matcher self _ Hcaught Hrm')
      as [Hresult Hafter].
    subst o. rewrite Hresult, Hafter. simpl. split_and!.
    + done.
    + done.
    + intros callbacks' Hrm''. congruence.
    + rewrite (list_remove_Permutation _ _ _ Hrm).
      symmetry. apply Permutation_cons_append.
  - pose proof (list_remove_fresh _ _ Hnot) as Hrm'.
    destruct (register_then_unregister_run cb matcher self _ Hcaught Hrm')
      as [Hresult Hafter].
    subst o. rewrite Hresult, Hafter, with_callbacks_same. split_and!.
    + done.
    + done.
    + intros callbacks Hrm. by rewrite list_remove_None in Hrm.
    + done.
Qed.

End Registry.

(** The replay at a manager whose scanner has seen [sample_address]: one
    call of the subscriber; and at one that has no scanner: none. *)
Lemma replay_on_register_witness :
  let matcher := address_matcher sample_address in
  called (trace (@async_register_callback quiet 3%nat (Some matcher)
                   seen_sample))
  = [(3%nat, info_of sample_device full_advertisement)]
  ∧ trace (@async_register_callback quiet 3%nat (Some matcher)
             (BluetoothManager.__init__ [])) = []
  ∧ result (@async_register_callback faulty 1%nat (Some matcher) seen_sample)
    = Returns (1%nat, Some matcher).
Proof.
  intros matcher. split_and!.
  - destruct (@replay_on_register quiet seen_sample 3%nat (Some matcher))
      as (Hreplay & _).
    apply (Hreplay matcher sample_address); [reflexivity..|discriminate|].
    vm_compute. reflexivity.
  - destruct (@replay_on_register quiet (BluetoothManager.__init__ []) 3%nat
                (Some matcher)) as (_ & Hnone & _).
    apply Hnone. right. exists matcher. split; [reflexivity|].
    right. right. exists sample_address. split; reflexivity.
  - destruct (@replay_on_register faulty seen_sample 1%nat (Some matcher))
      as (_ & _ & Hreturns & _).
    apply Hreturns. intros service_info. reflexivity.
Defined.

(** C3, as the specification words it, fails.  A matcher that carries the
    empty string as its address carries an address, and the history can hold
    an entry under it; the registration tests the address for its truth
    value and replays nothing. *)
Lemma replays_nothing_for_the_empty_address :
  ¬ @replays_history_as_specified quiet seen_nameless 3%nat
      (address_matcher "").
Proof.
  intros Hclaim.
  specialize (Hclaim "" nameless_device bare_advertisement eq_refl).
  assert (history_of seen_nameless !! ""
          = Some (nameless_device, bare_advertisement)) as Hhist
    by (vm_compute; reflexivity).
  specialize (Hclaim Hhist). vm_compute in Hclaim. discriminate Hclaim.
Qed.

(** The round trip at a registry that does not hold the pair: the manager is
    what it was. *)
Lemma register_then_unregister_restores_witness :
  result (@register_then_unregister quiet 3%nat None two_plain_subscribers)
  = Returns tt
  ∧ after (@register_then_unregister quiet 3%nat None two_plain_subscribers)
    = two_plain_subscribers.
Proof.
  destruct (@register_then_unregister_restores quiet two_plain_subscribers
              3%nat None) as (Hresult & Hfresh & _).
  { intros service_info. exact I. }
  split; [exact Hresult|].
  apply Hfresh. vm_compute. intros Hin.
  inversion Hin as [|? ? ? Hin']; inversion Hin' as [|? ? ? Hin''];
    inversion Hin''.
Defined.

(** C6, as the specification words it, fails.  The handle removes the first
    pair equal to its own: registering [(1, None)] again and calling the new
    handle leaves [2] ahead of [1], and the next advertisement reaches the
    subscribers in the other order. *)
Lemma round_trip_reorders_equal_subscriptions :
  ¬ @round_trip_keeps_dispatch quiet two_plain_subscribers 1%nat None.
Proof.
  intros Hclaim.
  specialize (Hclaim sample_device bare_advertisement).
  apply (f_equal (λ o, (called (trace o)).*1)) in Hclaim.
  vm_compute in Hclaim. discriminate Hclaim.
Qed.

(** ** The availability tracker *)

Section Tracker.
Context `{Environment}.

Lemma notify_unavailable_run address cb self :
  returns_or_raises_Exception (call_unavailable cb address) →
  notify_unavailable address cb self
  = Outcome self (notify_events address cb) (Returns tt).
Proof.
  intros Hcaught. unfold notify_unavailable, callback_unavailable,
    notify_events. run.
  destruct (call_unavailable cb address) as [ex|]; simpl in *; [|done].
  by rewrite Hcaught.
Qed.

Lemma notify_all_run address callbacks self :
  Forall (λ cb, returns_or_raises_Exception (call_unavailable cb address))
    callbacks →
  for_each callbacks (notify_unavailable address) self
  = Outcome self (callbacks ≫= notify_events address) (Returns tt).
Proof.
  induction 1 as [|cb l Hcb _ IH]; [done|].
  simpl. unfold mbind at 1, M_bind, bind.
  rewrite (notify_unavailable_run _ _ _ Hcb). cbn [result after trace].
  by rewrite IH.
Qed.

Lemma del_history_run address self scanner :
  BluetoothManager.scanner self = Some scanner →
  is_Some (HaBleakScanner.history scanner !! address) →
  del_history address self
  = Outcome
      (with_history (delete address (HaBleakScanner.history scanner)) self)
      [] (Returns tt).
Proof.
  intros Hsc [entry Hentry].
  unfold del_history, update_scanner, the_scanner, with_history. run.
  rewrite Hsc. simpl. rewrite Hentry. simpl. by rewrite Hsc.
Qed.

Lemma forget_run address self scanner :
  BluetoothManager.scanner self = Some scanner →
  is_Some (HaBleakScanner.history scanner !! address) →
  unavailable_caught self →
  forget address self
  = Outcome
      (with_history (delete address (HaBleakScanner.history scanner)) self)
      (forget_events (BluetoothManager._unavailable_callbacks self) address)
      (Returns tt).
Proof.
  intros Hsc Hentry Hcaught. unfold forget.
  unfold mbind at 1, M_bind, bind.
  rewrite (del_history_run _ _ _ Hsc Hentry). cbn [result after trace].
  unfold mbind, M_bind, bind, get. cbn [result after trace].
  set (self' := with_history _ self).
  assert (BluetoothManager._unavailable_callbacks self'
          = BluetoothManager._unavailable_callbacks self) as Hsame.
  { subst self'. unfold with_history. by rewrite Hsc. }
  rewrite Hsame. unfold forget_events.
  destruct (BluetoothManager._unavailable_callbacks self !! address)
    as [[|cb callbacks]|] eqn:Hcbs; simpl; [done| |done].
  pose proof (Hcaught _ _ Hcbs) as Hall. simpl in Hall.
  pose proof (notify_all_run address (cb :: callbacks) self' Hall) as Hrun.
  simpl in Hrun. rewrite Hrun. done.
Qed.

Lemma with_history_scanner history self scanner :
  BluetoothManager.scanner self = Some scanner →
  BluetoothManager.scanner (with_history history self)
  = Some (HaBleakScanner.with_history history scanner).
Proof. intros Hsc. unfold with_history. by rewrite Hsc. Qed.

Lemma with_history_twice h h' self :
  with_history h' (with_history h self) = with_history h' self.
Proof.
  unfold with_history.
  by destruct (BluetoothManager.scanner self) as [scanner|] eqn:Hsc; simpl;
    rewrite ?Hsc.
Qed.

(** The loop over the disappeared addresses. *)
Lemma forget_all_run addresses self scanner :
  BluetoothManager.scanner self = Some scanner →
  NoDup addresses →
  (∀ address,
     address ∈ addresses →
     is_Some (HaBleakScanner.history scanner !! address)) →
  unavailable_caught self →
  for_each addresses forget self
  = Outcome
      (match addresses with
       | [] => self
       | _ =>
           with_history
             (foldr delete (HaBleakScanner.history scanner) (reverse addresses))
             self
       end)
      (addresses
         ≫= forget_events (BluetoothManager._unavailable_callbacks self))
      (Returns tt).
Proof.
  intros Hsc Hnodup. revert self scanner Hsc.
  induction Hnodup as [|address l Hnotin Hnodup IH];
    intros self scanner Hsc Hhist Hcaught; [done|].
  simpl. unfold mbind at 1, M_bind, bind.
  rewrite (forget_run address self scanner Hsc); [|apply Hhist; left|done].
  cbn [result after trace].
  set (h := delete address (HaBleakScanner.history scanner)).
  rewrite (IH (with_history h self) (HaBleakScanner.with_history h scanner)).
  - cbn [result after trace]. f_equal.
    + rewrite reverse_cons, foldr_app. simpl. fold h.
      destruct l; [done|]. by rewrite with_history_twice.
    + f_equal. unfold with_history. by rewrite Hsc.
  - by apply with_history_scanner.
  - intros a Ha. simpl. subst h.
    rewrite lookup_delete_ne; [apply Hhist; by right|].
    intros ->. done.
  - unfold unavailable_caught, with_history in *. by rewrite Hsc.
Qed.

Lemma lookup_foldr_delete {V} (h : gmap string V) (l : list string)
    (address : string) :
  foldr delete h l !! address
  = if decide (address ∈ l) then None else h !! address.
Proof.
  induction l as [|a l IH]; simpl; [done|].
  destruct (decide (a = address)) as [->|Hne].
  - rewrite lookup_delete_eq. rewrite decide_True; [done|left].
  - rewrite lookup_delete_ne by done. rewrite IH.
    destruct (decide (address ∈ l)) as [Hin|Hnot].
    + rewrite decide_True; [done|by right].
    + rewrite decide_False; [done|].
      intros [?|?]%elem_of_cons; [by subst|done].
Qed.

Lemma called_unavailable_notify address address' callbacks :
  called_unavailable address (callbacks ≫= notify_events address')
  = if decide (address' = address) then callbacks else [].
Proof.
  induction callbacks as [|cb l IH].
  { by case_decide. }
  change ((cb :: l) ≫= notify_events address')
    with (notify_events address' cb ++ (l ≫= notify_events address')).
  unfold called_unavailable in *. rewrite omap_app, IH.
  unfold notify_events. simpl.
  destruct (decide (address' = address)); simpl;
    by destruct (call_unavailable cb address').
Qed.

Lemma called_unavailable_forget address addresses callbacks :
  NoDup addresses →
  called_unavailable address (addresses ≫= forget_events callbacks)
  = if decide (address ∈ addresses)
    then default [] (callbacks !! address)
    else [].
Proof.
  induction 1 as [|a l Hnotin Hnodup IH].
  { rewrite decide_False; [done|]. by intros ?%elem_of_nil. }
  change ((a :: l) ≫= forget_events callbacks)
    with (forget_events callbacks a ++ (l ≫= forget_events callbacks)).
  unfold called_unavailable in *. rewrite omap_app, IH.
  fold (called_unavailable address (forget_events callbacks a)).
  unfold forget_events. rewrite called_unavailable_notify.
  destruct (decide (a = address)) as [->|Hne].
  - rewrite decide_False by done. rewrite decide_True by left.
    by rewrite app_nil_r.
  - simpl. destruct (decide (address ∈ l)) as [Hin|Hnot].
    + rewrite decide_True; [done|by right].
    + rewrite decide_False; [done|].
      intros [?|?]%elem_of_cons; [by subst|done].
Qed.

Lemma iter_set_NoDup (X : gset string) : NoDup (iter_set X).
Proof. rewrite iter_set_elements. apply NoDup_elements. Qed.

Lemma elem_of_iter_set (X : gset string) (x : string) :
  x ∈ iter_set X ↔ x ∈ X.
Proof. rewrite iter_set_elements. apply elem_of_elements. Qed.

Lemma history_of_forgotten self scanner (addresses : list string) :
  BluetoothManager.scanner self = Some scanner →
  history_of
    (match addresses with
     | [] => self
     | _ =>
         with_history
           (foldr delete (HaBleakScanner.history scanner) (reverse addresses))
           self
     end)
  = foldr delete (HaBleakScanner.history scanner) (reverse addresses).
Proof.
  intros Hsc. destruct addresses as [|a l].
  - unfold history_of. by rewrite Hsc.
  - unfold history_of. by rewrite (with_history_scanner _ _ _ Hsc).
Qed.

(** [_async_check_unavailable], unrolled, when the callbacks' exceptions are
    caught. *)
Lemma check_unavailable_run self scanner :
  BluetoothManager.scanner self = Some scanner →
  unavailable_caught self →
  let addresses := iter_set (disappeared_of scanner) in
  _async_check_unavailable self
  = Outcome
      (match addresses with
       | [] => self
       | _ =>
           with_history
             (foldr delete (HaBleakScanner.history scanner) (reverse addresses))
             self
       end)
      (addresses
         ≫= forget_events (BluetoothManager._unavailable_callbacks self))
      (Returns tt).
Proof.
  intros Hsc Hcaught addresses.
  unfold _async_check_unavailable, the_scanner. run.
  rewrite Hsc. rewrite bool_decide_eq_true_2 by done. simpl.
  rewrite !Hsc. simpl.
  fold (disappeared_of scanner). fold addresses.
  rewrite (forget_all_run addresses self scanner Hsc).
  - done.
  - apply iter_set_NoDup.
  - intros address Hin. apply elem_of_iter_set in Hin.
    unfold disappeared_of in Hin. apply elem_of_difference in Hin as [Hin _].
    by apply elem_of_dom in Hin.
  - done.
Qed.

(** C4.  At a tick of the tracker, with unavailability callbacks that return
    or raise instances of [Exception]: the tick returns; every address of
    the history that is not among the devices the driver reports is removed
    from the history and the other entries stay; for each such address the
    callbacks invoked with it are those registered for it, each once, in the
    order of their registration, whichever of them raised; no callback is
    invoked with another address; a callback that raised left a line in the
    log. *)
Theorem unavailable_tick (self : BluetoothManager) (scanner : HaBleakScanner) :
  BluetoothManager.scanner self = Some scanner →
  unavailable_caught self →
  let o := _async_check_unavailable self in
  let disappeared := disappeared_of scanner in
  let registered address :=
    default [] (BluetoothManager._unavailable_callbacks self !! address) in
  result o = Returns tt
  ∧ (∀ address,
       history_of (after o) !! address
       = if decide (address ∈ disappeared) then None
         else HaBleakScanner.history scanner !! address)
  ∧ (∀ address,
       address ∈ disappeared →
       called_unavailable address (trace o) = registered address)
  ∧ (∀ address,
       address ∉ disappeared → called_unavailable address (trace o) = [])
  ∧ (∀ address cb ex,
       address ∈ disappeared →
       cb ∈ registered address →
       call_unavailable cb address = Some ex →
       LoggedException "Error in unavailable callback" ∈ trace o)
  ∧ BluetoothManager._unavailable_callbacks (after o)
    = BluetoothManager._unavailable_callbacks self.
Proof.
  intros Hsc Hcaught o disappeared registered. subst o.
  rewrite (check_unavailable_run self scanner Hsc Hcaught).
  cbn [result after trace]. split_and!.
  - done.
  - intros address.
    rewrite (history_of_forgotten _ _ _ Hsc), lookup_foldr_delete.
    destruct (decide (address ∈ disappeared)) as [Hin|Hnot].
    + rewrite decide_True; [done|].
      apply elem_of_reverse. by apply elem_of_iter_set.
    + rewrite decide_False; [done|].
      intros Hin%elem_of_reverse%elem_of_iter_set. done.
  - intros address Hin.
    rewrite called_unavailable_forget by apply iter_set_NoDup.
    rewrite decide_True; [done|]. by apply elem_of_iter_set.
  - intros address Hnot.
    rewrite called_unavailable_forget by apply iter_set_NoDup.
    rewrite decide_False; [done|]. by intros ?%elem_of_iter_set.
  - intros address cb ex Hin Hcb Hcall.
    apply list_elem_of_bind. exists address.
    split; [|by apply elem_of_iter_set].
    unfold forget_events. fold (registered address).
    apply list_elem_of_bind. exists cb. split; [|done].
    unfold notify_events. rewrite Hcall. right. left.
  - destruct (iter_set (disappeared_of scanner)); [done|].
    unfold with_history. by rewrite Hsc.
Qed.

End Tracker.

(** The tick at a manager that has seen two devices, of which the driver
    still reports the second: the two callbacks of [sample_address] are
    invoked, the first of them raising, and the callback of the other address
    is not. *)
Lemma unavailable_tick_witness :
  let o := @_async_check_unavailable faulty tracking in
  result o = Returns tt
  ∧ called_unavailable sample_address (trace o) = [1%nat; 2%nat]
  ∧ called_unavailable (BLEDevice.address other_device) (trace o) = []
  ∧ history_of (after o) !! sample_address = None
  ∧ LoggedException "Error in unavailable callback" ∈ trace o.
Proof.
  intros o.
  destruct (@unavailable_tick faulty tracking
              (HaBleakScanner.mk
                 {[ sample_address := (sample_device, full_advertisement);
                    BLEDevice.address other_device
                      := (other_device, bare_advertisement) ]}
                 [other_device] (Some "active") true
                 [device_detected_of_manager] true))
    as (Hresult & Hhistory & Hcalled & Hnot & Hlogged & _).
  { reflexivity. }
  { unfold unavailable_caught. by_compute. }
  assert (sample_address
            ∈ disappeared_of
                (HaBleakScanner.mk
                   {[ sample_address := (sample_device, full_advertisement);
                      BLEDevice.address other_device
                        := (other_device, bare_advertisement) ]}
                   [other_device] (Some "active") true
                   [device_detected_of_manager] true)) as Hgone.
  { unfold disappeared_of. by_compute. }
  subst o. split_and!.
  - exact Hresult.
  - rewrite (Hcalled _ Hgone). reflexivity.
  - apply Hnot. unfold disappeared_of. by_compute.
  - rewrite Hhistory. by rewrite decide_True.
  - apply (Hlogged sample_address 1%nat (PyExc OtherException "boom") Hgone);
      [left | reflexivity].
Defined.

(** The callback [1], the first of the two of [sample_address], is
    interrupted: what it raises leaves the tick, and the callback [2] is not
    invoked. *)
Lemma an_interrupted_callback_ends_the_tick :
  ¬ @tick_isolates_any_callback_failure tick_interrupted tracking.
Proof.
  intros (Hresult & _). vm_compute in Hresult. discriminate Hresult.
Qed.

Section Unavailable.
Context `{Environment}.

Lemma track_run cb address self :
  async_track_unavailable cb address self
  = Outcome
      (BluetoothManager.with_unavailable_callbacks
         (<[address :=
              default []
                (BluetoothManager._unavailable_callbacks self !! address)
              ++ [cb]]>
            (BluetoothManager._unavailable_callbacks self))
         self)
      [] (Returns (cb, address)).
Proof. unfold async_track_unavailable. by run. Qed.

Lemma remove_unavailable_run cb address self :
  async_track_unavailable__async_remove_callback (cb, address) self
  = match BluetoothManager._unavailable_callbacks self !! address with
    | None => Outcome self [] (Raises (PyExc KeyError address))
    | Some callbacks =>
        match list_remove cb callbacks with
        | None =>
            Outcome self []
              (Raises (PyExc ValueError "list.remove(x): x not in list"))
        | Some callbacks' =>
            Outcome
              (BluetoothManager.with_unavailable_callbacks
                 (if decide (callbacks' = [])
                  then delete address
                         (BluetoothManager._unavailable_callbacks self)
                  else <[address := callbacks']>
                         (BluetoothManager._unavailable_callbacks self))
                 self)
              [] (Returns tt)
        end
    end.
Proof.
  unfold async_track_unavailable__async_remove_callback. run.
  destruct (BluetoothManager._unavailable_callbacks self !! address)
    as [callbacks|]; simpl; [|done].
  destruct (list_remove cb callbacks) as [callbacks'|]; simpl; [|done].
  destruct (decide (callbacks' = [])) as [->|Hne].
  - rewrite bool_decide_eq_true_2 by done. simpl.
    by rewrite delete_insert_eq.
  - by rewrite bool_decide_eq_false_2 by done.
Qed.

Lemma track_keeps_no_empty_list cb address self :
  no_empty_list self →
  no_empty_list (after (async_track_unavailable cb address self)).
Proof.
  intros Hinv a l. rewrite track_run. simpl.
  destruct (decide (address = a)) as [->|Hne].
  - rewrite lookup_insert_eq. intros [= <-]. by intros ?%app_nil_r_inv.
  - rewrite lookup_insert_ne by done. apply Hinv.
Qed.

Lemma remove_keeps_no_empty_list handle self :
  no_empty_list self →
  no_empty_list
    (after (async_track_unavailable__async_remove_callback handle self)).
Proof.
  intros Hinv a l. destruct handle as [cb address].
  rewrite remove_unavailable_run.
  destruct (BluetoothManager._unavailable_callbacks self !! address)
    as [callbacks|] eqn:Hcbs; simpl; [|apply Hinv].
  destruct (list_remove cb callbacks) as [callbacks'|]; simpl; [|apply Hinv].
  destruct (decide (callbacks' = [])) as [->|Hne].
  - destruct (decide (address = a)) as [->|Hne'].
    + by rewrite lookup_delete_eq.
    + rewrite lookup_delete_ne by done. apply Hinv.
  - destruct (decide (address = a)) as [->|Hne'].
    + rewrite lookup_insert_eq. by intros [= <-].
    + rewrite lookup_insert_ne by done. apply Hinv.
Qed.

(** C10.  Starting from a manager whose unavailability map has no empty
    list (the manager that [__init__] makes has an empty map), after any
    sequence of registrations and calls of the handles they returned, every
    address of the map has a callback: a registration appends the callback
    to the list of its address, and a handle removes its callback from that
    list and deletes the address when the list has become empty. *)
Theorem unavailable_lists_are_never_empty (self : BluetoothManager) :
  no_empty_list self →
  let registered := BluetoothManager._unavailable_callbacks self in
  (∀ ops handles, no_empty_list (run_unavailable_ops ops handles self))
  ∧ (∀ cb address,
       BluetoothManager._unavailable_callbacks
         (after (async_track_unavailable cb address self))
       = <[address := default [] (registered !! address) ++ [cb]]> registered)
  ∧ (∀ cb address callbacks callbacks',
       registered !! address = Some callbacks →
       list_remove cb callbacks = Some callbacks' →
       BluetoothManager._unavailable_callbacks
         (after (async_track_unavailable__async_remove_callback (cb, address)
                   self))
       = if decide (callbacks' = []) then delete address registered
         else <[address := callbacks']> registered).
Proof.
  intros Hinv registered. split_and!.
  - intros ops. revert self Hinv registered.
    induction ops as [|[cb address|n] ops IH];
      intros self Hinv registered handles; cbn [run_unavailable_ops].
    + done.
    + pose proof (track_keeps_no_empty_list cb address self Hinv) as Hinv'.
      rewrite track_run in *. cbn [result after] in *. by apply IH.
    + destruct (handles !! n) as [handle|]; [|by apply IH].
      apply IH. by apply remove_keeps_no_empty_list.
  - intros cb address. by rewrite track_run.
  - intros cb address callbacks callbacks' Hcbs Hrm.
    rewrite remove_unavailable_run. fold registered. by rewrite Hcbs, Hrm.
Qed.

End Unavailable.

(** The invariant at the manager that [__init__] makes: two registrations
    for one address, one for another, and the three handles called. *)
Lemma unavailable_lists_are_never_empty_witness :
  no_empty_list
    (@run_unavailable_ops quiet
       [Track 1%nat sample_address; Track 2%nat sample_address;
        Track 3%nat "11:22:33:44:55:66"; Unregister 0%nat; Unregister 2%nat;
        Unregister 1%nat]
       [] (BluetoothManager.__init__ [])).
Proof.
  apply (@unavailable_lists_are_never_empty quiet
           (BluetoothManager.__init__ [])).
  intros address callbacks Hlookup. simpl in Hlookup.
  rewrite lookup_empty in Hlookup. discriminate Hlookup.
Defined.

(** ** Starting the scanner *)

Section Start.
Context `{Environment}.

Lemma bind_run {A B} (c : M A) (k : A → M B) (self : BluetoothManager)
    (o : outcome A) :
  c self = o →
  bind c k self
  = match result o with
    | Returns a =>
        Outcome (after (k a (after o))) (trace o ++ trace (k a (after o)))
          (result (k a (after o)))
    | Raises ex => Outcome (after o) (trace o) (Raises ex)
    end.
Proof. by intros <-. Qed.

Lemma try_except_run {A} (body : M A) (classes : pyexc → bool)
    (handler : pyexc → M A) (self : BluetoothManager) (o : outcome A) :
  body self = o →
  try_except body classes handler self
  = match result o with
    | Returns a => o
    | Raises ex =>
        if classes ex then
          Outcome (after (handler ex (after o)))
            (trace o ++ trace (handler ex (after o)))
            (result (handler ex (after o)))
        else o
    end.
Proof. by intros <-. Qed.

Lemma update_scanner_run f self scanner :
  BluetoothManager.scanner self = Some scanner →
  update_scanner f self
  = Outcome (BluetoothManager.with_scanner (Some (f scanner)) self) []
      (Returns tt).
Proof. intros Hsc. unfold update_scanner, the_scanner. run. by rewrite Hsc. Qed.

Lemma assert_scanner_run self scanner :
  BluetoothManager.scanner self = Some scanner →
  assert_ (bool_decide (is_Some (BluetoothManager.scanner self))) self
  = Outcome self [] (Returns tt).
Proof. intros ->. by rewrite bool_decide_eq_true_2. Qed.

Lemma get_run self : get self = Outcome self [] (Returns self).
Proof. done. Qed.

Lemma emit_run e self : emit e self = Outcome self [e] (Returns tt).
Proof. done. Qed.

Lemma modify_run f self : modify f self = Outcome (f self) [] (Returns tt).
Proof. done. Qed.

Lemma start_setup_failure scanning_mode self scanner ex :
  BluetoothManager.scanner self = Some scanner →
  driver_async_setup (SCANNING_MODE_TO_BLEAK scanning_mode) = Some ex →
  isinstance_FileNotFoundError_BleakError ex = true →
  async_start scanning_mode self
  = Outcome self []
      (Raises (PyExc RuntimeError
                 ("Failed to initialize Bluetooth: " +:+ exc_str ex))).
Proof.
  intros Hsc Hsetup Hex. unfold async_start, mbind, M_bind.
  rewrite (bind_run _ _ _ _ (get_run self));
    cbn [result after trace app].
  rewrite (bind_run _ _ _ _ (assert_scanner_run self scanner Hsc));
    cbn [result after trace app].
  assert (scanner_async_setup (SCANNING_MODE_TO_BLEAK scanning_mode) self
          = Outcome self [] (Raises ex)) as Hrun.
  { unfold scanner_async_setup. by rewrite Hsetup. }
  pose proof (try_except_run _ isinstance_FileNotFoundError_BleakError
                (λ ex, raise (PyExc RuntimeError
                                ("Failed to initialize Bluetooth: "
                                 +:+ exc_str ex)))
                self _ Hrun) as Htry.
  cbn [result after trace app] in Htry. rewrite Hex in Htry.
  unfold raise in Htry at 1 2 3. cbn [result after trace app] in Htry.
  rewrite (bind_run _ _ _ _ Htry);
    cbn [result after trace app]. done.
Qed.

Lemma start_listen_failure scanning_mode self scanner ex callbacks :
  BluetoothManager.scanner self = Some scanner →
  driver_async_setup (SCANNING_MODE_TO_BLEAK scanning_mode) = None →
  driver_start = Some ex →
  isinstance_FileNotFoundError_BleakError ex = true →
  list_remove device_detected_of_manager
    (HaBleakScanner._callbacks scanner ++ [device_detected_of_manager])
  = Some callbacks →
  async_start scanning_mode self
  = Outcome
      (BluetoothManager.with_cancel_device_detected
         (Some device_detected_of_manager)
         (BluetoothManager.with_scanner
            (Some (HaBleakScanner.with_callbacks callbacks
                     (HaBleakScanner.with_detection_callback
                        (HaBleakScanner.with_scanning_mode
                           (SCANNING_MODE_TO_BLEAK scanning_mode) scanner))))
            self))
      [InstalledMultipleBleakCatcher; LoggedStarting]
      (Raises (PyExc ConfigEntryNotReady
                 ("Failed to start Bluetooth: " +:+ exc_str ex))).
Proof.
  intros Hsc Hsetup Hstart Hex Hrm. unfold async_start, mbind, M_bind.
  rewrite (bind_run _ _ _ _ (get_run self));
    cbn [result after trace app].
  rewrite (bind_run _ _ _ _ (assert_scanner_run self scanner Hsc));
    cbn [result after trace app].
  (* scanner.async_setup *)
  assert (scanner_async_setup (SCANNING_MODE_TO_BLEAK scanning_mode) self
          = Outcome
              (BluetoothManager.with_scanner
                 (Some (HaBleakScanner.with_scanning_mode
                          (SCANNING_MODE_TO_BLEAK scanning_mode) scanner))
                 self)
              [] (Returns tt)) as Hrun.
  { unfold scanner_async_setup. rewrite Hsetup.
    by apply update_scanner_run. }
  pose proof (try_except_run _ isinstance_FileNotFoundError_BleakError
                (λ ex, raise (PyExc RuntimeError
                                ("Failed to initialize Bluetooth: "
                                 +:+ exc_str ex)))
                self _ Hrun) as Htry.
  cbn [result after trace app] in Htry. rewrite (bind_run _ _ _ _ Htry);
    cbn [result after trace app]. clear Hrun Htry.
  set (self1 := BluetoothManager.with_scanner _ self).
  rewrite (bind_run _ _ _ _ (emit_run InstalledMultipleBleakCatcher self1));
    cbn [result after trace app].
  rewrite (bind_run _ _ _ _ (emit_run LoggedStarting self1));
    cbn [result after trace app].
  (* scanner.register_detection_callback *)
  unfold scanner_register_detection_callback.
  rewrite (bind_run _ _ _ _
             (update_scanner_run HaBleakScanner.with_detection_callback self1
                _ eq_refl));
    cbn [result after trace app].
  set (self2 := BluetoothManager.with_scanner _ self1).
  (* scanner.async_register_callback *)
  unfold scanner_async_register_callback, mbind, M_bind.
  rewrite (bind_run _ _ self2 _
             (bind_run _ _ self2 _
                (update_scanner_run
                   (λ sc,
                      HaBleakScanner.with_callbacks
                        (HaBleakScanner._callbacks sc
                         ++ [device_detected_of_manager]) sc)
                   self2 _ eq_refl))).
  cbn [result after trace app ret].
  set (self3 := BluetoothManager.with_scanner _ self2).
  rewrite (bind_run _ _ _ _
             (modify_run
                (BluetoothManager.with_cancel_device_detected
                   (Some device_detected_of_manager)) self3));
    cbn [result after trace app].
  set (self4 := BluetoothManager.with_cancel_device_detected _ self3).
  (* scanner.start *)
  assert (scanner_start self4 = Outcome self4 [] (Raises ex)) as Hrun.
  { unfold scanner_start. by rewrite Hstart. }
  match goal with
  | |- context [bind (try_except _ _ ?handler) _ _] =>
      pose proof (try_except_run _ isinstance_FileNotFoundError_BleakError
                    handler self4 _ Hrun) as Htry
  end.
  cbn [result after trace app] in Htry. rewrite Hex in Htry.
  (* the handler *)
  assert (scanner_remove_callback device_detected_of_manager self4
          = Outcome
              (BluetoothManager.with_scanner
                 (Some (HaBleakScanner.with_callbacks callbacks
                          (HaBleakScanner.with_callbacks
                             (HaBleakScanner._callbacks scanner
                              ++ [device_detected_of_manager])
                             (HaBleakScanner.with_detection_callback
                                (HaBleakScanner.with_scanning_mode
                                   (SCANNING_MODE_TO_BLEAK scanning_mode)
                                   scanner)))))
                 self4)
              [] (Returns tt)) as Hremove.
  { unfold scanner_remove_callback, mbind, M_bind.
    assert (the_scanner self4
            = Outcome self4 []
                (Returns
                   (HaBleakScanner.with_callbacks
                      (HaBleakScanner._callbacks scanner
                       ++ [device_detected_of_manager])
                      (HaBleakScanner.with_detection_callback
                         (HaBleakScanner.with_scanning_mode
                            (SCANNING_MODE_TO_BLEAK scanning_mode)
                            scanner))))) as Hthe.
    { reflexivity. }
    rewrite (bind_run _ _ _ _ Hthe);
    cbn [result after trace app]. cbn [HaBleakScanner._callbacks HaBleakScanner.with_callbacks].
    rewrite Hrm.
    rewrite (update_scanner_run _ self4 _ eq_refl).
    subst self4 self3 self2 self1. done. }
  unfold mbind, M_bind in Htry.
  rewrite (bind_run _ _ self4 _ (get_run self4)) in Htry.
  cbn [result after trace app] in Htry.
  assert (BluetoothManager._cancel_device_detected self4
          = Some device_detected_of_manager) as Hcancel by done.
  rewrite Hcancel in Htry.
  rewrite (bind_run _ _ self4 _ Hremove) in Htry.
  cbn [result after trace app raise] in Htry.
  rewrite (bind_run _ _ _ _ Htry);
    cbn [result after trace app].
  subst self4 self3 self2 self1. done.
Qed.

(** C9.  With a scanner in place, a [FileNotFoundError] or a [BleakError]
    of the driver has two outcomes.  Raised by the set-up of the scanner, it
    leaves [async_start] as a [RuntimeError], the manager untouched.  Raised
    by [start], it leaves [async_start] as a [ConfigEntryNotReady], the
    exception of a set-up to be tried again, and by then the listener that
    this call registered has been removed through its handle: the scanner
    has the listeners it had, and neither the tracker nor the stop listener
    has been set up. *)
Theorem start_failure_modes (self : BluetoothManager)
    (scanner : HaBleakScanner) (scanning_mode : BluetoothScanningMode)
    (ex : pyexc) :
  BluetoothManager.scanner self = Some scanner →
  isinstance_FileNotFoundError_BleakError ex = true →
  let o := async_start scanning_mode self in
  (driver_async_setup (SCANNING_MODE_TO_BLEAK scanning_mode) = Some ex →
   result o
   = Raises (PyExc RuntimeError
               ("Failed to initialize Bluetooth: " +:+ exc_str ex))
   ∧ after o = self
   ∧ trace o = [])
  ∧ (driver_async_setup (SCANNING_MODE_TO_BLEAK scanning_mode) = None →
     driver_start = Some ex →
     result o
     = Raises (PyExc ConfigEntryNotReady
                 ("Failed to start Bluetooth: " +:+ exc_str ex))
     ∧ (∃ scanner',
          BluetoothManager.scanner (after o) = Some scanner'
          ∧ list_remove device_detected_of_manager
              (HaBleakScanner._callbacks scanner
               ++ [device_detected_of_manager])
            = Some (HaBleakScanner._callbacks scanner')
          ∧ HaBleakScanner._callbacks scanner'
            ≡ₚ HaBleakScanner._callbacks scanner
          ∧ (device_detected_of_manager ∉ HaBleakScanner._callbacks scanner →
             HaBleakScanner._callbacks scanner'
             = HaBleakScanner._callbacks scanner)
          ∧ HaBleakScanner.started scanner' = HaBleakScanner.started scanner)
     ∧ (TrackedTimeInterval UNAVAILABLE_TRACK_SECONDS ∉ trace o)
     ∧ (ListenedOnceForStop ∉ trace o)
     ∧ BluetoothManager._cancel_unavailable_tracking (after o)
       = BluetoothManager._cancel_unavailable_tracking self).
Proof.
  intros Hsc Hex o. split.
  - intros Hsetup. subst o.
    by rewrite (start_setup_failure _ _ _ _ Hsc Hsetup Hex).
  - intros Hsetup Hstart. subst o.
    destruct (list_remove_is_Some device_detected_of_manager
                (HaBleakScanner._callbacks scanner
                 ++ [device_detected_of_manager]))
      as [callbacks Hrm].
    { apply elem_of_app. right. left. }
    rewrite (start_listen_failure _ _ _ _ _ Hsc Hsetup Hstart Hex Hrm).
    cbn [result after trace]. split_and!.
    + done.
    + eexists. split; [reflexivity|]. simpl. split_and!.
      * done.
      * apply list_remove_Permutation in Hrm.
        apply (Permutation_cons_inv (a := device_detected_of_manager)).
        rewrite <- Hrm. symmetry. apply Permutation_cons_append.
      * intros Hnot. rewrite list_remove_fresh in Hrm by done.
        by injection Hrm as <-.
      * done.
    + intros Hin. repeat (apply elem_of_cons in Hin as [Hin|Hin]; [done|]).
      by apply elem_of_nil in Hin.
    + intros Hin. repeat (apply elem_of_cons in Hin as [Hin|Hin]; [done|]).
      by apply elem_of_nil in Hin.
    + done.
Qed.

End Start.

(** The two failures at a manager after [async_setup]: a driver that cannot
    be set up, and one that cannot be started. *)
Lemma start_failure_modes_witness :
  result (@async_start setup_fails ACTIVE set_up)
  = Raises (PyExc RuntimeError "Failed to initialize Bluetooth: no such file")
  ∧ result (@async_start start_fails ACTIVE set_up)
    = Raises (PyExc ConfigEntryNotReady
                "Failed to start Bluetooth: adapter busy")
  ∧ ∃ scanner',
      BluetoothManager.scanner (after (@async_start start_fails ACTIVE set_up))
      = Some scanner'
      ∧ HaBleakScanner._callbacks scanner' = [].
Proof.
  destruct (@start_failure_modes setup_fails set_up HaBleakScanner.new ACTIVE
              (PyExc FileNotFoundError "no such file") eq_refl eq_refl)
    as [Hsetup _].
  destruct (@start_failure_modes start_fails set_up HaBleakScanner.new ACTIVE
              (PyExc BleakError "adapter busy") eq_refl eq_refl)
    as [_ Hstart].
  destruct (Hsetup eq_refl) as (Hhard & _).
  destruct (Hstart eq_refl eq_refl)
    as (Hretry & (scanner' & Hsc & _ & _ & Hsame & _) & _).
  split_and!.
  - exact Hhard.
  - exact Hretry.
  - exists scanner'. split; [exact Hsc|].
    apply Hsame. intros Hin. inversion Hin.
Defined.

(** A driver that raises another exception when it is asked to start: the
    exception leaves [async_start] as it is, not as a
    [ConfigEntryNotReady]. *)
Lemma another_driver_failure_is_not_translated :
  ¬ @start_translates_any_driver_failure start_crashes set_up ACTIVE.
Proof.
  intros Hall.
  destruct (Hall (PyExc OtherException "permission denied")) as [_ Hstart].
  destruct (Hstart eq_refl eq_refl) as [Hresult _].
  vm_compute in Hresult. discriminate Hresult.
Qed.

(** ** The match predicate, field by field *)

Lemma startswith_prefix_of (data prefix : bytes) :
  startswith data prefix = true ↔ prefix `prefix_of` data.
Proof.
  revert data. induction prefix as [|p prefix IH]; intros data.
  - split; [intros _; apply prefix_nil | by destruct data].
  - destruct data as [|d data]; simpl.
    + split; [done|]. intros Hp. by apply prefix_nil_inv in Hp.
    + rewrite andb_true_iff, bool_decide_eq_true, IH. split.
      * intros [-> Hp]. by apply prefix_cons.
      * intros Hp. split.
        -- symmetry. by apply prefix_cons_inv_1 in Hp.
        -- by apply prefix_cons_inv_2 in Hp.
Qed.

Lemma elem_of_values {K V} `{Countable K} (d : gmap K V) (v : V) :
  v ∈ values d ↔ ∃ k, d !! k = Some v.
Proof.
  unfold values. rewrite list_elem_of_fmap. split.
  - intros [[k v'] [-> Hin]]. exists k. by apply elem_of_map_to_list.
  - intros [k Hk]. exists (k, v). split; [done|].
    by apply elem_of_map_to_list.
Qed.

Lemma some_payload_startswith (manufacturer_data : gmap Z bytes)
    (start : bytes) :
  existsb (λ payload, startswith payload start) (values manufacturer_data)
  = true
  ↔ ∃ id payload,
      manufacturer_data !! id = Some payload ∧ start `prefix_of` payload.
Proof.
  rewrite existsb_exists. split.
  - intros [payload [Hin Hstart]]. apply list_elem_of_In, elem_of_values in Hin.
    destruct Hin as [id Hid]. exists id, payload.
    by rewrite <- startswith_prefix_of.
  - intros (id & payload & Hid & Hstart). exists payload. split.
    + apply list_elem_of_In, elem_of_values. by exists id.
    + by apply startswith_prefix_of.
Qed.

Lemma from_option_true {A} (f : A → bool) (o : option A) :
  from_option f true o = true ↔ ∀ x, o = Some x → f x = true.
Proof.
  destruct o as [a|]; simpl; split.
  - by intros Hf x [= <-].
  - intros Hf. by apply Hf.
  - done.
  - done.
Qed.

(** The five tests of [_ble_device_matches], each passed by a matcher
    without the field. *)
Lemma ble_device_matches_tests matcher device advertisement_data :
  _ble_device_matches matcher device advertisement_data
  = from_option (String.eqb (BLEDevice.address device)) true
      (Matcher.address matcher)
    && from_option
         (fnmatch.fnmatch (name_or_address device advertisement_data)) true
         (Matcher.local_name matcher)
    && from_option
         (λ uuid,
            bool_decide
              (uuid ∈ AdvertisementData.service_uuids advertisement_data))
         true (Matcher.service_uuid matcher)
    && from_option
         (λ id,
            bool_decide
              (is_Some
                 (AdvertisementData.manufacturer_data advertisement_data
                    !! id)))
         true (Matcher.manufacturer_id matcher)
    && from_option
         (λ start,
            existsb (λ payload, startswith payload start)
              (values (AdvertisementData.manufacturer_data advertisement_data)))
         true (Matcher.manufacturer_data_start matcher).
Proof.
  unfold _ble_device_matches.
  destruct (Matcher.address matcher) as [address|]; simpl;
    [destruct (String.eqb (BLEDevice.address device) address); simpl;
       [|done]|];
  (destruct (Matcher.local_name matcher) as [pattern|]; simpl;
    [destruct (fnmatch.fnmatch _ pattern); simpl; [|done]|]);
  (destruct (Matcher.service_uuid matcher) as [uuid|]; simpl;
    [destruct (bool_decide (uuid ∈ _)); simpl; [|done]|]);
  (destruct (Matcher.manufacturer_id matcher) as [id|]; simpl;
    [destruct (bool_decide (is_Some _)); simpl; [|done]|]);
  (destruct (Matcher.manufacturer_data_start matcher) as [start|]; simpl;
    [by destruct (existsb _ _)|done]).
Qed.

(** X1.  [_ble_device_matches] is the conjunction of five tests, one for
    each field of the matcher, and a field that the matcher does not have
    passes its test: the address is that of the device; the pattern of
    [local_name] matches the effective name; the service UUID is among those
    advertised; the manufacturer identifier is a key of the manufacturer
    data; some payload of the manufacturer data, under whatever identifier,
    begins with the bytes of [manufacturer_data_start]. *)
Theorem ble_device_matches_field_by_field
    (matcher : BluetoothCallbackMatcher) (device : BLEDevice)
    (advertisement_data : AdvertisementData) :
  _ble_device_matches matcher device advertisement_data = true
  ↔ (∀ address,
       Matcher.address matcher = Some address →
       BLEDevice.address device = address)
    ∧ (∀ pattern,
         Matcher.local_name matcher = Some pattern →
         fnmatch.fnmatch (name_or_address device advertisement_data) pattern
         = true)
    ∧ (∀ uuid,
         Matcher.service_uuid matcher = Some uuid →
         uuid ∈ AdvertisementData.service_uuids advertisement_data)
    ∧ (∀ id,
         Matcher.manufacturer_id matcher = Some id →
         is_Some (AdvertisementData.manufacturer_data advertisement_data !! id))
    ∧ (∀ start,
         Matcher.manufacturer_data_start matcher = Some start →
         ∃ id payload,
           AdvertisementData.manufacturer_data advertisement_data !! id
           = Some payload
           ∧ start `prefix_of` payload).
Proof.
  rewrite ble_device_matches_tests, !andb_true_iff, !from_option_true.
  split.
  - intros ((((Ha & Hp) & Hu) & Hi) & Hs). split_and!.
    + intros address Hm. by apply String.eqb_eq, Ha.
    + done.
    + intros uuid Hm. specialize (Hu _ Hm). by apply bool_decide_eq_true in Hu.
    + intros id Hm. specialize (Hi _ Hm). by apply bool_decide_eq_true in Hi.
    + intros start Hm. by apply some_payload_startswith, Hs.
  - intros (Ha & Hp & Hu & Hi & Hs). split_and!.
    + intros address Hm. by apply String.eqb_eq, Ha.
    + done.
    + intros uuid Hm. apply bool_decide_eq_true. by apply Hu.
    + intros id Hm. apply bool_decide_eq_true. by apply Hi.
    + intros start Hm. by apply some_payload_startswith, Hs.
Qed.

(** X2.  The tests for [manufacturer_id] and [manufacturer_data_start] are
    made one without the other: a matcher with both fields matches as soon
    as the identifier is a key of the manufacturer data and some payload
    begins with the prefix, be it the payload of another identifier. *)
Theorem manufacturer_id_and_prefix_are_tested_apart (device : BLEDevice)
    (advertisement_data : AdvertisementData) (id id' : Z)
    (payload' start : bytes) :
  is_Some (AdvertisementData.manufacturer_data advertisement_data !! id) →
  AdvertisementData.manufacturer_data advertisement_data !! id'
  = Some payload' →
  start `prefix_of` payload' →
  _ble_device_matches (Matcher.mk None None None (Some id) (Some start))
    device advertisement_data = true.
Proof.
  intros Hid Hid' Hstart. rewrite ble_device_matches_tests. simpl.
  rewrite bool_decide_eq_true_2 by done. simpl.
  apply some_payload_startswith. by exists id', payload'.
Qed.

(** The identifier [89] is there with a payload that begins with [02]; the
    prefix [10] is that of the payload under [76]. *)
Lemma manufacturer_id_and_prefix_are_tested_apart_witness :
  AdvertisementData.manufacturer_data two_payloads !! 89 = Some [Byte.x02]
  ∧ startswith [Byte.x02] [Byte.x10] = false
  ∧ _ble_device_matches id_and_prefix_matcher sample_device two_payloads
    = true.
Proof.
  split_and!.
  - reflexivity.
  - reflexivity.
  - apply (manufacturer_id_and_prefix_are_tested_apart sample_device
             two_payloads 89 76 [Byte.x10; Byte.x05] [Byte.x10]).
    + by exists [Byte.x02].
    + reflexivity.
    + by exists [Byte.x05].
Defined.

(** X3.  An advertisement without manufacturer data matches no matcher that
    has the field [manufacturer_data_start], whatever the prefix, the empty
    one included: there is no payload for it to begin. *)
Theorem prefix_needs_a_payload (matcher : BluetoothCallbackMatcher)
    (device : BLEDevice) (advertisement_data : AdvertisementData) :
  is_Some (Matcher.manufacturer_data_start matcher) →
  AdvertisementData.manufacturer_data advertisement_data = ∅ →
  _ble_device_matches matcher device advertisement_data = false.
Proof.
  intros [start Hstart] Hempty. rewrite ble_device_matches_tests.
  rewrite Hstart, Hempty. simpl. by rewrite andb_false_r.
Qed.

Lemma prefix_needs_a_payload_witness :
  startswith [] [] = true
  ∧ _ble_device_matches any_payload_matcher sample_device bare_advertisement
    = false.
Proof.
  split; [reflexivity|].
  apply (prefix_needs_a_payload any_payload_matcher sample_device
           bare_advertisement).
  - by exists [].
  - reflexivity.
Defined.

(** X4.  A matcher that asks for no more than another matches whatever the
    other matches: taking a field out of a matcher never loses a device. *)
Theorem fewer_fields_match_more (wider matcher : BluetoothCallbackMatcher)
    (device : BLEDevice) (advertisement_data : AdvertisementData) :
  asks_no_more wider matcher →
  _ble_device_matches matcher device advertisement_data = true →
  _ble_device_matches wider device advertisement_data = true.
Proof.
  intros (Ha & Hp & Hu & Hi & Hs).
  rewrite !ble_device_matches_tests, !andb_true_iff, !from_option_true.
  intros ((((Ha' & Hp') & Hu') & Hi') & Hs'). split_and!.
  - intros x Hx. by apply Ha', Ha.
  - intros x Hx. by apply Hp', Hp.
  - intros x Hx. by apply Hu', Hu.
  - intros x Hx. by apply Hi', Hi.
  - intros x Hx. by apply Hs', Hs.
Qed.

Lemma fewer_fields_match_more_witness :
  _ble_device_matches (BluetoothMatcher.fields switchbot_matcher)
    sample_device bare_advertisement = true.
Proof.
  apply (fewer_fields_match_more (BluetoothMatcher.fields switchbot_matcher)
           narrow_matcher sample_device bare_advertisement).
  - by split_and!; intros x [= <-].
  - reflexivity.
Defined.

(** X5.  [from_advertisement] names the service info in this order of
    preference: the local name of the advertisement when it is not empty;
    else the name of the device when it is not empty; else the address of
    the device.  A name that is [None] counts as empty.  So the name of the
    service info is empty only if the address is.  This is the name against
    which [_ble_device_matches] matches a [local_name] pattern.  The other
    fields are those of the device and of the advertisement, and the source
    is the one given. *)
Theorem service_info_name (device : BLEDevice)
    (advertisement_data : AdvertisementData) (source : string) :
  let info :=
    BluetoothServiceInfoBleak.from_advertisement device advertisement_data
      source in
  let local_name := AdvertisementData.local_name advertisement_data in
  (∀ n, local_name = Some n → n ≠ "" → BluetoothServiceInfoBleak.name info = n)
  ∧ (local_name = None ∨ local_name = Some "" →
     ∀ n,
       BLEDevice.name device = Some n →
       n ≠ "" →
       BluetoothServiceInfoBleak.name info = n)
  ∧ (local_name = None ∨ local_name = Some "" →
     BLEDevice.name device = None ∨ BLEDevice.name device = Some "" →
     BluetoothServiceInfoBleak.name info = BLEDevice.address device)
  ∧ (BluetoothServiceInfoBleak.name info = "" → BLEDevice.address device = "")
  ∧ (∀ pattern,
       _ble_device_matches (Matcher.mk None (Some pattern) None None None)
         device advertisement_data
       = fnmatch.fnmatch (BluetoothServiceInfoBleak.name info) pattern)
  ∧ BluetoothServiceInfoBleak.address info = BLEDevice.address device
  ∧ BluetoothServiceInfoBleak.rssi info = BLEDevice.rssi device
  ∧ BluetoothServiceInfoBleak.manufacturer_data info
    = AdvertisementData.manufacturer_data advertisement_data
  ∧ BluetoothServiceInfoBleak.service_data info
    = AdvertisementData.service_data advertisement_data
  ∧ BluetoothServiceInfoBleak.service_uuids info
    = AdvertisementData.service_uuids advertisement_data
  ∧ BluetoothServiceInfoBleak.source info = source
  ∧ BluetoothServiceInfoBleak.device info = device
  ∧ BluetoothServiceInfoBleak.advertisement info = advertisement_data.
Proof.
  simpl. unfold name_or_address. split_and!; try done.
  - intros n -> Hn. by apply str_or_truthy.
  - intros Hlocal n -> Hn. rewrite (str_or_falsy _ _ Hlocal).
    by apply str_or_truthy.
  - intros Hlocal Hname.
    by rewrite (str_or_falsy _ _ Hlocal), (str_or_falsy _ _ Hname).
  - destruct (AdvertisementData.local_name advertisement_data) as [[|c s]|],
      (BLEDevice.name device) as [[|c' s']|]; simpl; done.
  - intros pattern. rewrite ble_device_matches_tests. simpl.
    by rewrite !andb_true_r.
Qed.

(** ** Advertisements one after the other *)

Section Repeats.
Context `{Environment}.

Lemma remembered_unmatched self device advertisement_data :
  matched_domains_of self device advertisement_data = None
  ∨ matched_domains_of self device advertisement_data = Some ∅ →
  remembered self device advertisement_data = self.
Proof.
  unfold remembered. intros [-> | ->]; [done|]. by rewrite decide_True.
Qed.

Lemma flows_device_detected device advertisement_data self :
  let matched_domains := matched_domains_of self device advertisement_data in
  let loop :=
    dispatch (BluetoothManager._callbacks self) device advertisement_data
      (remembered self device advertisement_data) in
  flows (trace (_device_detected device advertisement_data self))
  = match result loop with
    | Returns _ => flows (flow_events device advertisement_data matched_domains)
    | Raises _ => []
    end.
Proof.
  intros matched_domains loop. rewrite device_detected_run.
  cbn [trace]. fold matched_domains loop. unfold flows at 1.
  cbn [omap list_omap]. rewrite omap_app. fold (flows (trace loop)).
  subst loop. rewrite flows_dispatch. simpl.
  by destruct (result _).
Qed.

Lemma requested_flows_matched device advertisement_data self :
  flows (trace (_device_detected device advertisement_data self)) ≠ [] →
  ∃ domains,
    matched_domains_of self device advertisement_data = Some domains
    ∧ domains ≠ ∅.
Proof.
  rewrite flows_device_detected. destruct (result _); [|done].
  destruct (matched_domains_of self device advertisement_data)
    as [domains|] eqn:Hm.
  - intros Hf. exists domains. split; [done|]. intros ->. apply Hf.
    unfold flow_events. simpl. by rewrite iter_set_empty.
  - by rewrite flow_events_none.
Qed.

Lemma matched_domains_of_Some self device advertisement_data domains :
  matched_domains_of self device advertisement_data = Some domains →
  ¬ cached self (BLEDevice.address device, true)
  ∧ ¬ cached self (match_key device advertisement_data)
  ∧ domains
    = domains_matching (BluetoothManager._integration_matchers self) device
        advertisement_data.
Proof.
  unfold matched_domains_of. destruct (decide _) as [|Hn]; [done|].
  intros [= <-]. split_and!; [| |done]; intros Hc; apply Hn; auto.
Qed.

Lemma matched_domains_of_None self device advertisement_data :
  cached self (BLEDevice.address device, true)
  ∨ cached self (match_key device advertisement_data) →
  matched_domains_of self device advertisement_data = None.
Proof. intros Hc. unfold matched_domains_of. by rewrite decide_True. Qed.

Lemma after_device_detected device advertisement_data self :
  after (_device_detected device advertisement_data self)
  = remembered self device advertisement_data.
Proof. by rewrite device_detected_run. Qed.

Lemma cached_remembered self device advertisement_data domains :
  matched_domains_of self device advertisement_data = Some domains →
  domains ≠ ∅ →
  cached (remembered self device advertisement_data)
    (match_key device advertisement_data).
Proof.
  intros Hm Hne. unfold remembered. rewrite Hm, decide_False by done.
  unfold cached. simpl. apply LRU_set_keys.
Qed.

Lemma unrequested device advertisement_data self :
  matched_domains_of self device advertisement_data = None
  ∨ matched_domains_of self device advertisement_data = Some ∅ →
  flows (trace (_device_detected device advertisement_data self)) = []
  ∧ after (_device_detected device advertisement_data self) = self.
Proof.
  intros Hm. split.
  - destruct (flows _) as [|f fs] eqn:Hf; [done|].
    destruct (requested_flows_matched device advertisement_data self)
      as (domains & Hd & Hne); [by rewrite Hf|].
    destruct Hm as [Hm|Hm]; rewrite Hm in Hd; by simplify_eq.
  - rewrite after_device_detected. by apply remembered_unmatched.
Qed.

Lemma requesting_flows_cons o runs :
  (length (requesting_flows (o :: runs))
   ≤ S (length (requesting_flows runs)))%nat.
Proof.
  unfold requesting_flows. rewrite filter_cons.
  destruct (decide _); simpl; lia.
Qed.

Lemma requesting_flows_cons_unrequested o runs :
  flows (trace o) = [] →
  requesting_flows (o :: runs) = requesting_flows runs.
Proof.
  intros Hf. unfold requesting_flows. rewrite filter_cons.
  by rewrite decide_False by (by rewrite Hf; intros []).
Qed.

Lemma no_request_once_cached_with_data address later self :
  cached self (address, true) →
  Forall (λ da, BLEDevice.address da.1 = address) later →
  requesting_flows (detect_all later self) = [].
Proof.
  intros Hc Hl. induction Hl as [|[device advertisement_data] later Ha _ IH];
    [done|].
  simpl in *. subst address.
  destruct (unrequested device advertisement_data self) as [Hf Hs].
  { left. apply matched_domains_of_None. by left. }
  rewrite requesting_flows_cons_unrequested by done. by rewrite Hs.
Qed.

Lemma one_request_once_cached_without_data address later self :
  cached self (address, false) →
  Forall (λ da, BLEDevice.address da.1 = address) later →
  (length (requesting_flows (detect_all later self)) ≤ 1)%nat.
Proof.
  intros Hc Hl. revert self Hc.
  induction Hl as [|[device advertisement_data] later Ha Hl IH];
    intros self Hc; [simpl; lia|].
  simpl in *. subst address.
  destruct (matched_domains_of self device advertisement_data)
    as [domains|] eqn:Hm;
    [destruct (decide (domains = ∅)) as [->|Hne]|].
  - destruct (unrequested device advertisement_data self) as [Hf Hs];
      [by right|].
    rewrite requesting_flows_cons_unrequested by done. rewrite Hs. by apply IH.
  - etrans; [apply requesting_flows_cons|].
    rewrite (no_request_once_cached_with_data (BLEDevice.address device));
      [done| |done].
    rewrite after_device_detected.
    pose proof (cached_remembered _ _ _ _ Hm Hne) as Hk.
    apply matched_domains_of_Some in Hm as (_ & Hkey & _).
    unfold match_key in *.
    destruct (has_manufacturer_data advertisement_data); done.
  - destruct (unrequested device advertisement_data self) as [Hf Hs];
      [by left|].
    rewrite requesting_flows_cons_unrequested by done. rewrite Hs. by apply IH.
Qed.

(** X6.  A miss is not remembered.  An advertisement that no integration
    matcher matches, from an address that is not in the match cache, leaves
    the manager as it was, so that the same advertisement is evaluated
    again each time it comes, each time with no domain and no flow. *)
Theorem a_miss_is_evaluated_every_time (self : BluetoothManager)
    (device : BLEDevice) (advertisement_data : AdvertisementData) (n : nat) :
  Forall
    (λ matcher,
       _ble_device_matches (BluetoothMatcher.fields matcher) device
         advertisement_data = false)
    (BluetoothManager._integration_matchers self) →
  ¬ cached self (BLEDevice.address device, true) →
  ¬ cached self (match_key device advertisement_data) →
  Forall
    (λ o,
       logged_domains (trace o) = Some (Some ∅)
       ∧ flows (trace o) = []
       ∧ after o = self)
    (detect_all (replicate n (device, advertisement_data)) self).
Proof.
  intros Hmiss Hc Hk.
  assert (matched_domains_of self device advertisement_data = Some ∅) as Hm.
  { unfold matched_domains_of. rewrite decide_False by (intros [?|?]; done).
    f_equal. destruct (decide (domains_matching
                                 (BluetoothManager._integration_matchers self)
                                 device advertisement_data = ∅))
      as [|Hne]; [done|].
    apply domains_matching_nonempty in Hne as (matcher & Hin & Hmatch).
    rewrite Forall_forall in Hmiss. by rewrite (Hmiss _ Hin) in Hmatch. }
  destruct (unrequested device advertisement_data self) as [Hf Hs];
    [by right|].
  induction n as [|n IH]; simpl; [done|].
  constructor.
  - split_and!; [|done|done]. rewrite device_detected_run. simpl.
    by rewrite Hm.
  - by rewrite Hs.
Qed.

(** X7.  Whatever a device advertises and however often, the advertisements
    of one address request discovery flows at most twice: once for a match
    without manufacturer data, once for a match with manufacturer data. *)
Theorem an_address_is_discovered_at_most_twice (self : BluetoothManager)
    (address : string) (advertisements : list (BLEDevice * AdvertisementData)) :
  Forall (λ da, BLEDevice.address da.1 = address) advertisements →
  (length (requesting_flows (detect_all advertisements self)) ≤ 2)%nat.
Proof.
  intros Hl. revert self.
  induction Hl as [|[device advertisement_data] later Ha Hl IH];
    intros self; [simpl; lia|].
  simpl in *. subst address.
  destruct (matched_domains_of self device advertisement_data)
    as [domains|] eqn:Hm;
    [destruct (decide (domains = ∅)) as [->|Hne]|].
  - destruct (unrequested device advertisement_data self) as [Hf Hs];
      [by right|].
    rewrite requesting_flows_cons_unrequested by done. rewrite Hs. by apply IH.
  - etrans; [apply requesting_flows_cons|].
    apply le_n_S. rewrite after_device_detected.
    pose proof (cached_remembered _ _ _ _ Hm Hne) as Hk.
    unfold match_key in Hk.
    destruct (has_manufacturer_data advertisement_data).
    + rewrite (no_request_once_cached_with_data (BLEDevice.address device));
        [simpl; lia|done|done].
    + by apply (one_request_once_cached_without_data
                  (BLEDevice.address device)).
  - destruct (unrequested device advertisement_data self) as [Hf Hs];
      [by left|].
    rewrite requesting_flows_cons_unrequested by done. rewrite Hs. by apply IH.
Qed.

End Repeats.

(** Three times the same advertisement that the SwitchBot matcher does not
    match. *)
Lemma a_miss_is_evaluated_every_time_witness :
  Forall
    (λ o,
       logged_domains (trace o) = Some (Some ∅)
       ∧ flows (trace o) = []
       ∧ after o = BluetoothManager.__init__ [switchbot_matcher])
    (@detect_all quiet (replicate 3 (sample_device, unnamed_advertisement))
       (BluetoothManager.__init__ [switchbot_matcher])).
Proof.
  apply (@a_miss_is_evaluated_every_time quiet
           (BluetoothManager.__init__ [switchbot_matcher]) sample_device
           unnamed_advertisement 3).
  - by repeat constructor.
  - unfold cached. simpl. apply not_elem_of_nil.
  - unfold cached. simpl. apply not_elem_of_nil.
Defined.

(** A device that is matched without manufacturer data, then with, and
    advertises twice more: two requests, the most there can be. *)
Lemma an_address_is_discovered_at_most_twice_witness :
  let advertisements :=
    [(sample_device, bare_advertisement); (sample_device, full_advertisement);
     (sample_device, bare_advertisement); (sample_device, full_advertisement)]
  in
  (length
     (requesting_flows
        (@detect_all quiet advertisements
           (BluetoothManager.__init__ [switchbot_matcher]))) ≤ 2)%nat
  ∧ length
      (requesting_flows
         (@detect_all quiet advertisements
            (BluetoothManager.__init__ [switchbot_matcher]))) = 2%nat.
Proof.
  split.
  - apply (@an_address_is_discovered_at_most_twice quiet
             (BluetoothManager.__init__ [switchbot_matcher]) sample_address).
    by repeat constructor.
  - vm_compute. reflexivity.
Defined.

(** ** What a run of [_device_detected] hands out *)

Section HandedOut.
Context `{Environment}.


Lemma for_each_with_cons {X S} (x : X) (l : list X) (acc : S)
    (body : S → X → M S) (self : BluetoothManager) :
  for_each_with (x :: l) acc body self
  = bind (body acc x) (λ acc', for_each_with l acc' body) self.
Proof. done. Qed.








End HandedOut.


(** ** Handles of the two registries *)

Lemma list_remove_middle {A} `{EqDecision A} (x : A) (before rest : list A) :
  x ∉ before → list_remove x (before ++ x :: rest) = Some (before ++ rest).
Proof.
  induction before as [|y before IH]; intros Hnot; simpl.
  - by rewrite decide_True.
  - apply not_elem_of_cons in Hnot as [Hne Hnot].
    rewrite decide_False by done. by rewrite IH.
Qed.

Section Handles.
Context `{Environment}.

(** X10.  The handle of a registration takes one subscription away: the
    first that is equal to the one it was made for.  The subscriptions
    before it and after it stay, in their order. *)
Theorem unregister_takes_the_first_equal_subscription
    (self : BluetoothManager) (entry : callback_entry)
    (before rest : list callback_entry) :
  BluetoothManager._callbacks self = before ++ entry :: rest →
  entry ∉ before →
  async_register_callback__async_remove_callback entry self
  = Outcome (BluetoothManager.with_callbacks (before ++ rest) self) []
      (Returns tt).
Proof.
  intros Hcallbacks Hnot. rewrite remove_callback_run, Hcallbacks.
  by rewrite list_remove_middle.
Qed.

(** X11.  The handle of a registration works once.  Called a second time,
    when no equal subscription was there before the registration, it raises
    [ValueError] and the manager is what it was before the registration. *)
Theorem unregister_twice_raises (self : BluetoothManager)
    (cb : BluetoothCallback) (matcher : option BluetoothCallbackMatcher) :
  replay_caught cb →
  (cb, matcher) ∉ BluetoothManager._callbacks self →
  let o := unregister_twice cb matcher self in
  result o = Raises (PyExc ValueError "list.remove(x): x not in list")
  ∧ after o = self.
Proof.
  intros Hcaught Hnot o. subst o. unfold unregister_twice, mbind, M_bind.
  destruct (register_returns cb matcher self Hcaught) as [t Hregister].
  rewrite (bind_run _ _ _ _ Hregister). cbn [result after trace].
  set (self' := BluetoothManager.with_callbacks _ self).
  assert (async_register_callback__async_remove_callback (cb, matcher) self'
          = Outcome self [] (Returns tt)) as Hfirst.
  { rewrite remove_callback_run. subst self'. destruct self. simpl in *.
    by rewrite list_remove_fresh by done. }
  rewrite (bind_run _ _ _ _ Hfirst). cbn [result after trace].
  rewrite remove_callback_run, list_remove_None by done. done.
Qed.






Lemma with_unavailable_callbacks_same self :
  BluetoothManager.with_unavailable_callbacks
    (BluetoothManager._unavailable_callbacks self) self
  = self.
Proof. by destruct self. Qed.

Lemma with_unavailable_callbacks_twice u u' self :
  BluetoothManager.with_unavailable_callbacks u'
    (BluetoothManager.with_unavailable_callbacks u self)
  = BluetoothManager.with_unavailable_callbacks u' self.
Proof. done. Qed.

(** The handle called right after the registration, when the callback is
    not yet among those of the address. *)
Lemma cancel_after_track cb address self :
  no_empty_list self →
  cb ∉ default [] (BluetoothManager._unavailable_callbacks self !! address) →
  async_track_unavailable__async_remove_callback (cb, address)
    (BluetoothManager.with_unavailable_callbacks
       (<[address :=
            default []
              (BluetoothManager._unavailable_callbacks self !! address)
            ++ [cb]]>
          (BluetoothManager._unavailable_callbacks self))
       self)
  = Outcome self [] (Returns tt).
Proof.
  intros Hno Hnot. rewrite remove_unavailable_run.
  cbn [BluetoothManager._unavailable_callbacks
         BluetoothManager.with_unavailable_callbacks].
  rewrite lookup_insert_eq, list_remove_fresh by done.
  rewrite with_unavailable_callbacks_twice.
  destruct (BluetoothManager._unavailable_callbacks self !! address)
    as [callbacks|] eqn:Hl; cbn [default].
  - rewrite decide_False by (by apply (Hno address)).
    rewrite insert_insert_eq, insert_id by done.
    by rewrite with_unavailable_callbacks_same.
  - rewrite decide_True by done. rewrite delete_insert_eq, delete_id by done.
    by rewrite with_unavailable_callbacks_same.
Qed.

(** X13.  Tracking an address and then calling the handle leaves the
    registry of unavailability callbacks as it was, when the callback was
    not already tracking this address: the address that was not there is
    not there again, the list that was there is there again. *)
Theorem track_then_cancel_restores (self : BluetoothManager)
    (cb : UnavailableCallback) (address : string) :
  no_empty_list self →
  cb ∉ default [] (BluetoothManager._unavailable_callbacks self !! address) →
  let o := track_then_cancel cb address self in
  result o = Returns tt ∧ after o = self ∧ trace o = [].
Proof.
  intros Hno Hnot o. subst o. unfold track_then_cancel, mbind, M_bind.
  rewrite (bind_run _ _ _ _ (track_run cb address self)).
  cbn [result after trace]. by rewrite cancel_after_track.
Qed.

(** X14.  The handle of [async_track_unavailable] works once.  Called a
    second time it raises, and changes nothing: [KeyError] when the address
    is no longer in the registry, [ValueError] when other callbacks still
    track the address. *)
Theorem cancel_twice_raises (self : BluetoothManager)
    (cb : UnavailableCallback) (address : string) :
  no_empty_list self →
  cb ∉ default [] (BluetoothManager._unavailable_callbacks self !! address) →
  let o := cancel_twice cb address self in
  after o = self
  ∧ result o
    = Raises
        (match BluetoothManager._unavailable_callbacks self !! address with
         | None => PyExc KeyError address
         | Some _ => PyExc ValueError "list.remove(x): x not in list"
         end).
Proof.
  intros Hno Hnot o. subst o. unfold cancel_twice, mbind, M_bind.
  rewrite (bind_run _ _ _ _ (track_run cb address self)).
  cbn [result after trace].
  rewrite (bind_run _ _ _ _ (cancel_after_track cb address self Hno Hnot)).
  cbn [result after trace]. rewrite remove_unavailable_run.
  destruct (BluetoothManager._unavailable_callbacks self !! address)
    as [callbacks|]; [|done].
  by rewrite list_remove_None.
Qed.

End Handles.


(** The subscription [(2, None)] is there twice, around [(1, None)]: the
    handle takes the first. *)
Lemma unregister_takes_the_first_equal_subscription_witness :
  BluetoothManager._callbacks
    (after (@async_register_callback__async_remove_callback (2%nat, None)
              (BluetoothManager.with_callbacks
                 [(1%nat, None); (2%nat, None); (3%nat, None); (2%nat, None)]
                 (BluetoothManager.__init__ []))))
  = [(1%nat, None); (3%nat, None); (2%nat, None)].
Proof.
  rewrite (unregister_takes_the_first_equal_subscription
             (BluetoothManager.with_callbacks
                [(1%nat, None); (2%nat, None); (3%nat, None); (2%nat, None)]
                (BluetoothManager.__init__ []))
             (2%nat, None) [(1%nat, None)] [(3%nat, None); (2%nat, None)]).
  - reflexivity.
  - reflexivity.
  - by_compute.
Defined.

Lemma unregister_twice_raises_witness :
  result (@unregister_twice quiet 3%nat None two_plain_subscribers)
  = Raises (PyExc ValueError "list.remove(x): x not in list")
  ∧ after (@unregister_twice quiet 3%nat None two_plain_subscribers)
    = two_plain_subscribers.
Proof.
  apply (@unregister_twice_raises quiet two_plain_subscribers 3%nat None).
  - intros service_info. exact I.
  - by_compute.
Defined.

(** The callback [3] tracks [sample_address], where [1] and [2] are, and an
    address that nobody tracks. *)
Lemma track_then_cancel_restores_witness :
  after (@track_then_cancel quiet 3%nat sample_address tracking) = tracking
  ∧ after (@track_then_cancel quiet 3%nat "00:00:00:00:00:00" tracking)
    = tracking.
Proof.
  split.
  - apply (@track_then_cancel_restores quiet tracking 3%nat sample_address).
    + by_compute.
    + by_compute.
  - apply (@track_then_cancel_restores quiet tracking 3%nat
             "00:00:00:00:00:00").
    + by_compute.
    + by_compute.
Defined.

Lemma cancel_twice_raises_witness :
  result (@cancel_twice quiet 3%nat sample_address tracking)
  = Raises (PyExc ValueError "list.remove(x): x not in list")
  ∧ result (@cancel_twice quiet 3%nat "00:00:00:00:00:00" tracking)
    = Raises (PyExc KeyError "00:00:00:00:00:00").
Proof.
  split.
  - apply (@cancel_twice_raises quiet tracking 3%nat sample_address).
    + by_compute.
    + by_compute.
  - apply (@cancel_twice_raises quiet tracking 3%nat "00:00:00:00:00:00").
    + by_compute.
    + by_compute.
Defined.

(** ** Ticks of the tracker and lookups *)

Section Lookups.
Context `{Environment}.

(** The scanner after a tick: the driver reports what it reported, and the
    history has lost the addresses that disappeared. *)
Lemma scanner_after_tick self scanner :
  BluetoothManager.scanner self = Some scanner →
  unavailable_caught self →
  ∃ scanner',
    BluetoothManager.scanner (after (_async_check_unavailable self))
    = Some scanner'
    ∧ HaBleakScanner.discovered_devices scanner'
      = HaBleakScanner.discovered_devices scanner
    ∧ ∀ address,
        HaBleakScanner.history scanner' !! address
        = if decide (address ∈ disappeared_of scanner) then None
          else HaBleakScanner.history scanner !! address.
Proof.
  intros Hsc Hcaught.
  rewrite (check_unavailable_run self scanner Hsc Hcaught).
  cbn [after].
  pose proof (elem_of_iter_set (disappeared_of scanner)) as Hiter.
  destruct (iter_set (disappeared_of scanner)) as [|a addresses] eqn:Ha.
  - exists scanner. split_and!; [done|done|]. intros address.
    rewrite decide_False; [done|]. intros Hin%Hiter. by apply elem_of_nil in Hin.
  - eexists. split_and!.
    + by apply with_history_scanner.
    + done.
    + intros address. cbn [HaBleakScanner.history HaBleakScanner.with_history].
      rewrite lookup_foldr_delete.
      destruct (decide (address ∈ disappeared_of scanner)) as [Hin|Hnot].
      * rewrite decide_True; [done|]. apply elem_of_reverse. by apply Hiter.
      * rewrite decide_False; [done|]. by intros Hin%elem_of_reverse%Hiter.
Qed.

Lemma unavailable_callbacks_after_tick self scanner :
  BluetoothManager.scanner self = Some scanner →
  unavailable_caught self →
  BluetoothManager._unavailable_callbacks
    (after (_async_check_unavailable self))
  = BluetoothManager._unavailable_callbacks self.
Proof.
  intros Hsc Hcaught.
  rewrite (check_unavailable_run self scanner Hsc Hcaught). cbn [after].
  destruct (iter_set (disappeared_of scanner)); [done|].
  unfold with_history. by rewrite Hsc.
Qed.

(** X15.  An address is reported unavailable once.  A second tick, when the
    driver reports the devices it reported at the first and no
    advertisement has come in between, finds no address gone: it invokes no
    callback and changes nothing. *)
Theorem a_second_tick_is_silent (self : BluetoothManager)
    (scanner : HaBleakScanner) :
  BluetoothManager.scanner self = Some scanner →
  unavailable_caught self →
  let o := _async_check_unavailable self in
  let o' := _async_check_unavailable (after o) in
  result o' = Returns tt ∧ trace o' = [] ∧ after o' = after o.
Proof.
  intros Hsc Hcaught o o'. subst o o'.
  destruct (scanner_after_tick self scanner Hsc Hcaught)
    as (scanner' & Hsc' & Hactive & Hhistory).
  assert (unavailable_caught (after (_async_check_unavailable self)))
    as Hcaught'.
  { unfold unavailable_caught.
    by rewrite (unavailable_callbacks_after_tick self scanner). }
  rewrite (check_unavailable_run _ scanner' Hsc' Hcaught').
  assert (disappeared_of scanner' = ∅) as ->.
  { apply set_eq. intros address. split; [|by intros ?%elem_of_empty].
    unfold disappeared_of. rewrite Hactive.
    intros [Hin Hnot]%elem_of_difference. exfalso.
    apply elem_of_dom in Hin. rewrite Hhistory in Hin.
    destruct (decide (address ∈ disappeared_of scanner)) as [|Hstill];
      [by destruct Hin|].
    apply Hstill. unfold disappeared_of. apply elem_of_difference.
    split; [by apply elem_of_dom|done]. }
  by rewrite iter_set_empty.
Qed.

Lemma address_present_run address self :
  async_address_present address self
  = Outcome self [] (Returns (bool_decide (is_Some (history_of self !! address)))).
Proof.
  unfold async_address_present, history_of. run.
  destruct (BluetoothManager.scanner self) as [scanner|].
  - by rewrite (bool_decide_ext _ _
                  (elem_of_dom (HaBleakScanner.history scanner) address)).
  - rewrite lookup_empty. by rewrite bool_decide_eq_false_2 by (by intros [? ?]).
Qed.

Lemma device_from_address_run address self :
  async_ble_device_from_address address self
  = Outcome self [] (Returns (fst <$> history_of self !! address)).
Proof.
  unfold async_ble_device_from_address, history_of. run.
  destruct (BluetoothManager.scanner self) as [scanner|]; [|done].
  by destruct (HaBleakScanner.history scanner !! address).
Qed.

(** X16.  The two lookups by address and the replay of a registration read
    the same entry of the history of the scanner, and without a scanner
    there is no entry.  Neither lookup raises, emits or changes anything:
    [async_address_present] returns whether the history has the address, and
    [async_ble_device_from_address] returns the device kept for it, or
    [None].  For an address that is not the empty string, a registration
    whose matcher has that address invokes the callback once, with the
    service info of the device and the advertisement kept for the address,
    and not at all when nothing is kept.  So the address is present exactly
    when a device is found for it. *)
Theorem lookups_agree (self : BluetoothManager) (address : string) :
  let known := history_of self !! address in
  async_address_present address self
  = Outcome self [] (Returns (bool_decide (is_Some known)))
  ∧ async_ble_device_from_address address self
    = Outcome self [] (Returns (fst <$> known))
  ∧ (∀ cb matcher,
       Matcher.address matcher = Some address →
       address ≠ "" →
       called (trace (async_register_callback cb (Some matcher) self))
       = match known with
         | Some (device, advertisement_data) =>
             [(cb, info_of device advertisement_data)]
         | None => []
         end)
  ∧ (result (async_address_present address self) = Returns true
     ↔ ∃ device,
         result (async_ble_device_from_address address self)
         = Returns (Some device)).
Proof.
  intros known. subst known.
  rewrite address_present_run, device_from_address_run.
  cbn [result]. split_and!; try done.
  - intros cb matcher Haddress Hne. rewrite register_run. cbv zeta.
    rewrite (replayed_history self matcher address Haddress Hne).
    destruct (history_of self !! address) as [[device advertisement_data]|];
      [|done].
    destruct (call cb _ _) as [ex|]; [|done].
    by destruct (isinstance_Exception ex).
  - destruct (history_of self !! address) as [[device advertisement_data]|];
      simpl.
    + split; [by exists device|done].
    + split; [done|]. by intros [device ?].
Qed.

(** X17.  After a tick of the tracker an address is present exactly when it
    was present before and the driver still reports a device with it, and
    the device found for it is then the device found before. *)
Theorem presence_after_a_tick (self : BluetoothManager)
    (scanner : HaBleakScanner) (address : string) :
  BluetoothManager.scanner self = Some scanner →
  unavailable_caught self →
  let o := _async_check_unavailable self in
  (result (async_address_present address (after o)) = Returns true
   ↔ result (async_address_present address self) = Returns true
     ∧ address ∈ active_addresses scanner)
  ∧ result (async_ble_device_from_address address (after o))
    = if decide (address ∈ active_addresses scanner)
      then result (async_ble_device_from_address address self)
      else Returns None.
Proof.
  intros Hsc Hcaught o. subst o.
  destruct (scanner_after_tick self scanner Hsc Hcaught)
    as (scanner' & Hsc' & _ & Hhistory).
  rewrite !address_present_run, !device_from_address_run.
  cbn [result]. unfold history_of. rewrite Hsc', Hsc, Hhistory.
  assert (address ∈ disappeared_of scanner
          ↔ is_Some (HaBleakScanner.history scanner !! address)
            ∧ address ∉ active_addresses scanner) as Hgone.
  { unfold disappeared_of, active_addresses.
    by rewrite elem_of_difference, elem_of_dom, elem_of_list_to_set. }
  destruct (decide (address ∈ disappeared_of scanner)) as [Hin|Hnot].
  - apply Hgone in Hin as [Hwas Hnow]. split.
    + split; [done|]. by intros [_ ?].
    + by rewrite decide_False.
  - split.
    + split.
      * intros [= Hp%bool_decide_eq_true]. split.
        -- by rewrite bool_decide_eq_true_2.
        -- destruct (decide (address ∈ active_addresses scanner)); [done|].
           exfalso. apply Hnot, Hgone. done.
      * by intros [? _].
    + destruct (decide (address ∈ active_addresses scanner)) as [|Hnow];
        [done|].
      destruct (HaBleakScanner.history scanner !! address) eqn:Hl; [|done].
      exfalso. apply Hnot, Hgone. done.
Qed.

Lemma the_scanner_run self scanner :
  BluetoothManager.scanner self = Some scanner →
  the_scanner self = Outcome self [] (Returns scanner).
Proof. intros Hsc. unfold the_scanner. run. by rewrite Hsc. Qed.

Lemma discovered_service_info_run self :
  async_discovered_service_info self
  = match BluetoothManager.scanner self with
    | Some scanner =>
        Outcome self []
          (Returns
             ((λ device_adv,
                 BluetoothServiceInfoBleak.from_advertisement device_adv.1
                   device_adv.2 SOURCE_LOCAL)
              <$> values (HaBleakScanner.history scanner)))
    | None => Outcome self [] (Raises (PyExc AssertionError ""))
    end.
Proof.
  destruct (BluetoothManager.scanner self) as [scanner|] eqn:Hsc;
    unfold async_discovered_service_info, mbind, M_bind;
    rewrite (bind_run _ _ _ _ (get_run self)); cbn [result after trace app].
  - rewrite (bind_run _ _ _ _ (assert_scanner_run self scanner Hsc)).
    cbn [result after trace app].
    by rewrite (bind_run _ _ _ _ (the_scanner_run self scanner Hsc)).
  - by rewrite Hsc.
Qed.

(** X18.  [async_discovered_service_info] lists the history: one service
    info for every address of the history, each made from the device and
    the advertisement kept for the address.  It changes and emits nothing.
    Without a scanner, that is before [async_setup], it raises
    [AssertionError]. *)
Theorem discovered_service_info_lists_the_history (self : BluetoothManager) :
  let o := async_discovered_service_info self in
  after o = self
  ∧ trace o = []
  ∧ (BluetoothManager.scanner self = None →
     result o = Raises (PyExc AssertionError ""))
  ∧ ∀ scanner,
      BluetoothManager.scanner self = Some scanner →
      ∃ service_infos,
        result o = Returns service_infos
        ∧ length service_infos = size (HaBleakScanner.history scanner)
        ∧ ∀ service_info,
            service_info ∈ service_infos
            ↔ ∃ address device advertisement_data,
                HaBleakScanner.history scanner !! address
                = Some (device, advertisement_data)
                ∧ service_info = info_of device advertisement_data.
Proof.
  intros o. subst o. rewrite discovered_service_info_run.
  destruct (BluetoothManager.scanner self) as [scanner|] eqn:Hsc.
  - split_and!; [done|done|done|]. intros ? [= <-]. eexists.
    split; [done|]. split.
    + unfold values. by rewrite !length_fmap, length_map_to_list.
    + intros service_info. rewrite list_elem_of_fmap. split.
      * intros [[device advertisement_data] [-> Hin]].
        apply elem_of_values in Hin as [address Hin].
        by exists address, device, advertisement_data.
      * intros (address & device & advertisement_data & Hin & ->).
        exists (device, advertisement_data). split; [done|].
        apply elem_of_values. by exists address.
  - by split_and!.
Qed.

End Lookups.

(** The tick of [unavailable_tick_witness], and a second one. *)
Lemma a_second_tick_is_silent_witness :
  trace (@_async_check_unavailable faulty tracking) ≠ []
  ∧ trace (@_async_check_unavailable faulty
             (after (@_async_check_unavailable faulty tracking))) = []
  ∧ after (@_async_check_unavailable faulty
             (after (@_async_check_unavailable faulty tracking)))
    = after (@_async_check_unavailable faulty tracking).
Proof.
  destruct (@a_second_tick_is_silent faulty tracking
              (HaBleakScanner.mk
                 {[ sample_address := (sample_device, full_advertisement);
                    BLEDevice.address other_device
                      := (other_device, bare_advertisement) ]}
                 [other_device] (Some "active") true
                 [device_detected_of_manager] true))
    as (_ & Htrace & Hafter).
  - reflexivity.
  - unfold unavailable_caught. by_compute.
  - split_and!; [|exact Htrace|exact Hafter]. by_compute.
Defined.

(** After the tick at [tracking], the device that the driver still reports
    is present and the other is not. *)
Lemma presence_after_a_tick_witness :
  result (@async_address_present (BLEDevice.address other_device)
            (after (@_async_check_unavailable faulty tracking)))
  = Returns true
  ∧ result (@async_ble_device_from_address sample_address
              (after (@_async_check_unavailable faulty tracking)))
    = Returns None.
Proof.
  split.
  - apply (@presence_after_a_tick faulty tracking
             (HaBleakScanner.mk
                {[ sample_address := (sample_device, full_advertisement);
                   BLEDevice.address other_device
                     := (other_device, bare_advertisement) ]}
                [other_device] (Some "active") true
                [device_detected_of_manager] true)
             (BLEDevice.address other_device)).
    + reflexivity.
    + unfold unavailable_caught. by_compute.
    + split; [reflexivity|]. unfold active_addresses. by_compute.
  - destruct (@presence_after_a_tick faulty tracking
                (HaBleakScanner.mk
                   {[ sample_address := (sample_device, full_advertisement);
                      BLEDevice.address other_device
                        := (other_device, bare_advertisement) ]}
                   [other_device] (Some "active") true
                   [device_detected_of_manager] true)
                sample_address)
      as [_ Hfound].
    + reflexivity.
    + unfold unavailable_caught. by_compute.
    + rewrite Hfound. rewrite decide_False; [done|].
      unfold active_addresses. by_compute.
Defined.

(** ** Starting, again *)

Section Starting.
Context `{Environment}.

(** [async_start] up to the call of [start], when the scanner is set up. *)
Lemma start_run scanning_mode self scanner :
  BluetoothManager.scanner self = Some scanner →
  driver_async_setup (SCANNING_MODE_TO_BLEAK scanning_mode) = None →
  (∀ ex,
     driver_start = Some ex →
     isinstance_FileNotFoundError_BleakError ex = false) →
  let self' := listening scanning_mode scanner self in
  async_start scanning_mode self
  = match driver_start with
    | None =>
        Outcome
          (BluetoothManager.with_cancel_unavailable_tracking true
             (BluetoothManager.with_scanner
                (Some (HaBleakScanner.with_started
                         (HaBleakScanner.with_callbacks
                            (HaBleakScanner._callbacks scanner
                             ++ [device_detected_of_manager])
                            (HaBleakScanner.with_detection_callback
                               (HaBleakScanner.with_scanning_mode
                                  (SCANNING_MODE_TO_BLEAK scanning_mode)
                                  scanner)))))
                self'))
          [InstalledMultipleBleakCatcher; LoggedStarting;
           TrackedTimeInterval UNAVAILABLE_TRACK_SECONDS; ListenedOnceForStop]
          (Returns tt)
    | Some ex =>
        Outcome self' [InstalledMultipleBleakCatcher; LoggedStarting]
          (Raises ex)
    end.
Proof.
  intros Hsc Hsetup Hother self'.
  destruct driver_start as [ex|] eqn:Hstart;
    [pose proof (Hother ex eq_refl) as Hex|]; clear Hother.
  all: unfold async_start, mbind, M_bind.
  all: rewrite (bind_run _ _ _ _ (get_run self));
    cbn [result after trace app].
  all: rewrite (bind_run _ _ _ _ (assert_scanner_run self scanner Hsc));
    cbn [result after trace app].
  all: assert (scanner_async_setup (SCANNING_MODE_TO_BLEAK scanning_mode) self
          = Outcome
              (BluetoothManager.with_scanner
                 (Some (HaBleakScanner.with_scanning_mode
                          (SCANNING_MODE_TO_BLEAK scanning_mode) scanner))
                 self)
              [] (Returns tt)) as Hrun
    by (unfold scanner_async_setup; rewrite Hsetup;
        by apply update_scanner_run).
  all: pose proof (try_except_run _ isinstance_FileNotFoundError_BleakError
                (λ ex, raise (PyExc RuntimeError
                                ("Failed to initialize Bluetooth: "
                                 +:+ exc_str ex)))
                self _ Hrun) as Htry.
  all: cbn [result after trace app] in Htry; rewrite (bind_run _ _ _ _ Htry);
    cbn [result after trace app]; clear Hrun Htry.
  all: set (self1 := BluetoothManager.with_scanner _ self).
  all: rewrite (bind_run _ _ _ _ (emit_run InstalledMultipleBleakCatcher self1));
    cbn [result after trace app].
  all: rewrite (bind_run _ _ _ _ (emit_run LoggedStarting self1));
    cbn [result after trace app].
  all: unfold scanner_register_detection_callback.
  all: rewrite (bind_run _ _ _ _
             (update_scanner_run HaBleakScanner.with_detection_callback self1
                _ eq_refl));
    cbn [result after trace app].
  all: set (self2 := BluetoothManager.with_scanner _ self1).
  all: unfold scanner_async_register_callback, mbind, M_bind.
  all: rewrite (bind_run _ _ self2 _
             (bind_run _ _ self2 _
                (update_scanner_run
                   (λ sc,
                      HaBleakScanner.with_callbacks
                        (HaBleakScanner._callbacks sc
                         ++ [device_detected_of_manager]) sc)
                   self2 _ eq_refl)));
    cbn [result after trace app ret].
  all: set (self3 := BluetoothManager.with_scanner _ self2).
  all: rewrite (bind_run _ _ _ _
             (modify_run
                (BluetoothManager.with_cancel_device_detected
                   (Some device_detected_of_manager)) self3));
    cbn [result after trace app].
  all: set (self4 := BluetoothManager.with_cancel_device_detected _ self3).
  all: assert (self4 = self') as Hself
    by (by subst self4 self3 self2 self1 self').
  - assert (scanner_start self4 = Outcome self4 [] (Raises ex)) as Hrun.
    { unfold scanner_start. by rewrite Hstart. }
    match goal with
    | |- context [bind (try_except _ _ ?handler) _ _] =>
        pose proof (try_except_run _ isinstance_FileNotFoundError_BleakError
                      handler self4 _ Hrun) as Htry
    end.
    cbn [result after trace app] in Htry. rewrite Hex in Htry.
    rewrite (bind_run _ _ _ _ Htry). cbn [result after trace app].
    by rewrite Hself.
  - assert (scanner_start self4
            = Outcome
                (BluetoothManager.with_scanner
                   (Some (HaBleakScanner.with_started
                            (HaBleakScanner.with_callbacks
                               (HaBleakScanner._callbacks scanner
                                ++ [device_detected_of_manager])
                               (HaBleakScanner.with_detection_callback
                                  (HaBleakScanner.with_scanning_mode
                                     (SCANNING_MODE_TO_BLEAK scanning_mode)
                                     scanner)))))
                   self4)
                [] (Returns tt)) as Hrun.
    { unfold scanner_start. rewrite Hstart.
      by rewrite (update_scanner_run _ self4 _ eq_refl). }
    match goal with
    | |- context [bind (try_except _ _ ?handler) _ _] =>
        pose proof (try_except_run _ isinstance_FileNotFoundError_BleakError
                      handler self4 _ Hrun) as Htry
    end.
    cbn [result after trace app] in Htry.
    rewrite (bind_run _ _ _ _ Htry). cbn [result after trace app].
    unfold async_setup_unavailable_tracking, mbind, M_bind.
    match goal with
    | |- context [bind (bind (emit ?e) ?k) _ ?s] =>
        rewrite (bind_run _ _ s _ (bind_run _ _ s _ (emit_run e s)))
    end.
    cbn [result after trace app modify emit].
    by rewrite Hself.
Qed.

Lemma start_setup_raises scanning_mode self scanner ex :
  BluetoothManager.scanner self = Some scanner →
  driver_async_setup (SCANNING_MODE_TO_BLEAK scanning_mode) = Some ex →
  isinstance_FileNotFoundError_BleakError ex = false →
  async_start scanning_mode self = Outcome self [] (Raises ex).
Proof.
  intros Hsc Hsetup Hex. unfold async_start, mbind, M_bind.
  rewrite (bind_run _ _ _ _ (get_run self));
    cbn [result after trace app].
  rewrite (bind_run _ _ _ _ (assert_scanner_run self scanner Hsc));
    cbn [result after trace app].
  assert (scanner_async_setup (SCANNING_MODE_TO_BLEAK scanning_mode) self
          = Outcome self [] (Raises ex)) as Hrun.
  { unfold scanner_async_setup. by rewrite Hsetup. }
  pose proof (try_except_run _ isinstance_FileNotFoundError_BleakError
                (λ ex, raise (PyExc RuntimeError
                                ("Failed to initialize Bluetooth: "
                                 +:+ exc_str ex)))
                self _ Hrun) as Htry.
  cbn [result after trace app] in Htry. rewrite Hex in Htry.
  by rewrite (bind_run _ _ _ _ Htry).
Qed.

Lemma start_without_scanner scanning_mode self :
  BluetoothManager.scanner self = None →
  async_start scanning_mode self
  = Outcome self [] (Raises (PyExc AssertionError "")).
Proof.
  intros Hsc. unfold async_start, mbind, M_bind.
  rewrite (bind_run _ _ _ _ (get_run self));
    cbn [result after trace app].
  assert (assert_ (bool_decide (is_Some (BluetoothManager.scanner self))) self
          = Outcome self [] (Raises (PyExc AssertionError ""))) as Hassert.
  { by rewrite Hsc. }
  by rewrite (bind_run _ _ _ _ Hassert).
Qed.

(** X19.  A start that succeeds, with a scanner in place and a driver that
    is set up and starts: the scanner has the mode asked for, the manager's
    listener after the listeners it had, and is started; the manager keeps
    the handle of its listener and the tracker is armed with its period of
    300 seconds.  What was there before is kept: the subscriptions, the
    unavailability callbacks, the match cache, the history. *)
Theorem start_succeeds (self : BluetoothManager) (scanner : HaBleakScanner)
    (scanning_mode : BluetoothScanningMode) :
  BluetoothManager.scanner self = Some scanner →
  driver_async_setup (SCANNING_MODE_TO_BLEAK scanning_mode) = None →
  driver_start = None →
  let o := async_start scanning_mode self in
  result o = Returns tt
  ∧ trace o
    = [InstalledMultipleBleakCatcher; LoggedStarting;
       TrackedTimeInterval 300; ListenedOnceForStop]
  ∧ (∃ scanner',
       BluetoothManager.scanner (after o) = Some scanner'
       ∧ HaBleakScanner.scanning_mode scanner'
         = Some (SCANNING_MODE_TO_BLEAK scanning_mode)
       ∧ HaBleakScanner.detection_callback scanner' = true
       ∧ HaBleakScanner._callbacks scanner'
         = HaBleakScanner._callbacks scanner ++ [device_detected_of_manager]
       ∧ HaBleakScanner.started scanner' = true
       ∧ HaBleakScanner.history scanner' = HaBleakScanner.history scanner
       ∧ HaBleakScanner.discovered_devices scanner'
         = HaBleakScanner.discovered_devices scanner)
  ∧ BluetoothManager._cancel_device_detected (after o)
    = Some device_detected_of_manager
  ∧ BluetoothManager._cancel_unavailable_tracking (after o) = true
  ∧ BluetoothManager._callbacks (after o) = BluetoothManager._callbacks self
  ∧ BluetoothManager._unavailable_callbacks (after o)
    = BluetoothManager._unavailable_callbacks self
  ∧ BluetoothManager._matched (after o) = BluetoothManager._matched self
  ∧ BluetoothManager._integration_matchers (after o)
    = BluetoothManager._integration_matchers self.
Proof.
  intros Hsc Hsetup Hstart o. subst o.
  rewrite (start_run scanning_mode self scanner Hsc Hsetup)
    by (by rewrite Hstart).
  rewrite Hstart. cbn [result after trace]. split_and!; try done.
  eexists. split; [reflexivity|]. by split_and!.
Qed.

(** X20.  What [async_start] does not translate.  Without a scanner, that
    is before [async_setup], it raises [AssertionError] and nothing has
    happened.  An exception of the driver that is neither a
    [FileNotFoundError] nor a [BleakError] passes through as it is: from
    the set-up, with nothing done; from [start], with the manager's
    listener still registered with the scanner and its handle kept, for no
    handler has removed it, and the tracker not armed. *)
Theorem start_does_not_translate_other_exceptions (self : BluetoothManager)
    (scanning_mode : BluetoothScanningMode) :
  let o := async_start scanning_mode self in
  (BluetoothManager.scanner self = None →
   o = Outcome self [] (Raises (PyExc AssertionError "")))
  ∧ ∀ scanner ex,
      BluetoothManager.scanner self = Some scanner →
      isinstance_FileNotFoundError_BleakError ex = false →
      (driver_async_setup (SCANNING_MODE_TO_BLEAK scanning_mode) = Some ex →
       o = Outcome self [] (Raises ex))
      ∧ (driver_async_setup (SCANNING_MODE_TO_BLEAK scanning_mode) = None →
         driver_start = Some ex →
         result o = Raises ex
         ∧ trace o = [InstalledMultipleBleakCatcher; LoggedStarting]
         ∧ (∃ scanner',
              BluetoothManager.scanner (after o) = Some scanner'
              ∧ HaBleakScanner._callbacks scanner'
                = HaBleakScanner._callbacks scanner
                  ++ [device_detected_of_manager]
              ∧ HaBleakScanner.started scanner'
                = HaBleakScanner.started scanner)
         ∧ BluetoothManager._cancel_device_detected (after o)
           = Some device_detected_of_manager
         ∧ BluetoothManager._cancel_unavailable_tracking (after o)
           = BluetoothManager._cancel_unavailable_tracking self).
Proof.
  intros o. subst o. split.
  - apply start_without_scanner.
  - intros scanner ex Hsc Hex. split.
    + intros Hsetup. by apply (start_setup_raises _ _ scanner).
    + intros Hsetup Hstart.
      rewrite (start_run scanning_mode self scanner Hsc Hsetup)
        by (rewrite Hstart; by intros ? [= <-]).
      rewrite Hstart. cbn [result after trace]. split_and!; try done.
      eexists. split; [reflexivity|]. by split_and!.
Qed.

End Starting.

(** X21.  A start that failed because the driver could not be started
    leaves nothing in the way of the next: when the driver then starts, the
    manager is what a first start would have made it, in the mode of the
    second call, its listener registered once.  This is for a scanner with
    which the manager's listener was not registered before. *)
Theorem start_can_be_tried_again (failing working : Environment)
    (self : BluetoothManager) (scanner : HaBleakScanner)
    (first second : BluetoothScanningMode) (ex : pyexc) :
  BluetoothManager.scanner self = Some scanner →
  device_detected_of_manager ∉ HaBleakScanner._callbacks scanner →
  @driver_async_setup failing (SCANNING_MODE_TO_BLEAK first) = None →
  @driver_start failing = Some ex →
  isinstance_FileNotFoundError_BleakError ex = true →
  @driver_async_setup working (SCANNING_MODE_TO_BLEAK second) = None →
  @driver_start working = None →
  let failed := @async_start failing first self in
  let o := @async_start working second (after failed) in
  result failed
  = Raises (PyExc ConfigEntryNotReady
              ("Failed to start Bluetooth: " +:+ exc_str ex))
  ∧ result o = Returns tt
  ∧ after o = after (@async_start working second self).
Proof.
  intros Hsc Hnot Hsetup Hstart Hex Hsetup' Hstart' failed o.
  subst failed o.
  rewrite (@start_listen_failure failing first self scanner ex
             (HaBleakScanner._callbacks scanner) Hsc Hsetup Hstart Hex)
    by (by apply list_remove_fresh).
  cbn [result after]. split; [done|].
  set (scanner1 :=
         HaBleakScanner.with_callbacks (HaBleakScanner._callbacks scanner)
           (HaBleakScanner.with_detection_callback
              (HaBleakScanner.with_scanning_mode (SCANNING_MODE_TO_BLEAK first)
                 scanner))).
  set (self1 :=
         BluetoothManager.with_cancel_device_detected
           (Some device_detected_of_manager)
           (BluetoothManager.with_scanner (Some scanner1) self)).
  rewrite (@start_run working second self1 scanner1 eq_refl Hsetup')
    by (by rewrite Hstart').
  rewrite (@start_run working second self scanner Hsc Hsetup')
    by (by rewrite Hstart').
  rewrite Hstart'. cbn [result after]. split; [done|].
  by destruct self, scanner.
Qed.

(** The start at a manager after [async_setup], with a driver that works. *)
Lemma start_succeeds_witness :
  result (@async_start quiet ACTIVE set_up) = Returns tt
  ∧ trace (@async_start quiet ACTIVE set_up)
    = [InstalledMultipleBleakCatcher; LoggedStarting;
       TrackedTimeInterval 300; ListenedOnceForStop]
  ∧ BluetoothManager._integration_matchers
      (after (@async_start quiet ACTIVE set_up))
    = [switchbot_matcher].
Proof.
  destruct (@start_succeeds quiet set_up HaBleakScanner.new ACTIVE)
    as (Hresult & Htrace & _ & _ & _ & _ & _ & _ & Hmatchers).
  - reflexivity.
  - reflexivity.
  - reflexivity.
  - split_and!; [exact Hresult|exact Htrace|exact Hmatchers].
Defined.

(** A start in the passive mode with a driver that cannot be started, then
    a start in the active mode with a driver that works. *)
Lemma start_can_be_tried_again_witness :
  result (@async_start start_fails PASSIVE set_up)
  = Raises (PyExc ConfigEntryNotReady "Failed to start Bluetooth: adapter busy")
  ∧ result (@async_start quiet ACTIVE
              (after (@async_start start_fails PASSIVE set_up)))
    = Returns tt
  ∧ after (@async_start quiet ACTIVE
             (after (@async_start start_fails PASSIVE set_up)))
    = after (@async_start quiet ACTIVE set_up).
Proof.
  apply (start_can_be_tried_again start_fails quiet set_up HaBleakScanner.new
           PASSIVE ACTIVE (PyExc BleakError "adapter busy")).
  - reflexivity.
  - apply not_elem_of_nil.
  - reflexivity.
  - reflexivity.
  - reflexivity.
  - reflexivity.
  - reflexivity.
Defined.

(** ** Stopping *)

Lemma L_bind_run {S A B} (c : L S A) (k : A → L S B) (s : S) (r : run S A) :
  c s = r →
  (c ≫= k) s
  = match value r with
    | Returns a =>
        Run (state (k a (state r))) (events r ++ events (k a (state r)))
          (value (k a (state r)))
    | Raises ex => Run (state r) (events r) (Raises ex)
    end.
Proof. by intros <-. Qed.

Lemma L_bind_returns {S A B} (c : L S A) (k : A → L S B) (s s' : S)
    (e : list lifecycle_event) (a : A) :
  c s = Run s' e (Returns a) →
  (c ≫= k) s
  = Run (state (k a s')) (e ++ events (k a s')) (value (k a s')).
Proof. intros Hc. by rewrite (L_bind_run _ _ _ _ Hc). Qed.

Lemma lift_run {A} (c : M A) (self : BluetoothManager) (o : outcome A) :
  c self = o →
  lift c self = Run (after o) (OfManager <$> trace o) (result o).
Proof. by intros <-. Qed.

Lemma scanner_remove_callback_run cb self :
  scanner_remove_callback cb self
  = match BluetoothManager.scanner self with
    | None =>
        Outcome self []
          (Raises (PyExc AttributeError "'NoneType' object has no attribute"))
    | Some scanner =>
        match list_remove cb (HaBleakScanner._callbacks scanner) with
        | None =>
            Outcome self []
              (Raises (PyExc ValueError "list.remove(x): x not in list"))
        | Some callbacks =>
            Outcome
              (BluetoothManager.with_scanner
                 (Some (HaBleakScanner.with_callbacks callbacks scanner)) self)
              [] (Returns tt)
        end
    end.
Proof.
  unfold scanner_remove_callback, mbind, M_bind.
  destruct (BluetoothManager.scanner self) as [scanner|] eqn:Hsc.
  - rewrite (bind_run _ _ _ _ (the_scanner_run self scanner Hsc)).
    cbn [result after trace app].
    destruct (list_remove cb (HaBleakScanner._callbacks scanner)); [|done].
    by rewrite (update_scanner_run _ self scanner Hsc).
  - assert (the_scanner self
            = Outcome self []
                (Raises (PyExc AttributeError
                           "'NoneType' object has no attribute"))) as Hnone.
    { unfold the_scanner. run. by rewrite Hsc. }
    by rewrite (bind_run _ _ _ _ Hnone).
Qed.

Section Stopping.
Context `{Environment} `{Host}.

Lemma scanner_stop_run self scanner :
  BluetoothManager.scanner self = Some scanner →
  scanner_stop self
  = match driver_stop with
    | Some ex => Run self [] (Raises ex)
    | None =>
        Run (BluetoothManager.with_scanner (Some (stopped scanner)) self) []
          (Returns tt)
    end.
Proof.
  intros Hsc. unfold scanner_stop. destruct driver_stop as [ex|]; [done|].
  by rewrite (lift_run _ _ _ (update_scanner_run _ self scanner Hsc)).
Qed.

(** [async_stop] from its second statement on. *)
Lemma stop_tracker_and_driver_run (self : BluetoothManager) :
  (self ← lift get;
   (if BluetoothManager._cancel_unavailable_tracking self then
      emit_lifecycle CancelledTimeInterval;;
      lift (modify (BluetoothManager.with_cancel_unavailable_tracking false))
    else mret tt);;
   self ← lift get;
   match BluetoothManager.scanner self with
   | Some _ => scanner_stop
   | None => mret tt
   end;;
   emit_lifecycle UninstalledMultipleBleakCatcher) self
  = stop_tracker_and_driver self.
Proof.
  rewrite (L_bind_run _ _ _ _ (lift_run _ _ _ (get_run self))).
  cbn [value state events result after trace fmap list_fmap app].
  unfold stop_tracker_and_driver.
  set (cancelled := if BluetoothManager._cancel_unavailable_tracking self
                    then [CancelledTimeInterval] else []).
  set (self' := if BluetoothManager._cancel_unavailable_tracking self
                then BluetoothManager.with_cancel_unavailable_tracking false
                       self
                else self).
  assert ((if BluetoothManager._cancel_unavailable_tracking self then
             emit_lifecycle CancelledTimeInterval;;
             lift (modify
                     (BluetoothManager.with_cancel_unavailable_tracking false))
           else mret tt) self
          = Run self' cancelled (Returns tt)) as Htimer.
  { subst self' cancelled.
    by destruct (BluetoothManager._cancel_unavailable_tracking self). }
  rewrite (L_bind_run _ _ _ _ Htimer).
  cbn [value state events result after trace fmap list_fmap app].
  rewrite (L_bind_run _ _ _ _ (lift_run _ _ _ (get_run self'))).
  cbn [value state events result after trace fmap list_fmap app].
  destruct (BluetoothManager.scanner self') as [scanner|] eqn:Hsc.
  - rewrite (L_bind_run _ _ _ _ (scanner_stop_run self' scanner Hsc)).
    destruct driver_stop as [ex|];
      cbn [value state events result after trace fmap list_fmap app
           emit_lifecycle].
    + by rewrite !app_nil_r.
    + done.
  - done.
Qed.

(** [async_stop], statement by statement. *)
Lemma stop_run self :
  async_stop self
  = match BluetoothManager._cancel_device_detected self with
    | Some cancel =>
        match BluetoothManager.scanner self with
        | None =>
            Run self []
              (Raises (PyExc AttributeError
                         "'NoneType' object has no attribute"))
        | Some scanner =>
            match list_remove cancel (HaBleakScanner._callbacks scanner) with
            | None =>
                Run self []
                  (Raises (PyExc ValueError "list.remove(x): x not in list"))
            | Some callbacks =>
                stop_tracker_and_driver
                  (BluetoothManager.with_cancel_device_detected None
                     (BluetoothManager.with_scanner
                        (Some (HaBleakScanner.with_callbacks callbacks scanner))
                        self))
            end
        end
    | None => stop_tracker_and_driver self
    end.
Proof.
  unfold async_stop.
  rewrite (L_bind_run _ _ _ _ (lift_run _ _ _ (get_run self))).
  cbn [value state events result after trace fmap list_fmap app].
  destruct (BluetoothManager._cancel_device_detected self) as [cancel|].
  - pose proof (scanner_remove_callback_run cancel self) as Hremove.
    destruct (BluetoothManager.scanner self) as [scanner|];
      [destruct (list_remove cancel (HaBleakScanner._callbacks scanner))
         as [callbacks|]|].
    + rewrite (L_bind_run _ _ _ _
                 (L_bind_run _ _ _ _ (lift_run _ _ _ Hremove))).
      cbn [value state events result after trace fmap list_fmap app lift
           modify].
      rewrite stop_tracker_and_driver_run.
      by destruct (stop_tracker_and_driver _).
    + by rewrite (L_bind_run _ _ _ _
                    (L_bind_run _ _ _ _ (lift_run _ _ _ Hremove))).
    + by rewrite (L_bind_run _ _ _ _
                    (L_bind_run _ _ _ _ (lift_run _ _ _ Hremove))).
  - assert (mret (M := L BluetoothManager) tt self = Run self [] (Returns tt))
      as Hret by done.
    rewrite (L_bind_run _ _ _ _ Hret).
    cbn [value state events result after trace fmap list_fmap app].
    rewrite stop_tracker_and_driver_run.
    by destruct (stop_tracker_and_driver _).
Qed.

(** X22.  A stop after a start that succeeded, for a scanner with which the
    manager's listener was not registered before the start.  The listener
    is taken from the scanner, which has the listeners it had before the
    start, the timer of the tracker is cancelled, and the manager has let go
    of both handles; all this before the driver is asked to stop.  If the
    driver stops, the scanner is no longer started, the compatibility shim
    is taken out and [async_stop] returns; if it raises, the exception
    passes through, the scanner counts as started and the shim stays.  The
    subscriptions, the unavailability callbacks, the match cache and the
    history are those before the start. *)
Theorem stop_after_start (self : BluetoothManager) (scanner : HaBleakScanner)
    (scanning_mode : BluetoothScanningMode) :
  BluetoothManager.scanner self = Some scanner →
  device_detected_of_manager ∉ HaBleakScanner._callbacks scanner →
  driver_async_setup (SCANNING_MODE_TO_BLEAK scanning_mode) = None →
  driver_start = None →
  let r := async_stop (after (async_start scanning_mode self)) in
  (∃ scanner',
     BluetoothManager.scanner (state r) = Some scanner'
     ∧ HaBleakScanner._callbacks scanner' = HaBleakScanner._callbacks scanner
     ∧ HaBleakScanner.history scanner' = HaBleakScanner.history scanner)
  ∧ BluetoothManager._cancel_device_detected (state r) = None
  ∧ BluetoothManager._cancel_unavailable_tracking (state r) = false
  ∧ BluetoothManager._callbacks (state r) = BluetoothManager._callbacks self
  ∧ BluetoothManager._unavailable_callbacks (state r)
    = BluetoothManager._unavailable_callbacks self
  ∧ BluetoothManager._matched (state r) = BluetoothManager._matched self
  ∧ (driver_stop = None →
     value r = Returns tt
     ∧ events r = [CancelledTimeInterval; UninstalledMultipleBleakCatcher]
     ∧ HaBleakScanner.started <$> BluetoothManager.scanner (state r)
       = Some false)
  ∧ (∀ ex,
       driver_stop = Some ex →
       value r = Raises ex
       ∧ events r = [CancelledTimeInterval]
       ∧ HaBleakScanner.started <$> BluetoothManager.scanner (state r)
         = Some true).
Proof.
  intros Hsc Hnot Hsetup Hstart r. subst r.
  rewrite (start_run scanning_mode self scanner Hsc Hsetup)
    by (by rewrite Hstart).
  rewrite Hstart. cbn [after]. rewrite stop_run.
  cbn [BluetoothManager._cancel_device_detected BluetoothManager.scanner
       BluetoothManager.with_cancel_unavailable_tracking
       BluetoothManager.with_scanner listening
       BluetoothManager.with_cancel_device_detected
       HaBleakScanner._callbacks HaBleakScanner.with_started
       HaBleakScanner.with_callbacks].
  rewrite list_remove_fresh by done.
  unfold stop_tracker_and_driver.
  cbn [BluetoothManager._cancel_device_detected BluetoothManager.scanner
       BluetoothManager._cancel_unavailable_tracking
       BluetoothManager.with_cancel_unavailable_tracking
       BluetoothManager.with_scanner
       BluetoothManager.with_cancel_device_detected].
  destruct driver_stop as [ex|]; cbn [state events value app].
  - split_and!; try done.
    + eexists. split; [reflexivity|]. by split_and!.
    + by intros ? [= <-].
  - split_and!; try done. eexists. split; [reflexivity|]. by split_and!.
Qed.

(** X24.  The handle that the handler of [async_start] has called stays with
    the manager.  A stop after a start that failed because the driver could
    not be started calls it again, and it raises [ValueError]: the driver is
    not asked to stop, the compatibility shim is not taken out, nothing
    changes.  This is for a scanner with which the manager's listener was
    not registered before the start. *)
Theorem stop_after_a_failed_start (self : BluetoothManager)
    (scanner : HaBleakScanner) (scanning_mode : BluetoothScanningMode)
    (ex : pyexc) :
  BluetoothManager.scanner self = Some scanner →
  device_detected_of_manager ∉ HaBleakScanner._callbacks scanner →
  driver_async_setup (SCANNING_MODE_TO_BLEAK scanning_mode) = None →
  driver_start = Some ex →
  isinstance_FileNotFoundError_BleakError ex = true →
  let failed := after (async_start scanning_mode self) in
  BluetoothManager._cancel_device_detected failed
  = Some device_detected_of_manager
  ∧ async_stop failed
    = Run failed [] (Raises (PyExc ValueError "list.remove(x): x not in list")).
Proof.
  intros Hsc Hnot Hsetup Hstart Hex failed. subst failed.
  rewrite (start_listen_failure scanning_mode self scanner ex
             (HaBleakScanner._callbacks scanner) Hsc Hsetup Hstart Hex)
    by (by apply list_remove_fresh).
  cbn [after]. split; [done|]. rewrite stop_run.
  cbn [BluetoothManager._cancel_device_detected BluetoothManager.scanner
       BluetoothManager.with_scanner
       BluetoothManager.with_cancel_device_detected
       HaBleakScanner._callbacks HaBleakScanner.with_callbacks].
  by rewrite list_remove_None.
Qed.

End Stopping.

(** The end of [async_stop] at a manager that has no handle left: the
    driver, if there is a scanner, and the compatibility shim. *)
Lemma stop_without_handles (host : Host) (self : BluetoothManager) :
  BluetoothManager._cancel_device_detected self = None →
  BluetoothManager._cancel_unavailable_tracking self = false →
  @async_stop host self
  = match BluetoothManager.scanner self, @driver_stop host with
    | Some _, Some ex => Run self [] (Raises ex)
    | Some scanner, None =>
        Run (BluetoothManager.with_scanner (Some (stopped scanner)) self)
          [UninstalledMultipleBleakCatcher] (Returns tt)
    | None, _ => Run self [UninstalledMultipleBleakCatcher] (Returns tt)
    end.
Proof.
  intros Hcancel Htimer. rewrite stop_run, Hcancel.
  unfold stop_tracker_and_driver. rewrite Htimer.
  destruct (BluetoothManager.scanner self) as [scanner|]; [|done].
  by destruct driver_stop.
Qed.

(** What a stop that returned leaves: no handle, and a scanner, if there is
    one, that is not started. *)
Lemma stop_returned (host : Host) (self : BluetoothManager) :
  value (@async_stop host self) = Returns tt →
  BluetoothManager._cancel_device_detected (state (@async_stop host self))
  = None
  ∧ BluetoothManager._cancel_unavailable_tracking
      (state (@async_stop host self)) = false
  ∧ (BluetoothManager.scanner self = None →
     BluetoothManager.scanner (state (@async_stop host self)) = None)
  ∧ (is_Some (BluetoothManager.scanner self) →
     ∃ scanner,
       BluetoothManager.scanner (state (@async_stop host self)) = Some scanner
       ∧ HaBleakScanner.started scanner = false).
Proof.
  assert (∀ self1,
            value (stop_tracker_and_driver self1) = Returns tt →
            BluetoothManager._cancel_device_detected self1 = None →
            BluetoothManager._cancel_device_detected
              (state (stop_tracker_and_driver self1)) = None
            ∧ BluetoothManager._cancel_unavailable_tracking
                (state (stop_tracker_and_driver self1)) = false
            ∧ (BluetoothManager.scanner self1 = None →
               BluetoothManager.scanner (state (stop_tracker_and_driver self1))
               = None)
            ∧ (is_Some (BluetoothManager.scanner self1) →
               ∃ scanner,
                 BluetoothManager.scanner
                   (state (stop_tracker_and_driver self1)) = Some scanner
                 ∧ HaBleakScanner.started scanner = false)) as Hrest.
  { intros self1. unfold stop_tracker_and_driver.
    destruct self1 as [matchers [scanner|] cancel [] unavailable callbacks
                         matched];
      cbn [BluetoothManager._cancel_device_detected BluetoothManager.scanner
           BluetoothManager._cancel_unavailable_tracking
           BluetoothManager.with_cancel_unavailable_tracking
           BluetoothManager.with_scanner];
      destruct driver_stop as [ex|]; try done;
      intros _ ->; cbn; split_and!; try done;
      try (intros _; by eexists); by intros [? ?]. }
  rewrite stop_run.
  destruct (BluetoothManager._cancel_device_detected self) as [cancel|] eqn:Hc.
  - destruct (BluetoothManager.scanner self) as [scanner|]; [|done].
    destruct (list_remove cancel (HaBleakScanner._callbacks scanner))
      as [callbacks|]; [|done].
    intros Hreturns.
    destruct (Hrest _ Hreturns eq_refl) as (Hnone & Htimer & _ & Hsome).
    split_and!; [done|done|done|]. intros _. apply Hsome. by eexists.
  - intros Hreturns. by apply Hrest.
Qed.

(** X23.  A second stop finds no handle to call.  After a stop that
    returned, the manager holds neither the handle of its listener nor that
    of the timer, so a second stop, whatever the driver answers by then,
    calls no handle and cancels no timer.  With a scanner it asks the driver
    to stop once more: if the driver stops, the compatibility shim is taken
    out once more and the stop returns; if the driver raises, the exception
    passes through and the shim is not taken out.  Without a scanner the
    driver is not asked, the shim is taken out and the stop returns.
    Either way the manager is as the first stop left it. *)
Theorem stop_twice (first second : Host) (self : BluetoothManager) :
  value (@async_stop first self) = Returns tt →
  let r := @async_stop first self in
  let r' := @async_stop second (state r) in
  BluetoothManager._cancel_device_detected (state r) = None
  ∧ BluetoothManager._cancel_unavailable_tracking (state r) = false
  ∧ state r' = state r
  ∧ (CancelledTimeInterval ∉ events r')
  ∧ match BluetoothManager.scanner self, @driver_stop second with
    | Some _, Some ex => value r' = Raises ex ∧ events r' = []
    | _, _ =>
        value r' = Returns tt ∧ events r' = [UninstalledMultipleBleakCatcher]
    end.
Proof.
  intros Hreturns r r'. subst r r'.
  destruct (stop_returned first self Hreturns)
    as (Hcancel & Htimer & Hnone & Hsome).
  rewrite (stop_without_handles second _ Hcancel Htimer).
  destruct (BluetoothManager.scanner self) as [scanner|] eqn:Hsc.
  - destruct Hsome as (scanner' & Hsc' & Hstopped); [by eexists|].
    rewrite Hsc'.
    assert (BluetoothManager.with_scanner (Some (stopped scanner'))
              (state (@async_stop first self))
            = state (@async_stop first self)) as Hsame.
    { destruct (state (@async_stop first self)). simpl in Hsc'. subst.
      destruct scanner'. simpl in Hstopped. by subst. }
    destruct (@driver_stop second) as [ex|]; cbn [state events value].
    + split_and!; try done. apply not_elem_of_nil.
    + rewrite Hsame. split_and!; try done.
      by intros [=]%list_elem_of_singleton.
  - rewrite (Hnone eq_refl).
    cbn [state events value]. split_and!; try done.
    by intros [=]%list_elem_of_singleton.
Qed.

(** A start and a stop at a manager after [async_setup], with a driver that
    stops, and the same with a driver that does not. *)
Lemma stop_after_start_witness :
  value (@async_stop linux_host (after (@async_start quiet ACTIVE set_up)))
  = Returns tt
  ∧ events (@async_stop linux_host (after (@async_start quiet ACTIVE set_up)))
    = [CancelledTimeInterval; UninstalledMultipleBleakCatcher]
  ∧ value (@async_stop stop_fails (after (@async_start quiet ACTIVE set_up)))
    = Raises (PyExc BleakError "adapter gone")
  ∧ events (@async_stop stop_fails (after (@async_start quiet ACTIVE set_up)))
    = [CancelledTimeInterval].
Proof.
  destruct (@stop_after_start quiet linux_host set_up HaBleakScanner.new
              ACTIVE)
    as (_ & _ & _ & _ & _ & _ & Hstops & _).
  { reflexivity. }
  { apply not_elem_of_nil. }
  { reflexivity. }
  { reflexivity. }
  destruct (@stop_after_start quiet stop_fails set_up HaBleakScanner.new
              ACTIVE)
    as (_ & _ & _ & _ & _ & _ & _ & Hraises).
  { reflexivity. }
  { apply not_elem_of_nil. }
  { reflexivity. }
  { reflexivity. }
  destruct (Hstops eq_refl) as (Hvalue & Hevents & _).
  destruct (Hraises (PyExc BleakError "adapter gone") eq_refl)
    as (Hvalue' & Hevents' & _).
  split_and!; [exact Hvalue|exact Hevents|exact Hvalue'|exact Hevents'].
Defined.

(** Two stops at the manager [tracking], whose scanner has the manager's
    listener and is started: the driver stops the first time; the second
    time it stops again, or it raises. *)
Lemma stop_twice_witness :
  events (@async_stop linux_host
            (state (@async_stop linux_host
                      (BluetoothManager.with_cancel_device_detected
                         (Some device_detected_of_manager) tracking))))
  = [UninstalledMultipleBleakCatcher]
  ∧ value (@async_stop stop_fails
             (state (@async_stop linux_host
                       (BluetoothManager.with_cancel_device_detected
                          (Some device_detected_of_manager) tracking))))
    = Raises (PyExc BleakError "adapter gone").
Proof.
  split.
  - apply (stop_twice linux_host linux_host
             (BluetoothManager.with_cancel_device_detected
                (Some device_detected_of_manager) tracking)).
    reflexivity.
  - apply (stop_twice linux_host stop_fails
             (BluetoothManager.with_cancel_device_detected
                (Some device_detected_of_manager) tracking)).
    reflexivity.
Defined.

(** A stop after a start with a driver that cannot be started. *)
Lemma stop_after_a_failed_start_witness :
  value (@async_stop linux_host (after (@async_start start_fails ACTIVE set_up)))
  = Raises (PyExc ValueError "list.remove(x): x not in list")
  ∧ events (@async_stop linux_host
              (after (@async_start start_fails ACTIVE set_up))) = [].
Proof.
  destruct (@stop_after_a_failed_start start_fails linux_host set_up
              HaBleakScanner.new ACTIVE (PyExc BleakError "adapter busy"))
    as [_ Hstop].
  - reflexivity.
  - apply not_elem_of_nil.
  - reflexivity.
  - reflexivity.
  - reflexivity.
  - by rewrite Hstop.
Defined.

(** ** The functions of the module *)

Section Module.
Context `{Environment} `{Host}.

Lemma setup_run config data :
  bluetooth.async_setup config data
  = Run (Some loaded)
      (if bool_decide (async_entries ≠ []) then []
       else if bool_decide (DOMAIN ∈ config) then
         [InitFlow DOMAIN SOURCE_IMPORT]
       else if bluetooth._async_has_bluetooth_adapter then
         [InitFlow DOMAIN SOURCE_INTEGRATION_DISCOVERY]
       else [])
      (Returns true).
Proof. done. Qed.

(** X26.  The set-up of the component returns [True] and starts at most one
    flow, a flow of the component itself.  It starts none when the component
    has a config entry.  Without an entry it starts the import flow exactly
    when the configuration has the key of the component, whatever the
    adapters; and the discovery flow exactly when the configuration has not
    and there is an adapter: always on macOS, never on Windows, and
    elsewhere when [get_bluetooth_adapters] finds one. *)
Theorem setup_starts_at_most_one_flow (config : gset string)
    (data : option BluetoothManager) :
  let r := bluetooth.async_setup config data in
  value r = Returns true
  ∧ (length (events r) ≤ 1)%nat
  ∧ (∀ e, e ∈ events r → ∃ source, e = InitFlow DOMAIN source)
  ∧ (InitFlow DOMAIN SOURCE_IMPORT ∈ events r
     ↔ async_entries = [] ∧ DOMAIN ∈ config)
  ∧ (InitFlow DOMAIN SOURCE_INTEGRATION_DISCOVERY ∈ events r
     ↔ async_entries = []
       ∧ (DOMAIN ∉ config)
       ∧ (platform_system = "Darwin"
          ∨ (platform_system ≠ "Windows" ∧ get_bluetooth_adapters ≠ []))).
Proof.
  intros r. subst r. rewrite setup_run. cbn [value events].
  unfold bluetooth._async_has_bluetooth_adapter.
  destruct async_entries as [|entry entries].
  2:{ rewrite bool_decide_eq_true_2 by done. split_and!; [done|simpl; lia| | |].
      - by intros e ?%elem_of_nil.
      - split; [by intros ?%elem_of_nil|by intros [? _]].
      - split; [by intros ?%elem_of_nil|by intros [? _]]. }
  rewrite bool_decide_eq_false_2 by (by intros ?).
  destruct (decide (DOMAIN ∈ config)) as [Hin|Hnot].
  { rewrite bool_decide_eq_true_2 by done.
    split_and!; [done|simpl; lia| | |].
    - intros e ->%list_elem_of_singleton. by eexists.
    - split; [done|]. intros _. apply list_elem_of_singleton. done.
    - split; [by intros [=]%list_elem_of_singleton|]. by intros (_ & ? & _). }
  rewrite bool_decide_eq_false_2 by done.
  destruct (String.eqb_spec platform_system "Darwin") as [Hmac|Hmac].
  { split_and!; [done|simpl; lia| | |].
    - intros e ->%list_elem_of_singleton. by eexists.
    - split; [by intros [=]%list_elem_of_singleton|]. by intros [_ ?].
    - split; [by auto|]. intros _. by apply list_elem_of_singleton. }
  destruct (String.eqb_spec platform_system "Windows") as [Hwin|Hwin].
  { split_and!; [done|simpl; lia| | |].
    - by intros e ?%elem_of_nil.
    - split; [by intros ?%elem_of_nil|by intros [_ ?]].
    - split; [by intros ?%elem_of_nil|].
      intros (_ & _ & [?|(? & _)]); done. }
  destruct (decide (get_bluetooth_adapters = [])) as [Hno|Hsome].
  { rewrite bool_decide_eq_false_2 by (by intros ?).
    split_and!; [done|simpl; lia| | |].
    - by intros e ?%elem_of_nil.
    - split; [by intros ?%elem_of_nil|by intros [_ ?]].
    - split; [by intros ?%elem_of_nil|].
      intros (_ & _ & [?|(_ & ?)]); done. }
  rewrite bool_decide_eq_true_2 by done.
  split_and!; [done|simpl; lia| | |].
  - intros e ->%list_elem_of_singleton. by eexists.
  - split; [by intros [=]%list_elem_of_singleton|]. by intros [_ ?].
  - split; [intros _|intros _; by apply list_elem_of_singleton].
    split_and!; [done|done|by right].
Qed.

(** X27.  Right after the set-up of the component nothing is discovered
    yet.  [hass.data] holds a new manager with the matchers of the
    integrations and a new scanner, whatever it held before; for every
    address the lookups find nothing, and they raise nothing;
    [async_get_scanner] returns a wrapper; and a registration returns its
    handle without invoking the callback, whatever its matcher. *)
Theorem nothing_is_discovered_right_after_setup (config : gset string)
    (data : option BluetoothManager) (address : string)
    (cb : BluetoothCallback) (match_dict : option BluetoothCallbackMatcher) :
  let data' := state (bluetooth.async_setup config data) in
  (∃ manager,
     data' = Some manager
     ∧ BluetoothManager._integration_matchers manager = async_get_bluetooth
     ∧ BluetoothManager.scanner manager = Some HaBleakScanner.new
     ∧ BluetoothManager._callbacks manager = []
     ∧ BluetoothManager._unavailable_callbacks manager = ∅)
  ∧ bluetooth.async_discovered_service_info data' = Run data' [] (Returns [])
  ∧ bluetooth.async_ble_device_from_address address data'
    = Run data' [] (Returns None)
  ∧ bluetooth.async_address_present address data'
    = Run data' [] (Returns false)
  ∧ bluetooth.async_get_scanner data'
    = Run data' [] (Returns HaBleakScannerWrapper_new)
  ∧ value (bluetooth.async_register_callback cb match_dict data')
    = Returns (cb, match_dict)
  ∧ events (bluetooth.async_register_callback cb match_dict data') = [].
Proof.
  intros data'. subst data'. rewrite setup_run. cbn [state]. split_and!.
  - by exists loaded.
  - unfold bluetooth.async_discovered_service_info, bluetooth.on_manager.
    rewrite (lift_run _ _ _ (discovered_service_info_run loaded)).
    cbn. unfold values. by rewrite map_to_list_empty.
  - unfold bluetooth.async_ble_device_from_address, bluetooth.on_manager.
    by rewrite (lift_run _ _ _ (device_from_address_run address loaded)).
  - unfold bluetooth.async_address_present, bluetooth.on_manager.
    by rewrite (lift_run _ _ _ (address_present_run address loaded)).
  - done.
  - unfold bluetooth.async_register_callback, bluetooth.on_manager.
    rewrite (lift_run _ _ _ (register_run cb match_dict loaded)).
    cbv zeta.
    assert (replayed loaded match_dict = None) as ->; [|done].
    unfold replayed. destruct match_dict as [matcher|]; [|done].
    destruct (Matcher.truthy matcher); [|done].
    destruct (Matcher.address matcher) as [a|]; [|done].
    by destruct (str_truthy a).
  - unfold bluetooth.async_register_callback, bluetooth.on_manager.
    rewrite (lift_run _ _ _ (register_run cb match_dict loaded)).
    cbv zeta.
    assert (replayed loaded match_dict = None) as ->; [|done].
    unfold replayed. destruct match_dict as [matcher|]; [|done].
    destruct (Matcher.truthy matcher); [|done].
    destruct (Matcher.address matcher) as [a|]; [|done].
    by destruct (str_truthy a).
Qed.

Lemma setup_entry_run manager scanner :
  BluetoothManager.scanner manager = Some scanner →
  driver_async_setup (SCANNING_MODE_TO_BLEAK ACTIVE) = None →
  driver_start = None →
  bluetooth.async_setup_entry (Some manager)
  = Run (Some (started ACTIVE scanner manager)) (OfManager <$> start_events)
      (Returns true).
Proof.
  intros Hsc Hsetup Hstart.
  unfold bluetooth.async_setup_entry, bluetooth.on_manager.
  pose proof (start_run ACTIVE manager scanner Hsc Hsetup) as Hrun.
  rewrite Hstart in Hrun. specialize (Hrun ltac:(done)). cbv zeta in Hrun.
  rewrite (L_bind_run _ _ _ _ (lift_run _ _ _ Hrun)).
  cbn [value state events result after trace app]. by rewrite app_nil_r.
Qed.

Lemma unload_entry_run manager :
  bluetooth.async_unload_entry (Some manager)
  = Run (Some (state (async_stop manager))) (events (async_stop manager))
      (match value (async_stop manager) with
       | Returns _ => Returns true
       | Raises ex => Raises ex
       end).
Proof.
  unfold bluetooth.async_unload_entry, bluetooth.on_manager.
  rewrite (L_bind_run _ _ _ _ eq_refl).
  destruct (value (async_stop manager)); cbn [value state events]; [|done].
  by rewrite app_nil_r.
Qed.

(** X28.  The set-up of a config entry starts the manager that the set-up
    of the component has stored, in the active mode: with a driver that is
    set up and starts it returns [True], and the scanner is started with the
    manager's listener as its only listener.  A failure of the start is
    not handled here: the [RuntimeError] and the [ConfigEntryNotReady] of
    [async_start] pass through, and the manager stays in [hass.data]. *)
Theorem setup_entry_starts_the_manager (config : gset string)
    (data : option BluetoothManager) :
  let r :=
    bluetooth.async_setup_entry (state (bluetooth.async_setup config data)) in
  (driver_async_setup "active" = None →
   driver_start = None →
   value r = Returns true
   ∧ events r = OfManager <$> start_events
   ∧ ∃ manager scanner,
       state r = Some manager
       ∧ BluetoothManager.scanner manager = Some scanner
       ∧ HaBleakScanner.scanning_mode scanner = Some "active"
       ∧ HaBleakScanner._callbacks scanner = [device_detected_of_manager]
       ∧ HaBleakScanner.started scanner = true
       ∧ BluetoothManager._cancel_unavailable_tracking manager = true)
  ∧ (∀ ex,
       isinstance_FileNotFoundError_BleakError ex = true →
       (driver_async_setup "active" = Some ex →
        r = Run (Some loaded) []
              (Raises (PyExc RuntimeError
                         ("Failed to initialize Bluetooth: " +:+ exc_str ex))))
       ∧ (driver_async_setup "active" = None →
          driver_start = Some ex →
          value r
          = Raises (PyExc ConfigEntryNotReady
                      ("Failed to start Bluetooth: " +:+ exc_str ex))
          ∧ ∃ manager, state r = Some manager)).
Proof.
  intros r. subst r. rewrite setup_run. cbn [state]. split.
  - intros Hsetup Hstart.
    rewrite (setup_entry_run loaded HaBleakScanner.new eq_refl Hsetup Hstart).
    cbn [value events state]. split_and!; [done|done|].
    eexists _, _. split; [reflexivity|]. by split_and!.
  - intros ex Hex. split.
    + intros Hsetup.
      unfold bluetooth.async_setup_entry, bluetooth.on_manager.
      rewrite (L_bind_run _ _ _ _
                 (lift_run _ _ _
                    (start_setup_failure ACTIVE loaded HaBleakScanner.new ex
                       eq_refl Hsetup Hex))).
      done.
    + intros Hsetup Hstart.
      unfold bluetooth.async_setup_entry, bluetooth.on_manager.
      rewrite (L_bind_run _ _ _ _
                 (lift_run _ _ _
                    (start_listen_failure ACTIVE loaded HaBleakScanner.new ex
                       [] eq_refl Hsetup Hstart Hex eq_refl))).
      cbn [value state events result after trace].
      split; [done|]. by eexists.
Qed.

(** The stop of a manager that has been started. *)
Lemma stop_started scanning_mode manager scanner :
  device_detected_of_manager ∉ HaBleakScanner._callbacks scanner →
  driver_stop = None →
  async_stop (started scanning_mode scanner manager)
  = Run
      (BluetoothManager.mk (BluetoothManager._integration_matchers manager)
         (Some (HaBleakScanner.mk (HaBleakScanner.history scanner)
                  (HaBleakScanner.discovered_devices scanner)
                  (Some (SCANNING_MODE_TO_BLEAK scanning_mode)) true
                  (HaBleakScanner._callbacks scanner) false))
         None false (BluetoothManager._unavailable_callbacks manager)
         (BluetoothManager._callbacks manager)
         (BluetoothManager._matched manager))
      [CancelledTimeInterval; UninstalledMultipleBleakCatcher] (Returns tt).
Proof.
  intros Hnot Hstop. rewrite stop_run. unfold started, listening.
  cbn [BluetoothManager._cancel_device_detected BluetoothManager.scanner
       BluetoothManager.with_cancel_unavailable_tracking
       BluetoothManager.with_scanner
       BluetoothManager.with_cancel_device_detected
       HaBleakScanner._callbacks HaBleakScanner.with_started
       HaBleakScanner.with_callbacks].
  rewrite list_remove_fresh by done.
  unfold stop_tracker_and_driver.
  cbn [BluetoothManager._cancel_device_detected BluetoothManager.scanner
       BluetoothManager._cancel_unavailable_tracking
       BluetoothManager.with_cancel_unavailable_tracking
       BluetoothManager.with_scanner
       BluetoothManager.with_cancel_device_detected].
  by rewrite Hstop.
Qed.

(** X29.  A config entry can be reloaded.  When the driver is set up,
    starts and stops, setting the entry up, unloading it and setting it up
    again returns [True] and leaves the manager as the first set-up left it,
    the manager's listener registered once; in between, the timer of the
    tracker was cancelled and the compatibility shim taken out.  This is
    for a scanner with which the manager's listener was not registered
    before. *)
Theorem an_entry_can_be_reloaded (manager : BluetoothManager)
    (scanner : HaBleakScanner) :
  BluetoothManager.scanner manager = Some scanner →
  device_detected_of_manager ∉ HaBleakScanner._callbacks scanner →
  driver_async_setup (SCANNING_MODE_TO_BLEAK ACTIVE) = None →
  driver_start = None →
  driver_stop = None →
  let first := bluetooth.async_setup_entry (Some manager) in
  let r := reload (Some manager) in
  value r = Returns true
  ∧ state r = state first
  ∧ events r
    = events first
      ++ [CancelledTimeInterval; UninstalledMultipleBleakCatcher]
      ++ events first.
Proof.
  intros Hsc Hnot Hsetup Hstart Hstop first r. subst first r. unfold reload.
  pose proof (setup_entry_run manager scanner Hsc Hsetup Hstart) as Hfirst.
  pose proof (unload_entry_run (started ACTIVE scanner manager)) as Hunload.
  rewrite (stop_started ACTIVE manager scanner Hnot Hstop) in Hunload.
  cbn [state events value] in Hunload.
  match type of Hunload with
  | _ = Run (Some ?m) _ _ =>
      let sc := eval cbn in (BluetoothManager.scanner m) in
      match sc with
      | Some ?s =>
          pose proof (setup_entry_run m s eq_refl Hsetup Hstart) as Hsecond
      end
  end.
  rewrite (L_bind_returns _ _ _ _ _ _ Hfirst). cbv beta.
  rewrite (L_bind_returns _ _ _ _ _ _ Hunload). cbv beta.
  rewrite Hsecond, Hfirst. cbn [value state events].
  split_and!; [done|reflexivity|done].
Qed.

End Module.

(** The reload at a manager after the set-up of the component on a Linux
    host. *)
Lemma an_entry_can_be_reloaded_witness :
  value (@reload quiet linux_host (Some (@loaded linux_host))) = Returns true
  ∧ state (@reload quiet linux_host (Some (@loaded linux_host)))
    = state (@bluetooth.async_setup_entry quiet (Some (@loaded linux_host))).
Proof.
  destruct (@an_entry_can_be_reloaded quiet linux_host (@loaded linux_host)
              HaBleakScanner.new)
    as (Hvalue & Hstate & _).
  - reflexivity.
  - apply not_elem_of_nil.
  - reflexivity.
  - reflexivity.
  - reflexivity.
  - split; [exact Hvalue|exact Hstate].
Defined.

(** ** The loop over the list itself *)

Section Live.
Context `{Environment}.

#[local] Arguments match_domains : simpl never.
#[local] Arguments dispatch_one : simpl never.
#[local] Arguments dispatch_one_live : simpl never.
#[local] Arguments dispatch_live : simpl never.

Lemma dispatch_live_step invoke fuel index device advertisement_data acc self :
  dispatch_live invoke (S fuel) index device advertisement_data acc self
  = match BluetoothManager._callbacks self !! index with
    | None => Outcome self [] (Returns (Some acc))
    | Some entry =>
        bind (dispatch_one_live invoke device advertisement_data acc entry)
          (dispatch_live invoke fuel (S index) device advertisement_data) self
    end.
Proof.
  unfold dispatch_live at 1; fold dispatch_live.
  unfold mbind, M_bind. rewrite (bind_run _ _ _ _ (get_run self)).
  cbn [result after trace app].
  destruct (BluetoothManager._callbacks self !! index) as [entry|]; [|done].
  unfold bind.
  by destruct (result (dispatch_one_live invoke device advertisement_data acc
                         entry self)).
Qed.

(** The body of the loop for a subscriber that leaves the manager alone. *)
Lemma dispatch_one_live_inert invoke device advertisement_data acc entry self :
  acc = None ∨ acc = Some (info_of device advertisement_data) →
  (subscribed device advertisement_data entry = true →
   invoke entry.1 (info_of device advertisement_data) ADVERTISEMENT
   = inert entry.1 (info_of device advertisement_data) ADVERTISEMENT) →
  dispatch_one_live invoke device advertisement_data acc entry self
  = dispatch_one device advertisement_data acc entry self.
Proof.
  intros Hacc Hinert. destruct entry as [cb matcher].
  unfold subscribed in Hinert. cbn [fst snd] in Hinert.
  unfold dispatch_one_live, dispatch_one, callback_live, callback.
  destruct (match matcher with
            | Some m => _ble_device_matches m device advertisement_data
            | None => true
            end); [|done].
  assert (match acc with
          | Some service_info => service_info
          | None =>
              BluetoothServiceInfoBleak.from_advertisement device
                advertisement_data SOURCE_LOCAL
          end = info_of device advertisement_data) as ->
    by (by destruct Hacc as [-> | ->]).
  by rewrite (Hinert eq_refl).
Qed.

(** The loop over the list itself, when the subscribers from [index] on
    leave the manager alone, is the loop over those items. *)
Lemma dispatch_live_inert invoke fuel index device advertisement_data acc
    self :
  (length (BluetoothManager._callbacks self) - index < fuel)%nat →
  acc = None ∨ acc = Some (info_of device advertisement_data) →
  (∀ entry,
     entry ∈ drop index (BluetoothManager._callbacks self) →
     subscribed device advertisement_data entry = true →
     invoke entry.1 (info_of device advertisement_data) ADVERTISEMENT
     = inert entry.1 (info_of device advertisement_data) ADVERTISEMENT) →
  let o :=
    for_each_with (drop index (BluetoothManager._callbacks self)) acc
      (dispatch_one device advertisement_data) self in
  dispatch_live invoke fuel index device advertisement_data acc self
  = Outcome self (trace o)
      (match result o with
       | Returns service_info => Returns (Some service_info)
       | Raises ex => Raises ex
       end).
Proof.
  revert index acc.
  induction fuel as [|fuel IH]; intros index acc Hfuel Hacc Hinert; [lia|].
  rewrite dispatch_live_step.
  destruct (BluetoothManager._callbacks self !! index) as [entry|] eqn:Hentry.
  - rewrite (drop_S _ _ _ Hentry) in *. cbv zeta.
    rewrite for_each_with_cons.
    rewrite (bind_run _ _ _ _ eq_refl), (bind_run _ _ _ _ eq_refl).
    rewrite dispatch_one_live_inert;
      [|done|apply Hinert; by left].
    pose proof (dispatch_one_service_info device advertisement_data acc entry
                  self) as Hnext.
    rewrite dispatch_one_after.
    destruct (result (dispatch_one _ _ acc entry self)) as [acc'|ex];
      [|done].
    rewrite IH.
    + rewrite for_each_with_after by apply dispatch_one_after. done.
    + apply lookup_lt_Some in Hentry. lia.
    + by apply Hnext.
    + intros e He. apply Hinert. by right.
  - apply lookup_ge_None in Hentry.
    by rewrite drop_ge by done.
Qed.

(** X30.  The loop of [_device_detected] iterates [self._callbacks] itself.
    When no subscriber calls back into the manager (each returns or raises,
    and that is all), the run over the list itself does what
    [_device_detected] of this development does, which iterates over the
    list as it is when the loop is entered: the manager afterwards, the
    events and the completion are the same, given fuel for one round more
    than there are subscriptions. *)
Theorem the_loop_over_the_list_itself (fuel : nat) (device : BLEDevice)
    (advertisement_data : AdvertisementData) (self : BluetoothManager) :
  (length (BluetoothManager._callbacks self) < fuel)%nat →
  let o := _device_detected device advertisement_data self in
  _device_detected_live inert fuel device advertisement_data self
  = Outcome (after o) (trace o)
      (match result o with
       | Returns _ => Returns (Some tt)
       | Raises ex => Raises ex
       end).
Proof.
  intros Hfuel o. subst o.
  set (self' := remembered self device advertisement_data).
  assert (BluetoothManager._callbacks self'
          = BluetoothManager._callbacks self) as Hcallbacks.
  { subst self'. unfold remembered.
    destruct (matched_domains_of _ _ _); [|done]. by case_decide. }
  pose proof (dispatch_live_inert inert fuel 0 device advertisement_data None
                self') as Hloop.
  rewrite Hcallbacks, drop_0 in Hloop.
  specialize (Hloop ltac:(lia) (or_introl eq_refl) (λ _ _ _, eq_refl)).
  cbv zeta in Hloop.
  unfold _device_detected_live, _device_detected, mbind, M_bind.
  rewrite !(bind_run _ _ _ _ (match_domains_run _ _ _)).
  cbn [result after trace app].
  rewrite !(bind_run _ _ _ _ (emit_run _ _)).
  cbn [result after trace app].
  rewrite !(bind_run _ _ _ _ (get_run _)).
  cbn [result after trace app]. fold self'. rewrite Hcallbacks.
  destruct (not_domains (matched_domains_of self device advertisement_data)
            && bool_decide (BluetoothManager._callbacks self = [])); [done|].
  rewrite (bind_run _ _ _ _ Hloop). cbn [result after trace app].
  rewrite (bind_run _ _ _ _ eq_refl).
  fold (dispatch (BluetoothManager._callbacks self) device advertisement_data).
  rewrite dispatch_after.
  destruct (result (dispatch _ _ _ self')) as [service_info|ex]; [|done].
  rewrite (bind_run _ _ _ _ eq_refl).
  match goal with
  | |- context [result ?c] => destruct c as [m t [[]|ex]]
  end; cbn [result after trace app]; by rewrite ?app_nil_r.
Qed.

(** The rounds of the loop over a stretch of subscribers that leave the
    manager alone and raise nothing but instances of [Exception]. *)
Lemma dispatch_live_stretch invoke fuel before stretch rest device
    advertisement_data acc self :
  BluetoothManager._callbacks self = before ++ stretch ++ rest →
  acc = None ∨ acc = Some (info_of device advertisement_data) →
  Forall (caught device advertisement_data) stretch →
  (∀ entry,
     entry ∈ stretch →
     subscribed device advertisement_data entry = true →
     invoke entry.1 (info_of device advertisement_data) ADVERTISEMENT
     = inert entry.1 (info_of device advertisement_data) ADVERTISEMENT) →
  ∃ acc',
    (acc' = None ∨ acc' = Some (info_of device advertisement_data))
    ∧ dispatch_live invoke (length stretch + fuel) (length before) device
        advertisement_data acc self
      = let o :=
          dispatch_live invoke fuel (length before + length stretch) device
            advertisement_data acc' self in
        Outcome (after o)
          ((stretch ≫= entry_events device advertisement_data) ++ trace o)
          (result o).
Proof.
  revert before acc.
  induction stretch as [|entry stretch IH];
    intros before acc Hcallbacks Hacc Hcaught Hinert.
  { exists acc. split; [done|]. cbn [length Nat.add mbind list_bind app].
    rewrite Nat.add_0_r. cbv zeta. by destruct (dispatch_live _ _ _ _ _ _ _). }
  apply Forall_cons in Hcaught as [Hentry Hcaught].
  change ((entry :: stretch) ++ rest) with (entry :: (stretch ++ rest))
    in Hcallbacks.
  destruct (dispatch_one_caught device advertisement_data acc entry self
              Hentry Hacc) as (acc1 & Hone & Hacc1).
  rewrite <- (dispatch_one_live_inert invoke) in Hone;
    [|done|apply Hinert; by left].
  destruct (IH (before ++ [entry]) acc1) as (acc' & Hacc' & Hrest);
    [by rewrite <- app_assoc|done|done|by intros e He; apply Hinert; right|].
  exists acc'. split; [done|].
  cbn [length Nat.add]. rewrite dispatch_live_step.
  rewrite Hcallbacks, list_lookup_middle by done.
  rewrite (bind_run _ _ _ _ Hone). cbn [result after trace].
  rewrite length_app in Hrest. cbn [length] in Hrest.
  rewrite Nat.add_1_r in Hrest. rewrite Hrest. cbv zeta.
  cbn [result after trace].
  replace (S (length before) + length stretch)%nat
    with (length before + S (length stretch))%nat by lia.
  change ((entry :: stretch) ≫= entry_events device advertisement_data)
    with (entry_events device advertisement_data entry
          ++ (stretch ≫= entry_events device advertisement_data)).
  by rewrite app_assoc.
Qed.

(** The body of the loop for a subscriber that calls its handle. *)
Lemma dispatch_one_live_unregisters invoke device advertisement_data acc entry
    self callbacks :
  acc = None ∨ acc = Some (info_of device advertisement_data) →
  subscribed device advertisement_data entry = true →
  invoke entry.1 (info_of device advertisement_data) ADVERTISEMENT
  = async_register_callback__async_remove_callback entry →
  list_remove entry (BluetoothManager._callbacks self) = Some callbacks →
  dispatch_one_live invoke device advertisement_data acc entry self
  = Outcome (BluetoothManager.with_callbacks callbacks self)
      [Called entry.1 (info_of device advertisement_data) ADVERTISEMENT]
      (Returns (Some (info_of device advertisement_data))).
Proof.
  intros Hacc Hsub Hinvoke Hremove.
  pose proof (remove_callback_run entry self) as Hrun.
  rewrite Hremove in Hrun.
  destruct entry as [cb matcher]. unfold subscribed in Hsub.
  cbn [fst snd] in *.
  unfold dispatch_one_live, callback_live. rewrite Hsub.
  assert (match acc with
          | Some service_info => service_info
          | None =>
              BluetoothServiceInfoBleak.from_advertisement device
                advertisement_data SOURCE_LOCAL
          end = info_of device advertisement_data) as ->
    by (by destruct Hacc as [-> | ->]).
  rewrite Hinvoke. unfold mbind, M_bind.
  assert (bind (emit (Called cb (info_of device advertisement_data)
                        ADVERTISEMENT))
            (λ _, async_register_callback__async_remove_callback (cb, matcher))
            self
          = Outcome (BluetoothManager.with_callbacks callbacks self)
              [Called cb (info_of device advertisement_data) ADVERTISEMENT]
              (Returns tt)) as Hcall.
  { rewrite (bind_run _ _ _ _ (emit_run _ _)). cbn [result after trace].
    by rewrite Hrun. }
  pose proof (try_except_run _ isinstance_Exception
                (λ _, emit (LoggedException "Error in bluetooth callback"))
                _ _ Hcall) as Htry.
  cbn [result] in Htry.
  by rewrite (bind_run _ _ _ _ Htry).
Qed.

(** The loop when one subscriber calls its handle. *)
Lemma dispatch_live_unregistering invoke fuel device advertisement_data self
    before entry next rest :
  BluetoothManager._callbacks self = before ++ entry :: next :: rest →
  entry ∉ before →
  subscribed device advertisement_data entry = true →
  invoke entry.1 (info_of device advertisement_data) ADVERTISEMENT
  = async_register_callback__async_remove_callback entry →
  Forall (caught device advertisement_data) (before ++ rest) →
  (∀ e,
     e ∈ before ++ rest →
     subscribed device advertisement_data e = true →
     invoke e.1 (info_of device advertisement_data) ADVERTISEMENT
     = inert e.1 (info_of device advertisement_data) ADVERTISEMENT) →
  (length (BluetoothManager._callbacks self) ≤ fuel)%nat →
  ∃ acc,
    (acc = None ∨ acc = Some (info_of device advertisement_data))
    ∧ dispatch_live invoke fuel 0 device advertisement_data None self
      = Outcome
          (BluetoothManager.with_callbacks (before ++ next :: rest) self)
          ((before ≫= entry_events device advertisement_data)
           ++ Called entry.1 (info_of device advertisement_data) ADVERTISEMENT
              :: (rest ≫= entry_events device advertisement_data))
          (Returns (Some acc)).
Proof.
  intros Hcallbacks Hfresh Hsub Hinvoke Hcaught Hinert Hfuel.
  apply Forall_app in Hcaught as [Hbefore Hrest].
  rewrite Hcallbacks, length_app in Hfuel. cbn [length] in Hfuel.
  set (self' := BluetoothManager.with_callbacks (before ++ next :: rest) self).
  destruct (dispatch_live_stretch invoke
              (S (length rest + S (fuel - length before - length rest - 2)))
              [] before (entry :: next :: rest) device advertisement_data
              None self)
    as (acc1 & Hacc1 & Hfirst);
    [done|by left|done|by intros e He; apply Hinert, elem_of_app; left|].
  destruct (dispatch_live_stretch invoke
              (S (fuel - length before - length rest - 2))
              (before ++ [next]) rest [] device advertisement_data
              (Some (info_of device advertisement_data)) self')
    as (acc2 & Hacc2 & Hsecond);
    [by rewrite app_nil_r, <- app_assoc|by right|done
    |by intros e He; apply Hinert, elem_of_app; right|].
  exists acc2. split; [done|].
  replace fuel
    with (length before
          + S (length rest + S (fuel - length before - length rest - 2)))%nat
    by lia.
  cbn [length Nat.add] in Hfirst. rewrite Hfirst. cbv zeta.
  rewrite dispatch_live_step.
  rewrite Hcallbacks, list_lookup_middle by done.
  rewrite (bind_run _ _ _ _
             (dispatch_one_live_unregisters invoke device advertisement_data
                acc1 entry self (before ++ next :: rest) Hacc1 Hsub Hinvoke
                ltac:(rewrite Hcallbacks; by apply list_remove_middle))).
  cbn [result after trace]. fold self'.
  rewrite length_app in Hsecond. cbn [length] in Hsecond.
  rewrite Nat.add_1_r in Hsecond. rewrite Hsecond. cbv zeta.
  rewrite dispatch_live_step.
  rewrite lookup_ge_None_2.
  2:{ subst self'. cbn. rewrite length_app. cbn [length]. lia. }
  cbn [result after trace]. by rewrite app_nil_r.
Qed.

(** X31.  A subscriber that calls its own handle while it is invoked takes
    its entry out of the list that the loop of [_device_detected] is
    iterating: the subscription next to it moves into its place and the
    loop passes over it.  When the other subscribers leave the manager alone
    and return or raise instances of [Exception], every subscription that
    takes the advertisement is invoked except the one next to the subscriber
    that unregistered; the run returns, and the discovery flows are
    requested. *)
Theorem unregistering_hides_the_next_subscriber
    (invoke : BluetoothCallback → BluetoothServiceInfoBleak → BluetoothChange
              → M unit)
    (fuel : nat) (device : BLEDevice)
    (advertisement_data : AdvertisementData) (self : BluetoothManager)
    (before rest : list callback_entry) (entry next : callback_entry) :
  BluetoothManager._callbacks self = before ++ entry :: next :: rest →
  entry ∉ before →
  subscribed device advertisement_data entry = true →
  invoke entry.1 (info_of device advertisement_data) ADVERTISEMENT
  = async_register_callback__async_remove_callback entry →
  Forall (caught device advertisement_data) (before ++ rest) →
  (∀ e,
     e ∈ before ++ rest →
     subscribed device advertisement_data e = true →
     invoke e.1 (info_of device advertisement_data) ADVERTISEMENT
     = inert e.1 (info_of device advertisement_data) ADVERTISEMENT) →
  (length (BluetoothManager._callbacks self) ≤ fuel)%nat →
  let o := _device_detected_live invoke fuel device advertisement_data self in
  let info := info_of device advertisement_data in
  result o = Returns (Some tt)
  ∧ called (trace o)
    = (λ entry, (entry.1, info))
      <$> filter (λ entry, subscribed device advertisement_data entry = true)
            (before ++ entry :: rest)
  ∧ BluetoothManager._callbacks (after o) = before ++ next :: rest
  ∧ flows (trace o)
    = (λ domain, (domain, SOURCE_BLUETOOTH, info))
      <$> iter_set
            (default ∅ (matched_domains_of self device advertisement_data)).
Proof.
  intros Hcallbacks Hfresh Hsub Hinvoke Hcaught Hinert Hfuel o info.
  set (self' := remembered self device advertisement_data).
  assert (BluetoothManager._callbacks self'
          = BluetoothManager._callbacks self) as Hsame.
  { subst self'. unfold remembered.
    destruct (matched_domains_of _ _ _); [|done]. by case_decide. }
  destruct (dispatch_live_unregistering invoke fuel device advertisement_data
              self' before entry next rest)
    as (acc & Hacc & Hloop); [congruence|done..|by rewrite Hsame|].
  assert (o = Outcome
                (BluetoothManager.with_callbacks (before ++ next :: rest)
                   self')
                (LoggedDeviceDetected device advertisement_data
                   (matched_domains_of self device advertisement_data)
                 :: ((before ≫= entry_events device advertisement_data)
                     ++ Called entry.1 info ADVERTISEMENT
                        :: (rest ≫= entry_events device advertisement_data))
                 ++ flow_events device advertisement_data
                      (matched_domains_of self device advertisement_data))
                (Returns (Some tt))) as ->.
  { subst o. unfold _device_detected_live, mbind, M_bind.
    rewrite (bind_run _ _ _ _ (match_domains_run _ _ _)).
    cbn [result after trace app].
    rewrite (bind_run _ _ _ _ (emit_run _ _)).
    cbn [result after trace app].
    rewrite (bind_run _ _ _ _ (get_run _)).
    cbn [result after trace app]. fold self'.
    rewrite Hsame, Hcallbacks.
    rewrite (bool_decide_eq_false_2 (before ++ entry :: next :: rest = []))
      by (by destruct before).
    rewrite andb_false_r.
    rewrite (bind_run _ _ _ _ Hloop). cbn [result after trace app].
    unfold flow_events.
    destruct (matched_domains_of self device advertisement_data)
      as [domains|]; cbn [default].
    2:{ rewrite iter_set_empty.
        rewrite (bind_run _ _ _ _ eq_refl). cbn. by rewrite !app_nil_r. }
    destruct (decide (domains = ∅)) as [->|Hne].
    { rewrite bool_decide_eq_true_2 by done. rewrite iter_set_empty.
      rewrite (bind_run _ _ _ _ eq_refl). cbn. by rewrite !app_nil_r. }
    rewrite bool_decide_eq_false_2 by done.
    assert (match acc with
            | Some service_info => service_info
            | None =>
                BluetoothServiceInfoBleak.from_advertisement device
                  advertisement_data SOURCE_LOCAL
            end = info_of device advertisement_data) as ->
      by (by destruct Hacc as [-> | ->]).
    rewrite (bind_run _ _ _ _
               (for_each_emit (iter_set domains)
                  (λ domain,
                     CreatedFlow domain SOURCE_BLUETOOTH
                       (info_of device advertisement_data)) _)).
    cbn. by rewrite app_nil_r. }
  cbn [result after trace]. split_and!; [done| | done |].
  - unfold called at 1. cbn [omap list_omap].
    rewrite !omap_app. cbn [omap list_omap].
    fold (called (before ≫= entry_events device advertisement_data)).
    fold (called (rest ≫= entry_events device advertisement_data)).
    fold (called (flow_events device advertisement_data
                    (matched_domains_of self device advertisement_data))).
    rewrite !called_entry_events, called_flow_events, app_nil_r.
    rewrite filter_app, filter_cons, (decide_True _ _ Hsub), fmap_app.
    done.
  - unfold flows at 1. cbn [omap list_omap].
    rewrite !omap_app. cbn [omap list_omap].
    fold (flows (before ≫= entry_events device advertisement_data)).
    fold (flows (rest ≫= entry_events device advertisement_data)).
    fold (flows (flow_events device advertisement_data
                   (matched_domains_of self device advertisement_data))).
    by rewrite !flows_entry_events, flows_flow_events.
Qed.

End Live.

(** The theorem at a registry whose first subscriber raises an
    [Exception]: three rounds of the loop over the list itself are the run
    of [_device_detected]. *)
Lemma the_loop_over_the_list_itself_witness :
  let o :=
    @_device_detected faulty sample_device full_advertisement
      two_subscribers in
  @_device_detected_live faulty (@inert faulty) 3 sample_device
    full_advertisement two_subscribers
  = Outcome (after o) (trace o) (Returns (Some tt))
  ∧ called (trace o)
    = [(1%nat, info_of sample_device full_advertisement);
       (2%nat, info_of sample_device full_advertisement)].
Proof.
  intros o. split; [|by vm_compute].
  rewrite (@the_loop_over_the_list_itself faulty 3 sample_device
             full_advertisement two_subscribers) by (cbn; lia).
  fold o. by assert (result o = Returns tt) as -> by (by vm_compute).
Defined.

(** Of the three subscribers [2], [1] and [3], [2] is for one advertisement
    only: [1] is not invoked for that advertisement, although it is
    registered before and after the run. *)
Lemma unregistering_hides_the_next_subscriber_witness :
  let o :=
    @_device_detected_live quiet one_shot 3 sample_device full_advertisement
      three_subscribers in
  let info := info_of sample_device full_advertisement in
  result o = Returns (Some tt)
  ∧ called (trace o) = [(2%nat, info); (3%nat, info)]
  ∧ BluetoothManager._callbacks (after o) = [(1%nat, None); (3%nat, None)]
  ∧ flows (trace o) = [("switchbot", SOURCE_BLUETOOTH, info)].
Proof.
  intros o info.
  destruct (@unregistering_hides_the_next_subscriber quiet one_shot 3
              sample_device full_advertisement three_subscribers
              [] [(3%nat, None)] (2%nat, None) (1%nat, None))
    as (Hresult & Hcalled & Hafter & Hflows).
  - reflexivity.
  - apply not_elem_of_nil.
  - reflexivity.
  - reflexivity.
  - repeat constructor.
  - intros e ->%list_elem_of_singleton _. reflexivity.
  - cbn. lia.
  - subst o info. split_and!.
    + exact Hresult.
    + rewrite Hcalled. reflexivity.
    + exact Hafter.
    + rewrite Hflows. vm_compute. reflexivity.
Defined.
